(** * LISA API: document expiration tracking, organization-scoped access

    A shallow embedding of [models.py] (the four tables) and of the request
    handlers of [main.py], followed by the properties of the access-control
    gate, the document store and the report projections.

    Conventions of the embedding.
    - A table is the list of its rows in storage order; [db.add] followed by
      [db.commit] appends a row, or raises [IntegrityError] when a primary
      key, a [unique] column or a [ForeignKey] declared in [models.py] is
      violated, and [DataError] when a string is longer than the width of
      its column ([String(50)] and the like).  A string is the list of its
      characters, so [String.length] is the length a column width bounds.
    - The order of the list is only what [.first()] scans; the order in
      which a query returns rows with equal sort keys is the engine's,
      statement by statement.
    - [query.filter(...).first()] is [List.find] over the table.
    - A handler is a function from the database to an outcome and the
      database it leaves behind; an exception leaves behind what had been
      committed when it was raised.
    - [uuid.uuid4()], [datetime.now()] and the server-side [func.now()] are
      inputs of the handler that uses them.
    - [datetime.fromisoformat], [datetime.isoformat], SQL [ILIKE] and the
      engine's [ORDER BY] belong to the Python library and to the storage
      engine: they are variables of the sections below. *)

From Stdlib Require Import ZArith List String Bool Lia Permutation Sorted.
From Stdlib Require Import SpecFloat Ascii.
Import ListNotations.
Open Scope string_scope.
Open Scope Z_scope.

(** ** Plain data *)

(** A timestamp, and a [Float] column as the IEEE 754 value it holds. *)
Definition datetime : Type := Z.

Module uuid.
Record UUID : Type := uuid4 { str : string; hex : string }.
End uuid.

(** Truthiness of an [Optional[str]]: [None] and the empty string are falsy. *)
Definition truthy (o : option string) : option string :=
  match o with
  | Some s => if (s =? "")%string then None else Some s
  | None => None
  end.

(** ** Exceptions and their HTTP status *)

Inductive exception : Type :=
| HTTPException (status_code : Z) (detail : string)
| RequestValidationError
| ValueError
| AttributeError
| IntegrityError
| DataError.

(** [HTTPException] carries its own status; the framework answers 422 to a
    request that fails parameter validation and 500 to any exception the
    handler lets escape, those of the storage engine included. *)
Definition status_code_of (e : exception) : Z :=
  match e with
  | HTTPException c _ => c
  | RequestValidationError => 422
  | ValueError | AttributeError | IntegrityError | DataError => 500
  end.

(** ** models.py *)

Module Organization.
Record t : Type := mk {
  id : string;
  name : string;
  email : string;
  subscription_status : string;
  plan_type : string;
  created_at : datetime
}.
End Organization.

Module User.
Record t : Type := mk {
  id : string;
  org_id : string;
  email : string;
  full_name : string;
  password : string;
  is_active : bool;
  created_at : datetime
}.
End User.

Module Document.
Record t : Type := mk {
  id : string;
  org_id : string;
  filename : string;
  gcs_object_key : string;
  status : string;
  expiry_date : option datetime;
  manual_override : bool;
  manual_override_date : option datetime;
  confidence_score : option spec_float;
  needs_review_reason : option string;
  created_at : datetime;
  processed_at : option datetime
}.

Definition set_status (v : string) (d : t) : t :=
  mk (id d) (org_id d) (filename d) (gcs_object_key d) v (expiry_date d)
     (manual_override d) (manual_override_date d) (confidence_score d)
     (needs_review_reason d) (created_at d) (processed_at d).

(** The three assignments of the [expiry_date] branch of [update_document]. *)
Definition set_expiry (v now : datetime) (d : t) : t :=
  mk (id d) (org_id d) (filename d) (gcs_object_key d) (status d) (Some v)
     true (Some now) (confidence_score d)
     (needs_review_reason d) (created_at d) (processed_at d).
End Document.

Module APIKey.
Record t : Type := mk {
  id : Z;
  api_key : string;
  user_id : string;
  created_at : datetime;
  is_active : bool
}.
End APIKey.

(** ** The database *)

Record Database : Type := mkDatabase {
  organizations : list Organization.t;
  users : list User.t;
  documents : list Document.t;
  api_keys : list APIKey.t;
  api_keys_id_seq : Z
}.

Definition empty_db : Database := mkDatabase [] [] [] [] 1.

(** ** Handlers as state-and-exception computations *)

Definition M (A : Type) : Type := Database -> (exception + A) * Database.

Definition ret {A} (a : A) : M A := fun db => (inr a, db).

Definition raise {A} (e : exception) : M A := fun db => (inl e, db).

Definition bind {A B} (c : M A) (k : A -> M B) : M B :=
  fun db =>
    match c db with
    | (inr a, db') => k a db'
    | (inl e, db') => (inl e, db')
    end.

Definition query {A} (q : Database -> A) : M A := fun db => (inr (q db), db).

Notation "x <- c ;; k" := (bind c (fun x => k))
  (at level 61, c at next level, right associativity).

(** Attribute access on the result of [.first()]: [None.org_id] raises. *)
Definition attr {R A} (o : option R) (f : R -> A) : M A :=
  match o with
  | Some r => ret (f r)
  | None => raise AttributeError
  end.

Definition has {A} (p : A -> bool) (l : list A) : bool := existsb p l.

(** *** Queries *)

Definition user_by_id (user_id : string) (db : Database) : option User.t :=
  find (fun u => (User.id u =? user_id)%string) (users db).

Definition user_by_email (email : string) (db : Database) : option User.t :=
  find (fun u => (User.email u =? email)%string) (users db).

Definition document_by_id (document_id : string) (db : Database)
  : option Document.t :=
  find (fun d => (Document.id d =? document_id)%string) (documents db).

Definition documents_of_org (org_id : string) (db : Database)
  : list Document.t :=
  filter (fun d => (Document.org_id d =? org_id)%string) (documents db).

Definition filter_status (status : option string) (l : list Document.t)
  : list Document.t :=
  match truthy status with
  | Some s => filter (fun d => (Document.status d =? s)%string) l
  | None => l
  end.

(** [ORDER BY created_at DESC] as a relation between neighbours. *)
Definition newer_first (a b : Document.t) : Prop :=
  Document.created_at b <= Document.created_at a.

(** [ORDER BY created_at DESC] as the storage engine performs it for a
    statement with the given [OFFSET] and [LIMIT]: a rearrangement of the
    selected rows with newer rows first.  The query names no second key,
    so the order of rows with equal [created_at] is the engine's choice,
    statement by statement. *)
Record ordering : Type := mkOrdering {
  order_rows : Z -> Z -> list Document.t -> list Document.t;
  order_permutes : forall o n l, Permutation (order_rows o n l) l;
  order_sorts : forall o n l, Sorted newer_first (order_rows o n l)
}.

(** [OFFSET] and [LIMIT] are [bigint] parameters of the statement. *)
Definition bigint_max : Z := 9223372036854775807.

(** [OFFSET o LIMIT n]: the engine rejects an offset beyond [bigint]. *)
Definition offset_limit {A} (o n : Z) (l : list A) : exception + list A :=
  if bigint_max <? o then inl DataError
  else inr (firstn (Z.to_nat n) (skipn (Z.to_nat o) l)).

(** A string fits a column of width [n]. *)
Definition fits (n : nat) (s : string) : bool :=
  (String.length s <=? n)%nat.

Definition within (n : nat) (s : string) : Prop :=
  (String.length s <= n)%nat.

(** *** Inserts, updates and deletes, each with its commit *)

Definition add_organization (o : Organization.t) : M unit := fun db =>
  if negb (fits 255 (Organization.name o)
           && fits 255 (Organization.email o)
           && fits 50 (Organization.subscription_status o)
           && fits 50 (Organization.plan_type o))
  then (inl DataError, db)
  else if has (fun x => (Organization.id x =? Organization.id o)%string
                   || (Organization.email x =? Organization.email o)%string)
         (organizations db)
  then (inl IntegrityError, db)
  else (inr tt, mkDatabase (organizations db ++ [o])%list (users db)
                           (documents db) (api_keys db) (api_keys_id_seq db)).

Definition add_user (u : User.t) : M unit := fun db =>
  if negb (fits 255 (User.email u) && fits 255 (User.full_name u)
           && fits 255 (User.password u))
  then (inl DataError, db)
  else if has (fun x => (User.id x =? User.id u)%string
                   || (User.email x =? User.email u)%string) (users db)
     || negb (has (fun o => (Organization.id o =? User.org_id u)%string)
                  (organizations db))
  then (inl IntegrityError, db)
  else (inr tt, mkDatabase (organizations db) (users db ++ [u])%list
                           (documents db) (api_keys db) (api_keys_id_seq db)).

Definition add_document (d : Document.t) : M unit := fun db =>
  if negb (fits 500 (Document.filename d)
           && fits 500 (Document.gcs_object_key d)
           && fits 50 (Document.status d))
  then (inl DataError, db)
  else if has (fun x => (Document.id x =? Document.id d)%string) (documents db)
     || negb (has (fun o => (Organization.id o =? Document.org_id d)%string)
                  (organizations db))
  then (inl IntegrityError, db)
  else (inr tt, mkDatabase (organizations db) (users db)
                           (documents db ++ [d])%list (api_keys db)
                           (api_keys_id_seq db)).

(** The [id] of an [APIKey] row is drawn from the table's sequence when
    the [INSERT] is evaluated: an insert that fails has consumed it. *)
Definition add_api_key (api_key user_id : string) (now : datetime) : M unit :=
  fun db =>
  let spent :=
    mkDatabase (organizations db) (users db) (documents db) (api_keys db)
      (api_keys_id_seq db + 1) in
  if negb (fits 255 api_key) then (inl DataError, spent)
  else if has (fun x => (APIKey.api_key x =? api_key)%string) (api_keys db)
          || negb (has (fun u => (User.id u =? user_id)%string) (users db))
  then (inl IntegrityError, spent)
  else (inr tt, mkDatabase (organizations db) (users db) (documents db)
                  (api_keys db
                   ++ [APIKey.mk (api_keys_id_seq db) api_key user_id now
                       true])%list
                  (api_keys_id_seq db + 1)).

(** [UPDATE documents SET ... WHERE id = document_id]: the statement
    sets the columns whose value changed, and a new [status] is held to
    the width of its column. *)
Definition status_overflows (document_id : string)
  (f : Document.t -> Document.t) (d : Document.t) : bool :=
  (Document.id d =? document_id)%string
  && negb (Document.status (f d) =? Document.status d)%string
  && negb (fits 50 (Document.status (f d))).

Definition update_document_row (document_id : string)
  (f : Document.t -> Document.t) : M unit := fun db =>
  if has (status_overflows document_id f) (documents db)
  then (inl DataError, db)
  else
    (inr tt, mkDatabase (organizations db) (users db)
               (map (fun d => if (Document.id d =? document_id)%string
                              then f d else d) (documents db))
               (api_keys db) (api_keys_id_seq db)).

(** [DELETE FROM documents WHERE id = document_id] *)
Definition delete_document_row (document_id : string) : M unit := fun db =>
  (inr tt, mkDatabase (organizations db) (users db)
             (filter (fun d => negb (Document.id d =? document_id)%string)
                     (documents db))
             (api_keys db) (api_keys_id_seq db)).

(** ** Request and response models of main.py *)

Record OrganizationSignup : Type := mkOrganizationSignup {
  org_name : string;
  org_email : string;
  user_email : string;
  signup_password : string;
  signup_full_name : string
}.

Record LoginRequest : Type := mkLoginRequest {
  login_email : string;
  login_password : string
}.

Record SignedURLRequest : Type := mkSignedURLRequest {
  sign_filename : string;
  content_type : string
}.

Record DocumentCreate : Type := mkDocumentCreate {
  object_key : string;
  create_filename : string
}.

Record DocumentUpdate : Type := mkDocumentUpdate {
  expiry_date : option string;
  status : option string
}.

(** The dictionary returned by [signup] and by [login]. *)
Record AuthResponse : Type := mkAuthResponse {
  auth_message : string;
  auth_api_key : string;
  auth_user_id : string;
  auth_org_id : string
}.

Record ProfileResponse : Type := mkProfileResponse {
  me_id : string;
  me_email : string;
  me_full_name : string;
  me_org_id : string;
  me_is_active : bool
}.

Record SignedURLResponse : Type := mkSignedURLResponse {
  signed_url : string;
  signed_object_key : string;
  expires_in : Z;
  method : string;
  signed_content_type : string
}.

Record CreatedDocument : Type := mkCreatedDocument {
  created_id : string;
  created_org_id : string;
  created_filename : string;
  created_gcs_object_key : string;
  created_status : string;
  created_created_at : string
}.

Record CreateResponse : Type := mkCreateResponse {
  create_message : string;
  create_document_body : CreatedDocument
}.

(** One element of [documents_list]. *)
Record ListItem : Type := mkListItem {
  item_id : string;
  item_org_id : string;
  item_filename : string;
  item_status : string;
  item_expiry_date : option string;
  item_manual_override : bool;
  item_confidence_score : option spec_float;
  item_created_at : string
}.

Record ListResponse : Type := mkListResponse {
  list_documents_items : list ListItem;
  list_total : Z;
  list_page : Z;
  list_page_size : Z;
  list_total_pages : Z
}.

Record DetailResponse : Type := mkDetailResponse {
  detail_id : string;
  detail_org_id : string;
  detail_filename : string;
  detail_gcs_object_key : string;
  detail_status : string;
  detail_expiry_date : option string;
  detail_manual_override : bool;
  detail_confidence_score : option spec_float;
  detail_needs_review_reason : option string;
  detail_created_at : string;
  detail_processed_at : option string
}.

Record UpdatedDocument : Type := mkUpdatedDocument {
  updated_id : string;
  updated_status : string;
  updated_expiry_date : option string;
  updated_manual_override : bool
}.

Record UpdateResponse : Type := mkUpdateResponse {
  update_message : string;
  update_document_body : UpdatedDocument
}.

Record ExportResponse : Type := mkExportResponse {
  export_message : string;
  download_url : string;
  total_records : Z;
  export_generated_at : string
}.

Record StatusBreakdown : Type := mkStatusBreakdown {
  active : Z;
  processing : Z;
  expired : Z;
  expiring_soon : Z;
  needs_review : Z
}.

Record SummaryResponse : Type := mkSummaryResponse {
  total_documents : Z;
  status_breakdown : StatusBreakdown;
  summary_generated_at : string
}.

Record CheckoutResponse : Type := mkCheckoutResponse {
  checkout_url : string;
  session_id : string;
  checkout_plan_type : string
}.

(** [len(...)] and [query.count()] *)
Definition len {A} (l : list A) : Z := Z.of_nat (List.length l).

(** ** Helper functions *)

Definition verify_api_key (x_api_key : option string) : M string :=
  match truthy x_api_key with
  | None => raise (HTTPException 401 "API key missing")
  | Some key =>
      api_key_record <-
        query (fun db =>
          find (fun k => (APIKey.api_key k =? key)%string
                         && Bool.eqb (APIKey.is_active k) true)
               (api_keys db)) ;;
      match api_key_record with
      | None => raise (HTTPException 401 "Invalid API key")
      | Some r => ret (APIKey.user_id r)
      end
  end.

(** ** Authentication endpoints *)

Definition signup (data : OrganizationSignup)
  (org_uuid user_uuid key_uuid : uuid.UUID)
  (now_org now_user now_key : datetime) : M AuthResponse :=
  existing <- query (user_by_email (user_email data)) ;;
  match existing with
  | Some _ => raise (HTTPException 400 "Email already registered")
  | None =>
      let org := Organization.mk (uuid.str org_uuid) (org_name data)
                   (org_email data) "active" "starter" now_org in
      _ <- add_organization org ;;
      let user := User.mk (uuid.str user_uuid) (Organization.id org)
                    (user_email data) (signup_full_name data)
                    (signup_password data) true now_user in
      _ <- add_user user ;;
      let api_key := "hlai_" ++ uuid.hex key_uuid in
      _ <- add_api_key api_key (User.id user) now_key ;;
      ret (mkAuthResponse "Signup successful" api_key (User.id user)
             (Organization.id org))
  end.

Definition login (data : LoginRequest) (key_uuid : uuid.UUID)
  (now_key : datetime) : M AuthResponse :=
  user <- query (user_by_email (login_email data)) ;;
  match user with
  | None => raise (HTTPException 401 "Invalid credentials")
  | Some user =>
      if negb (User.password user =? login_password data)%string
      then raise (HTTPException 401 "Invalid credentials")
      else
        let api_key := "hlai_" ++ uuid.hex key_uuid in
        _ <- add_api_key api_key (User.id user) now_key ;;
        ret (mkAuthResponse "Login successful" api_key (User.id user)
               (User.org_id user))
  end.

Definition get_current_user (x_api_key : option string) : M ProfileResponse :=
  user_id <- verify_api_key x_api_key ;;
  user <- query (user_by_id user_id) ;;
  match user with
  | None => raise (HTTPException 404 "User not found")
  | Some user =>
      ret (mkProfileResponse (User.id user) (User.email user)
             (User.full_name user) (User.org_id user) (User.is_active user))
  end.

(** ** Upload endpoints *)

Definition generate_signed_upload_url (data : SignedURLRequest)
  (x_api_key : option string) (key_uuid : uuid.UUID) : M SignedURLResponse :=
  user_id <- verify_api_key x_api_key ;;
  let object_key :=
    "documents/" ++ uuid.str key_uuid ++ "/" ++ sign_filename data in
  let signed_url :=
    "https://storage.googleapis.com/hellolisa-documents/" ++ object_key
    ++ "?signature=mock_signature&expires=900" in
  ret (mkSignedURLResponse signed_url object_key 900 "PUT"
         (content_type data)).

(** ** Document and report endpoints *)

(** A [Query] parameter that is absent takes its declared default. *)
Definition query_default (default : Z) (v : option Z) : Z :=
  match v with
  | Some z => z
  | None => default
  end.

Section Handlers.

(** [datetime.fromisoformat]: [None] stands for the [ValueError] it raises. *)
Variable fromisoformat : string -> option datetime.
(** [datetime.isoformat] *)
Variable isoformat : datetime -> string.
(** [column.ilike(pattern)], as the storage engine evaluates it. *)
Variable ilike : string -> string -> bool.
(** [query.order_by(Document.created_at.desc())] *)
Variable order_by : ordering.

Definition create_document (data : DocumentCreate)
  (x_api_key : option string) (doc_uuid : uuid.UUID) (now : datetime)
  : M CreateResponse :=
  user_id <- verify_api_key x_api_key ;;
  user <- query (user_by_id user_id) ;;
  match user with
  | None => raise (HTTPException 404 "User not found")
  | Some user =>
      let doc_id := uuid.str doc_uuid in
      let document :=
        Document.mk doc_id (User.org_id user) (create_filename data)
          (object_key data) "processing" None false None None None now None in
      _ <- add_document document ;;
      ret (mkCreateResponse "Document created successfully"
             (mkCreatedDocument (Document.id document)
                (Document.org_id document) (Document.filename document)
                (Document.gcs_object_key document) (Document.status document)
                (isoformat (Document.created_at document))))
  end.

Definition filter_search (search : option string) (l : list Document.t)
  : list Document.t :=
  match truthy search with
  | Some s => filter (fun d => ilike (Document.filename d) ("%" ++ s ++ "%")) l
  | None => l
  end.

Definition list_item (doc : Document.t) : ListItem :=
  mkListItem (Document.id doc) (Document.org_id doc) (Document.filename doc)
    (Document.status doc) (option_map isoformat (Document.expiry_date doc))
    (Document.manual_override doc) (Document.confidence_score doc)
    (isoformat (Document.created_at doc)).

(** The rows the list query selects, before ordering and pagination. *)
Definition list_query (org_id : string) (status search : option string)
  (db : Database) : list Document.t :=
  filter_search search (filter_status status (documents_of_org org_id db)).

(** The key is resolved before the query parameters are validated. *)
Definition list_documents (page page_size : option Z)
  (status search : option string) (x_api_key : option string)
  : M ListResponse :=
  user_id <- verify_api_key x_api_key ;;
  let page := query_default 1 page in
  let page_size := query_default 50 page_size in
  if (page <? 1) || (page_size <? 1) || (100 <? page_size)
  then raise RequestValidationError
  else
    user <- query (user_by_id user_id) ;;
    match user with
    | None => raise (HTTPException 404 "User not found")
    | Some user =>
        matching <- query (list_query (User.org_id user) status search) ;;
        let total := len matching in
        let offset := (page - 1) * page_size in
        match
          offset_limit offset page_size
            (order_rows order_by offset page_size matching)
        with
        | inl e => raise e
        | inr documents =>
            ret (mkListResponse (map list_item documents) total page
                   page_size ((total + page_size - 1) / page_size))
        end
    end.

Definition get_document (document_id : string) (x_api_key : option string)
  : M DetailResponse :=
  user_id <- verify_api_key x_api_key ;;
  user <- query (user_by_id user_id) ;;
  document <- query (document_by_id document_id) ;;
  match document with
  | None => raise (HTTPException 404 "Document not found")
  | Some document =>
      user_org_id <- attr user User.org_id ;;
      if negb (Document.org_id document =? user_org_id)%string
      then raise (HTTPException 403 "Access denied")
      else
        ret (mkDetailResponse (Document.id document)
               (Document.org_id document) (Document.filename document)
               (Document.gcs_object_key document) (Document.status document)
               (option_map isoformat (Document.expiry_date document))
               (Document.manual_override document)
               (Document.confidence_score document)
               (Document.needs_review_reason document)
               (isoformat (Document.created_at document))
               (option_map isoformat (Document.processed_at document)))
  end.

(** The assignments [update_document] makes on the loaded row, in order;
    [inl] when [datetime.fromisoformat] raises. *)
Definition apply_update (data : DocumentUpdate) (now : datetime)
  : exception + (Document.t -> Document.t) :=
  match
    match truthy (expiry_date data) with
    | Some e =>
        match fromisoformat e with
        | Some parsed => inr (Document.set_expiry parsed now)
        | None => inl ValueError
        end
    | None => inr (fun d => d)
    end
  with
  | inl e => inl e
  | inr set1 =>
      match truthy (status data) with
      | Some s => inr (fun d => Document.set_status s (set1 d))
      | None => inr set1
      end
  end.

(** [db.refresh] reloads the row that was just written, so the response is
    built from the updated row. *)
Definition update_document (document_id : string) (data : DocumentUpdate)
  (x_api_key : option string) (now : datetime) : M UpdateResponse :=
  user_id <- verify_api_key x_api_key ;;
  user <- query (user_by_id user_id) ;;
  document <- query (document_by_id document_id) ;;
  match document with
  | None => raise (HTTPException 404 "Document not found")
  | Some document =>
      user_org_id <- attr user User.org_id ;;
      if negb (Document.org_id document =? user_org_id)%string
      then raise (HTTPException 403 "Access denied")
      else
        match apply_update data now with
        | inl e => raise e
        | inr assign =>
            _ <- update_document_row (Document.id document) assign ;;
            let document := assign document in
            ret (mkUpdateResponse "Document updated successfully"
                   (mkUpdatedDocument (Document.id document)
                      (Document.status document)
                      (option_map isoformat (Document.expiry_date document))
                      (Document.manual_override document)))
        end
  end.

Definition delete_document (document_id : string) (x_api_key : option string)
  : M unit :=
  user_id <- verify_api_key x_api_key ;;
  user <- query (user_by_id user_id) ;;
  document <- query (document_by_id document_id) ;;
  match document with
  | None => raise (HTTPException 404 "Document not found")
  | Some document =>
      user_org_id <- attr user User.org_id ;;
      if negb (Document.org_id document =? user_org_id)%string
      then raise (HTTPException 403 "Access denied")
      else delete_document_row (Document.id document)
  end.

Definition export_documents_csv (start_date end_date : option string)
  (status_filter : option string) (x_api_key : option string)
  (file_uuid : uuid.UUID) (now : datetime) : M ExportResponse :=
  user_id <- verify_api_key x_api_key ;;
  user <- query (user_by_id user_id) ;;
  user_org_id <- attr user User.org_id ;;
  org_documents <- query (documents_of_org user_org_id) ;;
  let total_records := len (filter_status status_filter org_documents) in
  ret (mkExportResponse "CSV export ready"
         ("https://api.hellolisa.ai/downloads/export_" ++ uuid.str file_uuid
          ++ ".csv")
         total_records (isoformat now)).

Definition count_status (s : string) (documents : list Document.t) : Z :=
  len (filter (fun d => (Document.status d =? s)%string) documents).

Definition get_documents_summary (x_api_key : option string) (now : datetime)
  : M SummaryResponse :=
  user_id <- verify_api_key x_api_key ;;
  user <- query (user_by_id user_id) ;;
  user_org_id <- attr user User.org_id ;;
  documents <- query (documents_of_org user_org_id) ;;
  let total := len documents in
  let active := count_status "active" documents in
  let processing := count_status "processing" documents in
  let expired := count_status "expired" documents in
  let expiring_soon := count_status "expiring_soon" documents in
  let needs_review := count_status "needs_review" documents in
  ret (mkSummaryResponse total
         (mkStatusBreakdown active processing expired expiring_soon
            needs_review)
         (isoformat now)).

Definition create_stripe_checkout_session (plan_type : string)
  (x_api_key : option string) (url_uuid session_uuid : uuid.UUID)
  : M CheckoutResponse :=
  user_id <- verify_api_key x_api_key ;;
  let valid_plans := ["starter"; "pro"; "premium"] in
  if negb (existsb (fun p => (p =? plan_type)%string) valid_plans)
  then raise (HTTPException 400 "Invalid plan type")
  else
    ret (mkCheckoutResponse
           ("https://checkout.stripe.com/pay/cs_test_" ++ uuid.hex url_uuid)
           ("cs_test_" ++ uuid.hex session_uuid) plan_type).

(** ** The service: every request that reads or writes the database *)

Inductive Response : Type :=
| AuthBody (r : AuthResponse)
| ProfileBody (r : ProfileResponse)
| SignedURLBody (r : SignedURLResponse)
| CreateBody (r : CreateResponse)
| ListBody (r : ListResponse)
| DetailBody (r : DetailResponse)
| UpdateBody (r : UpdateResponse)
| NoBody
| ExportBody (r : ExportResponse)
| SummaryBody (r : SummaryResponse)
| CheckoutBody (r : CheckoutResponse).

Definition respond {A} (wrap : A -> Response) (c : M A) : M Response :=
  a <- c ;; ret (wrap a).

(** The endpoints that depend on [verify_api_key]. *)
Inductive BearerRequest : Type :=
| GetCurrentUser
| GenerateSignedUploadUrl (data : SignedURLRequest) (key_uuid : uuid.UUID)
| CreateDocument (data : DocumentCreate) (doc_uuid : uuid.UUID)
    (now : datetime)
| ListDocuments (page page_size : option Z) (status search : option string)
| GetDocument (document_id : string)
| UpdateDocument (document_id : string) (data : DocumentUpdate)
    (now : datetime)
| DeleteDocument (document_id : string)
| ExportDocumentsCsv (start_date end_date status_filter : option string)
    (file_uuid : uuid.UUID) (now : datetime)
| GetDocumentsSummary (now : datetime)
| CreateStripeCheckoutSession (plan_type : string)
    (url_uuid session_uuid : uuid.UUID).

Definition serve_bearer (r : BearerRequest) (x_api_key : option string)
  : M Response :=
  match r with
  | GetCurrentUser => respond ProfileBody (get_current_user x_api_key)
  | GenerateSignedUploadUrl data u =>
      respond SignedURLBody (generate_signed_upload_url data x_api_key u)
  | CreateDocument data u now =>
      respond CreateBody (create_document data x_api_key u now)
  | ListDocuments page page_size status search =>
      respond ListBody (list_documents page page_size status search x_api_key)
  | GetDocument document_id =>
      respond DetailBody (get_document document_id x_api_key)
  | UpdateDocument document_id data now =>
      respond UpdateBody (update_document document_id data x_api_key now)
  | DeleteDocument document_id =>
      respond (fun _ => NoBody) (delete_document document_id x_api_key)
  | ExportDocumentsCsv start_date end_date status_filter u now =>
      respond ExportBody
        (export_documents_csv start_date end_date status_filter x_api_key
           u now)
  | GetDocumentsSummary now =>
      respond SummaryBody (get_documents_summary x_api_key now)
  | CreateStripeCheckoutSession plan_type u1 u2 =>
      respond CheckoutBody
        (create_stripe_checkout_session plan_type x_api_key u1 u2)
  end.

Inductive Request : Type :=
| Signup (data : OrganizationSignup)
    (org_uuid user_uuid key_uuid : uuid.UUID)
    (now_org now_user now_key : datetime)
| Login (data : LoginRequest) (key_uuid : uuid.UUID) (now_key : datetime)
| Bearer (x_api_key : option string) (r : BearerRequest).

Definition serve (r : Request) : M Response :=
  match r with
  | Signup data u1 u2 u3 t1 t2 t3 =>
      respond AuthBody (signup data u1 u2 u3 t1 t2 t3)
  | Login data u t => respond AuthBody (login data u t)
  | Bearer x_api_key r => serve_bearer r x_api_key
  end.

(** The states the service can be in: it starts on empty tables and moves
    by serving requests. *)
Inductive reachable : Database -> Prop :=
| reachable_empty : reachable empty_db
| reachable_serve (r : Request) (db : Database) :
    reachable db -> reachable (snd (serve r db)).

End Handlers.

(** The user a key stands for: the result of [verify_api_key] looked up in
    the users table, as every document handler does first. *)
Definition caller (x_api_key : option string) (db : Database)
  : option User.t :=
  match verify_api_key x_api_key db with
  | (inr user_id, _) => user_by_id user_id db
  | (inl _, _) => None
  end.

(** The primary keys and unique columns of models.py. *)
Record constraints (db : Database) : Prop := mkConstraints {
  organizations_pk : NoDup (map Organization.id (organizations db));
  organizations_email : NoDup (map Organization.email (organizations db));
  users_pk : NoDup (map User.id (users db));
  users_email : NoDup (map User.email (users db));
  documents_pk : NoDup (map Document.id (documents db));
  api_keys_unique : NoDup (map APIKey.api_key (api_keys db))
}.

(** ** A concrete library and engine, to run the handlers *)

Definition lower (c : Ascii.ascii) : Ascii.ascii :=
  let n := Ascii.nat_of_ascii c in
  if ((65 <=? n) && (n <=? 90))%nat then Ascii.ascii_of_nat (n + 32) else c.

(** [ILIKE] with the wildcards [%] and [_], ASCII case folding. *)
Fixpoint ilike_ascii_pattern (pattern : string) : string -> bool :=
  match pattern with
  | EmptyString => fun s => match s with EmptyString => true | _ => false end
  | String "%"%char rest =>
      fix any (s : string) : bool :=
        ilike_ascii_pattern rest s
        || match s with EmptyString => false | String _ s' => any s' end
  | String "_"%char rest =>
      fun s => match s with
               | String _ s' => ilike_ascii_pattern rest s'
               | EmptyString => false
               end
  | String c rest =>
      fun s => match s with
               | String c' s' =>
                   Ascii.eqb (lower c) (lower c')
                   && ilike_ascii_pattern rest s'
               | EmptyString => false
               end
  end.

Definition ilike_ascii (subject pattern : string) : bool :=
  ilike_ascii_pattern pattern subject.

(** A parser that knows two timestamps, and a printer of seconds. *)
Definition fromisoformat_sample (s : string) : option datetime :=
  if (s =? "2025-01-01T00:00:00")%string then Some 1735689600
  else if (s =? "2026-06-30T12:00:00")%string then Some 1782820800
  else None.

Definition isoformat_sample (t : datetime) : string :=
  if t =? 1735689600 then "2025-01-01T00:00:00"
  else if t =? 1782820800 then "2026-06-30T12:00:00"
  else "1970-01-01T00:00:00".

(** An engine that sorts by insertion and returns rows with equal
    [created_at] in the order it met them. *)
Fixpoint insert_desc (d : Document.t) (l : list Document.t)
  : list Document.t :=
  match l with
  | [] => [d]
  | x :: r =>
      if Document.created_at x <=? Document.created_at d
      then d :: x :: r
      else x :: insert_desc d r
  end.

Definition insertion_order : ordering.
Proof.
  refine (mkOrdering (fun _ _ => fold_right insert_desc []) _ _).
  - assert (Hins : forall d l, Permutation (insert_desc d l) (d :: l)).
    { intros d l. induction l as [|x r IH]; simpl;
        [apply Permutation_refl|].
      destruct (Document.created_at x <=? Document.created_at d);
        [apply Permutation_refl|].
      apply Permutation_trans with (x :: d :: r);
        [apply perm_skip; exact IH|apply perm_swap]. }
    intros _ _ l. induction l as [|d l IH]; simpl; [apply perm_nil|].
    apply Permutation_trans with (d :: fold_right insert_desc [] l);
      [apply Hins|apply perm_skip; exact IH].
  - assert (Hins : forall d l, Sorted newer_first l ->
                               Sorted newer_first (insert_desc d l)).
    { intros d l. induction l as [|x r IH]; intros Hs; simpl.
      - constructor; constructor.
      - destruct (Document.created_at x <=? Document.created_at d) eqn:Hle.
        + constructor; [exact Hs|]. constructor.
          unfold newer_first. apply Z.leb_le. exact Hle.
        + inversion Hs as [|? ? Hr Hhd]; subst.
          constructor; [apply IH; exact Hr|].
          apply Z.leb_gt in Hle.
          destruct r as [|y r']; simpl.
          * constructor. unfold newer_first. lia.
          * destruct (Document.created_at y <=? Document.created_at d);
              constructor; [unfold newer_first; lia|].
            inversion Hhd; assumption. }
    intros _ _ l. induction l as [|d l IH]; simpl; [constructor|].
    apply Hins. exact IH.
Defined.

(** Serving a list of requests in order. *)
Definition run (rs : list Request) (db : Database) : Database :=
  fold_left
    (fun db r => snd (serve fromisoformat_sample isoformat_sample ilike_ascii
                        insertion_order r db))
    rs db.

Definition uuid_of (s : string) : uuid.UUID := uuid.uuid4 s s.

(** Two organizations sign up and register three documents. *)
Definition two_tenants : list Request :=
  [ Signup (mkOrganizationSignup "Acme" "a@acme.test" "u@acme.test" "pw"
              "Alice")
      (uuid_of "org-acme") (uuid_of "user-alice") (uuid_of "k1") 100 100 100;
    Signup (mkOrganizationSignup "Globex" "g@globex.test" "u@globex.test"
              "pw2" "Bob")
      (uuid_of "org-globex") (uuid_of "user-bob") (uuid_of "k2") 200 200 200;
    Bearer (Some "hlai_k1")
      (CreateDocument (mkDocumentCreate "k1" "lease.pdf") (uuid_of "doc-1")
         300);
    Bearer (Some "hlai_k2")
      (CreateDocument (mkDocumentCreate "k2" "permit.pdf") (uuid_of "doc-2")
         400);
    Bearer (Some "hlai_k1")
      (CreateDocument (mkDocumentCreate "k3" "License.PDF") (uuid_of "doc-3")
         500) ].

Definition two_tenants_db : Database :=
  Eval vm_compute in run two_tenants empty_db.

Definition alice : User.t :=
  User.mk "user-alice" "org-acme" "u@acme.test" "Alice" "pw" true 100.

(** Alice's first document, as [two_tenants] leaves it. *)
Definition lease : Document.t :=
  Document.mk "doc-1" "org-acme" "lease.pdf" "k1" "processing" None false
    None None None 300 None.




(** A user switched off directly in the table: no endpoint does it. *)
Definition deactivate (user_id : string) (db : Database) : Database :=
  mkDatabase (organizations db)
    (map (fun u => if (User.id u =? user_id)%string
                   then User.mk (User.id u) (User.org_id u) (User.email u)
                          (User.full_name u) (User.password u) false
                          (User.created_at u)
                   else u)
         (users db))
    (documents db) (api_keys db) (api_keys_id_seq db).

(** A computation that raises no exception of status 401, whatever the
    database. *)
Definition never_401 {A} (c : M A) : Prop :=
  forall db e, fst (c db) = inl e -> status_code_of e <> 401.

(** Every user switched on: the database as it would be if no flag had
    ever been cleared. *)
Definition activate_user (u : User.t) : User.t :=
  User.mk (User.id u) (User.org_id u) (User.email u) (User.full_name u)
    (User.password u) true (User.created_at u).

Definition activate (db : Database) : Database :=
  mkDatabase (organizations db) (map activate_user (users db))
    (documents db) (api_keys db) (api_keys_id_seq db).

(** A computation that does not see [User.is_active]: on the activated
    database it returns the same outcome and leaves the activated
    result. *)
Definition blind {A} (c : M A) : Prop :=
  forall db, c (activate db) = (fst (c db), activate (snd (c db))).

Definition suspended_db : Database :=
  Eval vm_compute in deactivate "user-alice" two_tenants_db.

Definition alice_suspended : User.t :=
  User.mk "user-alice" "org-acme" "u@acme.test" "Alice" "pw" false 100.

(** A computation that keeps the primary keys and unique columns. *)
Definition preserves {A} (c : M A) : Prop :=
  forall db, constraints db -> constraints (snd (c db)).

(** One organization with five documents whose statuses end up as active,
    active, processing, expired and needs_review. *)
Definition five_statuses : list Request :=
  [ Signup (mkOrganizationSignup "Acme" "a@acme.test" "u@acme.test" "pw"
              "Alice")
      (uuid_of "org-acme") (uuid_of "user-alice") (uuid_of "k1") 100 100 100;
    Bearer (Some "hlai_k1")
      (CreateDocument (mkDocumentCreate "o1" "a.pdf") (uuid_of "d1") 201);
    Bearer (Some "hlai_k1")
      (CreateDocument (mkDocumentCreate "o2" "b.pdf") (uuid_of "d2") 202);
    Bearer (Some "hlai_k1")
      (CreateDocument (mkDocumentCreate "o3" "c.pdf") (uuid_of "d3") 203);
    Bearer (Some "hlai_k1")
      (CreateDocument (mkDocumentCreate "o4" "d.pdf") (uuid_of "d4") 204);
    Bearer (Some "hlai_k1")
      (CreateDocument (mkDocumentCreate "o5" "e.pdf") (uuid_of "d5") 205);
    Bearer (Some "hlai_k1")
      (UpdateDocument "d1" (mkDocumentUpdate None (Some "active")) 301);
    Bearer (Some "hlai_k1")
      (UpdateDocument "d2" (mkDocumentUpdate None (Some "active")) 302);
    Bearer (Some "hlai_k1")
      (UpdateDocument "d4" (mkDocumentUpdate None (Some "expired")) 304);
    Bearer (Some "hlai_k1")
      (UpdateDocument "d5" (mkDocumentUpdate None (Some "needs_review"))
         305) ].

Definition five_statuses_db : Database :=
  Eval vm_compute in run five_statuses empty_db.

(** The same, and a second organization with two documents of its own:
    one active, one with a status the summary does not recognize. *)
Definition bob : User.t :=
  User.mk "user-bob" "org-globex" "u@globex.test" "Bob" "pw2" true 400.

Definition two_summaries : list Request :=
  (five_statuses
   ++ [ Signup (mkOrganizationSignup "Globex" "g@globex.test"
                  "u@globex.test" "pw2" "Bob")
          (uuid_of "org-globex") (uuid_of "user-bob") (uuid_of "k2")
          400 400 400;
        Bearer (Some "hlai_k2")
          (CreateDocument (mkDocumentCreate "o6" "f.pdf") (uuid_of "d6")
             401);
        Bearer (Some "hlai_k2")
          (UpdateDocument "d6" (mkDocumentUpdate None (Some "active")) 402);
        Bearer (Some "hlai_k2")
          (CreateDocument (mkDocumentCreate "o7" "g.pdf") (uuid_of "d7")
             403);
        Bearer (Some "hlai_k2")
          (UpdateDocument "d7" (mkDocumentUpdate None (Some "archived"))
             404) ])%list.

Definition two_summaries_db : Database :=
  Eval vm_compute in run two_summaries empty_db.

(** The document-scoped operations and the document they address. *)
Definition document_scoped (r : BearerRequest) : option string :=
  match r with
  | GetDocument document_id
  | UpdateDocument document_id _ _
  | DeleteDocument document_id => Some document_id
  | _ => None
  end.

(** The five status strings the summary recognizes. *)
Definition recognized (s : string) : bool :=
  existsb (String.eqb s)
    ["active"; "processing"; "expired"; "expiring_soon"; "needs_review"].



(** ** The alert sweep *)

Record AlertsResponse : Type := mkAlertsResponse {
  alerts_status : string;
  alerts_sent : Z;
  checked_at : string
}.

(** [check_expiring_documents] takes no key and reads the whole table. *)
Definition check_expiring_documents (isoformat : datetime -> string)
  (now : datetime) : M AlertsResponse :=
  documents <-
    query (fun db =>
      filter (fun d => match Document.expiry_date d with
                       | Some _ => true
                       | None => false
                       end)
             (documents db)) ;;
  let alerts_sent := len documents in
  ret (mkAlertsResponse "success" alerts_sent (isoformat now)).

(** ** Invariants of the service *)

(** A computation that keeps a property of the database. *)
Definition keeps {A} (P : Database -> Prop) (c : M A) : Prop :=
  forall db, P db -> P (snd (c db)).

(** The override fields move together, and the fields no endpoint writes
    stay unset. *)
Definition override_coherent (d : Document.t) : Prop :=
  match Document.expiry_date d with
  | Some _ =>
      Document.manual_override d = true
      /\ Document.manual_override_date d <> None
  | None =>
      Document.manual_override d = false
      /\ Document.manual_override_date d = None
  end.

Definition never_written (d : Document.t) : Prop :=
  Document.confidence_score d = None
  /\ Document.needs_review_reason d = None
  /\ Document.processed_at d = None.

Definition organization_exists (org_id : string) (db : Database) : bool :=
  has (fun o => (Organization.id o =? org_id)%string) (organizations db).

Definition user_exists (user_id : string) (db : Database) : bool :=
  has (fun u => (User.id u =? user_id)%string) (users db).

Record api_invariant (db : Database) : Prop := mkApiInvariant {
  users_active : Forall (fun u => User.is_active u = true) (users db);
  users_org :
    Forall (fun u => organization_exists (User.org_id u) db = true)
      (users db);
  documents_org :
    Forall (fun d => organization_exists (Document.org_id d) db = true)
      (documents db);
  documents_shape :
    Forall (fun d => override_coherent d /\ never_written d) (documents db);
  keys_active : Forall (fun k => APIKey.is_active k = true) (api_keys db);
  keys_nonempty : Forall (fun k => APIKey.api_key k <> "") (api_keys db);
  keys_user :
    Forall (fun k => user_exists (APIKey.user_id k) db = true) (api_keys db);
  keys_below_seq :
    Forall (fun k => APIKey.id k < api_keys_id_seq db) (api_keys db)
}.

(** Two databases with the same rows in every table; the sequence of
    the keys table is not a row. *)
Definition same_tables (a b : Database) : Prop :=
  organizations a = organizations b
  /\ users a = users b
  /\ documents a = documents b
  /\ api_keys a = api_keys b.

(** A computation that, on each database, either leaves it as it is, up
    to [R], or returns a value. *)
Definition clean (R : Database -> Database -> Prop) {A} (c : M A) : Prop :=
  forall db, R (snd (c db)) db \/ exists a, fst (c db) = inr a.

(** The requests that only read. *)
Definition read_only (r : BearerRequest) : bool :=
  match r with
  | CreateDocument _ _ _ | UpdateDocument _ _ _ | DeleteDocument _ => false
  | _ => true
  end.

(** ** Properties *)

(** *** Basic facts about the queries *)

Lemma verify_api_key_reads (key : option string) (db : Database) :
  snd (verify_api_key key db) = db.
Proof.
  unfold verify_api_key.
  destruct (truthy key) as [k|]; [|reflexivity].
  unfold bind, query.
  destruct (find _ (api_keys db)); reflexivity.
Qed.

Lemma caller_inv (key : option string) (db : Database) (u : User.t) :
  caller key db = Some u ->
  exists user_id,
    verify_api_key key db = (inr user_id, db)
    /\ user_by_id user_id db = Some u.
Proof.
  unfold caller. intros H.
  pose proof (verify_api_key_reads key db) as Hs.
  destruct (verify_api_key key db) as [[e|uid] db'] eqn:Hv;
    [discriminate|].
  simpl in Hs. subst db'. exists uid. split; [reflexivity|assumption].
Qed.

Lemma find_none_iff {A} (p : A -> bool) (l : list A) :
  find p l = None <-> forall x, In x l -> p x = false.
Proof.
  split.
  - apply find_none.
  - induction l as [|a l IH]; intros H; [reflexivity|].
    simpl. rewrite (H a (or_introl eq_refl)).
    apply IH. intros x Hx. apply H. right. exact Hx.
Qed.

Lemma has_false {A} (p : A -> bool) (l : list A) :
  (forall y, In y l -> p y = false) -> has p l = false.
Proof.
  intros H. unfold has. induction l as [|a l IH]; [reflexivity|].
  simpl. rewrite (H a (or_introl eq_refl)). apply IH.
  intros y Hy. apply H. right. exact Hy.
Qed.

Lemma has_true {A} (p : A -> bool) (l : list A) (x : A) :
  In x l -> p x = true -> has p l = true.
Proof.
  intros Hin Hx. unfold has. apply existsb_exists. exists x. auto.
Qed.

Lemma has_false_inv {A} (p : A -> bool) (l : list A) (y : A) :
  has p l = false -> In y l -> p y = false.
Proof.
  unfold has. intros H Hy.
  destruct (p y) eqn:Hp; [|reflexivity].
  rewrite <- H. symmetry. apply existsb_exists. exists y. auto.
Qed.

(** Under a primary key, the lookup by key returns the row that has it. *)
Lemma find_by_key {A} (key : A -> string) (l : list A) (x : A) :
  NoDup (map key l) -> In x l ->
  find (fun y => (key y =? key x)%string) l = Some x.
Proof.
  induction l as [|a l IH]; intros Hnd Hin; [contradiction|].
  simpl in Hnd. inversion Hnd as [|? ? Hnotin Hnd']; subst.
  simpl. destruct (String.eqb_spec (key a) (key x)) as [E|E].
  - destruct Hin as [->|Hin]; [reflexivity|].
    exfalso. apply Hnotin. rewrite E. apply in_map. exact Hin.
  - destruct Hin as [->|Hin]; [congruence|]. apply IH; assumption.
Qed.

Lemma document_by_id_absent (D : string) (db : Database) :
  (forall d, In d (documents db) -> Document.id d <> D) ->
  document_by_id D db = None.
Proof.
  intros H. unfold document_by_id. apply find_none_iff.
  intros d Hd. apply String.eqb_neq. apply H. exact Hd.
Qed.

Lemma document_by_id_present (D : string) (db : Database) (d : Document.t) :
  document_by_id D db = Some d ->
  In d (documents db) /\ Document.id d = D.
Proof.
  unfold document_by_id. intros H. apply find_some in H.
  destruct H as [Hin Heq]. apply String.eqb_eq in Heq. auto.
Qed.

Lemma document_by_id_unique (db : Database) (d : Document.t) :
  NoDup (map Document.id (documents db)) -> In d (documents db) ->
  document_by_id (Document.id d) db = Some d.
Proof.
  intros Hnd Hin. unfold document_by_id.
  apply (find_by_key Document.id); assumption.
Qed.

(** What the three document-scoped handlers share: the lookups and the
    two checks of the gate. *)
Ltac enter_gate Hv Hu :=
  unfold serve_bearer, respond, get_document, update_document,
    delete_document, bind, query;
  rewrite Hv; cbv beta iota; rewrite ?Hu.

Section Gate.

Variable fromisoformat : string -> option datetime.
Variable isoformat : datetime -> string.
Variable ilike : string -> string -> bool.
Variable order_by : ordering.

(** C1. A document-scoped operation (get, update, delete) called with
    document id [D] under a key of a user [u] of organization [O]:
    fails 404 when no document has id [D]; fails 403 and leaves the
    database as it was when the document with id [D] belongs to another
    organization; and returns a response only when a document with id [D]
    exists and its [org_id] is [O]. *)
Theorem document_gate (db : Database) (key : option string) (u : User.t)
  (r : BearerRequest) (D : string) :
  constraints db ->
  caller key db = Some u ->
  document_scoped r = Some D ->
  ((forall d, In d (documents db) -> Document.id d <> D) ->
   serve_bearer fromisoformat isoformat ilike order_by r key db
   = (inl (HTTPException 404 "Document not found"), db)
   /\ status_code_of (HTTPException 404 "Document not found") = 404)
  /\ (forall d, In d (documents db) -> Document.id d = D ->
      Document.org_id d <> User.org_id u ->
      serve_bearer fromisoformat isoformat ilike order_by r key db
      = (inl (HTTPException 403 "Access denied"), db)
      /\ status_code_of (HTTPException 403 "Access denied") = 403)
  /\ (forall body db',
      serve_bearer fromisoformat isoformat ilike order_by r key db = (inr
          body, db') ->
      exists d, In d (documents db) /\ Document.id d = D
                /\ Document.org_id d = User.org_id u).
Proof.
  intros Hc Hcaller Hr.
  destruct (caller_inv _ _ _ Hcaller) as [uid [Hv Hu]].
  split; [|split].
  - intros Habs. split; [|reflexivity].
    apply document_by_id_absent in Habs.
    destruct r; try discriminate; simpl in Hr; injection Hr as ->;
      enter_gate Hv Hu; rewrite Habs; reflexivity.
  - intros d Hin Hid Horg. split; [|reflexivity].
    pose proof (document_by_id_unique db d (documents_pk db Hc) Hin) as Hd.
    rewrite Hid in Hd.
    apply String.eqb_neq in Horg.
    destruct r; try discriminate; simpl in Hr; injection Hr as ->;
      enter_gate Hv Hu; rewrite Hd; simpl; unfold bind, ret;
      simpl; rewrite Horg; reflexivity.
  - intros body db' Hok.
    destruct (document_by_id D db) as [d|] eqn:Hd.
    + destruct (document_by_id_present _ _ _ Hd) as [Hin Hid].
      exists d. split; [exact Hin|]. split; [exact Hid|].
      destruct (String.eqb_spec (Document.org_id d) (User.org_id u))
        as [E|E]; [exact E|].
      exfalso. apply String.eqb_neq in E.
      destruct r; try discriminate; simpl in Hr; injection Hr as ->;
        revert Hok; enter_gate Hv Hu; rewrite Hd; simpl; unfold bind, ret;
        simpl; rewrite E; simpl; discriminate.
    + exfalso.
      destruct r; try discriminate; simpl in Hr; injection Hr as ->;
        revert Hok; enter_gate Hv Hu; rewrite Hd; simpl; discriminate.
Qed.

End Gate.

Ltac solve_constraints :=
  constructor; vm_compute; repeat constructor; simpl; intuition discriminate.

Lemma two_tenants_constraints : constraints two_tenants_db.
Proof. solve_constraints. Qed.

Lemma document_gate_witness :
  constraints two_tenants_db
  /\ caller (Some "hlai_k1") two_tenants_db = Some alice
  /\ document_scoped (DeleteDocument "doc-2") = Some "doc-2"
  /\ serve_bearer fromisoformat_sample isoformat_sample ilike_ascii
      insertion_order
       (DeleteDocument "doc-2") (Some "hlai_k1") two_tenants_db
     = (inl (HTTPException 403 "Access denied"), two_tenants_db).
Proof.
  split; [exact two_tenants_constraints|].
  split; [reflexivity|]. split; [reflexivity|].
  refine (proj1 (proj1 (proj2
    (document_gate fromisoformat_sample isoformat_sample ilike_ascii
        insertion_order
       two_tenants_db (Some "hlai_k1") alice (DeleteDocument "doc-2") "doc-2"
       two_tenants_constraints eq_refl eq_refl))
    (Document.mk "doc-2" "org-globex" "permit.pdf" "k2" "processing" None
       false None None None 400 None) _ eq_refl _)).
  - vm_compute. tauto.
  - vm_compute. discriminate.
Defined.

(** *** Signup *)

(** C7. When some user already has the email of the request, [signup]
    fails with 400 "Email already registered" and returns the database it
    was given: no organization, user or key row is added. *)
Theorem signup_duplicate_email (db : Database) (data : OrganizationSignup)
  (org_uuid user_uuid key_uuid : uuid.UUID)
  (now_org now_user now_key : datetime) (existing : User.t) :
  In existing (users db) ->
  User.email existing = user_email data ->
  signup data org_uuid user_uuid key_uuid now_org now_user now_key db
  = (inl (HTTPException 400 "Email already registered"), db)
  /\ status_code_of (HTTPException 400 "Email already registered") = 400.
Proof.
  intros Hin Hemail. split; [|reflexivity].
  unfold signup, bind, query.
  destruct (user_by_email (user_email data) db) as [found|] eqn:Hfind.
  - reflexivity.
  - exfalso. unfold user_by_email in Hfind.
    pose proof (find_none _ _ Hfind existing Hin) as Hno.
    simpl in Hno. rewrite Hemail, String.eqb_refl in Hno. discriminate.
Qed.

Lemma signup_duplicate_email_witness :
  In alice (users two_tenants_db)
  /\ signup (mkOrganizationSignup "Initech" "i@initech.test" "u@acme.test"
              "secret" "Mallory")
       (uuid_of "org-initech") (uuid_of "user-mallory") (uuid_of "k9")
       900 900 900 two_tenants_db
     = (inl (HTTPException 400 "Email already registered"), two_tenants_db).
Proof.
  split; [left; reflexivity|].
  exact (proj1 (signup_duplicate_email two_tenants_db
    (mkOrganizationSignup "Initech" "i@initech.test" "u@acme.test" "secret"
       "Mallory")
    (uuid_of "org-initech") (uuid_of "user-mallory") (uuid_of "k9")
    900 900 900 alice (or_introl eq_refl) eq_refl)).
Defined.

(** *** Reports *)

Section Reports.

Variable isoformat : datetime -> string.

(** C10. Two CSV exports under the same key, in the same state and with the
    same [status_filter], report the same [total_records] whatever their
    [start_date] and [end_date]: the count is that of the caller's
    organization's documents that pass the status filter. *)
Theorem export_ignores_dates (db : Database) (key : option string)
  (u : User.t) (status_filter : option string)
  (start_date end_date start_date' end_date' : option string)
  (file_uuid file_uuid' : uuid.UUID) (now now' : datetime) :
  caller key db = Some u ->
  exists r r',
    export_documents_csv isoformat start_date end_date status_filter key
      file_uuid now db = (inr r, db)
    /\ export_documents_csv isoformat start_date' end_date' status_filter key
         file_uuid' now' db = (inr r', db)
    /\ total_records r = total_records r'
    /\ total_records r
       = len (filter_status status_filter
                (documents_of_org (User.org_id u) db)).
Proof.
  intros Hcaller.
  destruct (caller_inv _ _ _ Hcaller) as [uid [Hv Hu]].
  unfold export_documents_csv, bind, query. rewrite Hv. cbv beta iota.
  rewrite Hu. simpl.
  eexists. eexists. repeat split.
Qed.

Lemma filter_filter {A} (p q : A -> bool) (l : list A) :
  filter p (filter q l) = filter (fun x => q x && p x) l.
Proof.
  induction l as [|a l IH]; [reflexivity|].
  simpl. destruct (q a); simpl; [destruct (p a)|]; rewrite IH; reflexivity.
Qed.

Lemma count_status_occ (s : string) (docs : list Document.t) :
  count_status s docs
  = Z.of_nat (count_occ string_dec (map Document.status docs) s).
Proof.
  unfold count_status, len. f_equal.
  induction docs as [|d docs IH]; [reflexivity|].
  simpl. destruct (string_dec (Document.status d) s) as [E|E].
  - apply String.eqb_eq in E. rewrite E. simpl. f_equal. exact IH.
  - apply String.eqb_neq in E. rewrite E. exact IH.
Qed.

Ltac decide_buckets :=
  repeat match goal with
         | |- context [string_dec ?x ?y] =>
             destruct (string_dec x y) as [?E|?E];
             [try discriminate|try (exfalso; apply E; reflexivity)]
         end;
  simpl; lia.

Lemma buckets_partition (l : list string) :
  List.length l
  = (count_occ string_dec l "active" + count_occ string_dec l "processing"
     + count_occ string_dec l "expired"
     + count_occ string_dec l "expiring_soon"
     + count_occ string_dec l "needs_review"
     + List.length (filter (fun s => negb (recognized s)) l))%nat.
Proof.
  induction l as [|a l IH]; [reflexivity|].
  cbn [count_occ filter List.length]. unfold recognized at 1.
  cbn [existsb].
  destruct (string_dec a "active") as [E1|E1];
  [subst a; decide_buckets|].
  destruct (string_dec a "processing") as [E2|E2];
  [subst a; decide_buckets|].
  destruct (string_dec a "expired") as [E3|E3];
  [subst a; decide_buckets|].
  destruct (string_dec a "expiring_soon") as [E4|E4];
  [subst a; decide_buckets|].
  destruct (string_dec a "needs_review") as [E5|E5];
  [subst a; decide_buckets|].
  apply String.eqb_neq in E1, E2, E3, E4, E5.
  rewrite E1, E2, E3, E4, E5. simpl. lia.
Qed.

Lemma filter_map_length {A B} (f : A -> B) (p : B -> bool) (l : list A) :
  List.length (filter p (map f l))
  = List.length (filter (fun x => p (f x)) l).
Proof.
  induction l as [|a l IH]; [reflexivity|].
  simpl. destruct (p (f a)); simpl; rewrite IH; reflexivity.
Qed.

(** C6. The summary of a caller of organization [O] reports as total the
    number of rows of the documents table whose [org_id] is [O], and in
    each of the five buckets the number of those rows whose status is
    exactly the bucket's name; the rows of [O] with any other status make
    up the difference between the total and the sum of the buckets, which
    is therefore at most the total.  The rows of other organizations
    count nowhere. *)
Theorem summary_counts (db : Database) (key : option string) (u : User.t)
  (now : datetime) :
  caller key db = Some u ->
  exists r,
    get_documents_summary isoformat key now db = (inr r, db)
    /\ let mine d := (Document.org_id d =? User.org_id u)%string in
       let rows p := Z.of_nat (List.length (filter p (documents db))) in
       let having s :=
         rows (fun d => mine d && (Document.status d =? s)%string) in
       let b := status_breakdown r in
       total_documents r = rows mine
       /\ active b = having "active"
       /\ processing b = having "processing"
       /\ expired b = having "expired"
       /\ expiring_soon b = having "expiring_soon"
       /\ needs_review b = having "needs_review"
       /\ total_documents r
          = active b + processing b + expired b + expiring_soon b
            + needs_review b
            + rows (fun d => mine d && negb (recognized (Document.status d)))
       /\ active b + processing b + expired b + expiring_soon b
          + needs_review b <= total_documents r.
Proof.
  intros Hcaller.
  destruct (caller_inv _ _ _ Hcaller) as [uid [Hv Hu]].
  unfold get_documents_summary, bind, query. rewrite Hv. cbv beta iota.
  rewrite Hu. simpl.
  eexists. split; [reflexivity|]. simpl.
  pose proof (buckets_partition
                (map Document.status (documents_of_org (User.org_id u) db)))
    as Hp.
  assert (Hocc : forall s docs,
             count_occ string_dec (map Document.status docs) s
             = List.length
                 (filter (fun d => (Document.status d =? s)%string) docs)).
  { intros s docs. apply Nat2Z.inj. symmetry. apply count_status_occ. }
  rewrite !Hocc, length_map, filter_map_length in Hp.
  unfold count_status, len, documents_of_org in *.
  rewrite !filter_filter in *.
  repeat split; lia.
Qed.

End Reports.

Lemma export_ignores_dates_witness :
  caller (Some "hlai_k1") two_tenants_db = Some alice
  /\ exists r r',
       export_documents_csv isoformat_sample (Some "2025-01-01")
         (Some "2025-12-31") None (Some "hlai_k1") (uuid_of "f1") 600
         two_tenants_db = (inr r, two_tenants_db)
       /\ export_documents_csv isoformat_sample None None None
            (Some "hlai_k1") (uuid_of "f2") 700 two_tenants_db
          = (inr r', two_tenants_db)
       /\ total_records r = total_records r'
       /\ total_records r = 2.
Proof.
  split; [reflexivity|].
  exact (export_ignores_dates isoformat_sample two_tenants_db
    (Some "hlai_k1") alice None (Some "2025-01-01") (Some "2025-12-31")
    None None (uuid_of "f1") (uuid_of "f2") 600 700 eq_refl).
Defined.

Lemma summary_counts_witness :
  caller (Some "hlai_k1") two_summaries_db = Some alice
  /\ caller (Some "hlai_k2") two_summaries_db = Some bob
  /\ List.length (documents two_summaries_db) = 7%nat
  /\ (exists r,
        get_documents_summary isoformat_sample (Some "hlai_k1") 600
          two_summaries_db = (inr r, two_summaries_db)
        /\ total_documents r = 5
        /\ status_breakdown r = mkStatusBreakdown 2 1 1 0 1)
  /\ (exists r,
        get_documents_summary isoformat_sample (Some "hlai_k2") 600
          two_summaries_db = (inr r, two_summaries_db)
        /\ total_documents r = 2
        /\ status_breakdown r = mkStatusBreakdown 1 0 0 0 0).
Proof.
  split; [reflexivity|]. split; [reflexivity|]. split; [reflexivity|].
  split.
  - destruct (summary_counts isoformat_sample two_summaries_db
                (Some "hlai_k1") alice 600 eq_refl)
      as [r [Hr [Ht [Ha [Hp [He [Hs [Hn _]]]]]]]].
    exists r. split; [exact Hr|]. split; [exact Ht|].
    destruct r as [total [a p e s n] generated]. simpl in *.
    rewrite Ha, Hp, He, Hs, Hn. reflexivity.
  - destruct (summary_counts isoformat_sample two_summaries_db
                (Some "hlai_k2") bob 600 eq_refl)
      as [r [Hr [Ht [Ha [Hp [He [Hs [Hn _]]]]]]]].
    exists r. split; [exact Hr|]. split; [exact Ht|].
    destruct r as [total [a p e s n] generated]. simpl in *.
    rewrite Ha, Hp, He, Hs, Hn. reflexivity.
Defined.

(** *** Listing *)

Lemma slice_incl {A} (o n : nat) (l : list A) (x : A) :
  In x (firstn n (skipn o l)) -> In x l.
Proof.
  intros H.
  rewrite <- (firstn_skipn o l). apply in_or_app. right.
  rewrite <- (firstn_skipn n (skipn o l)).
  apply in_or_app. left. exact H.
Qed.


Section Listing.

Variable isoformat : datetime -> string.
Variable ilike : string -> string -> bool.
Variable order_by : ordering.

Lemma list_query_spec (org_id : string) (status search : option string)
  (db : Database) (d : Document.t) :
  In d (list_query ilike org_id status search db)
  <-> In d (documents db)
      /\ Document.org_id d = org_id
      /\ (forall s, truthy status = Some s -> Document.status d = s)
      /\ (forall s, truthy search = Some s ->
          ilike (Document.filename d) ("%" ++ s ++ "%") = true).
Proof.
  unfold list_query, filter_search, filter_status, documents_of_org.
  destruct (truthy search) as [q|], (truthy status) as [st|];
    rewrite ?filter_In, String.eqb_eq; rewrite ?String.eqb_eq;
    split; intros H; repeat split; try tauto;
    try (intros s' Hs'; try discriminate; injection Hs' as <-; tauto);
    try (destruct H as [_ [_ [H1 H2]]];
         first [apply H1; reflexivity | apply H2; reflexivity]).
Qed.

(** The rows the list query selects, as one test on the stored rows. *)
Lemma list_query_selected (org_id : string) (status search : option string)
  (db : Database) :
  list_query ilike org_id status search db
  = filter
      (fun d =>
         (Document.org_id d =? org_id)%string
         && match status with
            | Some s => (s =? "")%string || (Document.status d =? s)%string
            | None => true
            end
         && match search with
            | Some s =>
                (s =? "")%string
                || ilike (Document.filename d) ("%" ++ s ++ "%")
            | None => true
            end)
      (documents db).
Proof.
  unfold list_query, filter_search, filter_status, documents_of_org, truthy.
  destruct status as [st|], search as [q|];
    try destruct (st =? "")%string; try destruct (q =? "")%string;
    rewrite ?filter_filter; apply filter_ext; intros d; simpl;
    rewrite ?andb_true_r, ?andb_assoc; reflexivity.
Qed.

(** What [list_documents] answers to a caller, for valid parameters and an
    offset the engine takes. *)
Lemma list_documents_ok (db : Database) (key : option string) (u : User.t)
  (page page_size : option Z) (status search : option string) :
  caller key db = Some u ->
  1 <= query_default 1 page ->
  1 <= query_default 50 page_size <= 100 ->
  (query_default 1 page - 1) * query_default 50 page_size <= bigint_max ->
  list_documents isoformat ilike order_by page page_size status search key db
  = (inr (mkListResponse
            (map (list_item isoformat)
               (firstn (Z.to_nat (query_default 50 page_size))
                  (skipn
                     (Z.to_nat ((query_default 1 page - 1)
                                * query_default 50 page_size))
                     (order_rows order_by
                        ((query_default 1 page - 1)
                         * query_default 50 page_size)
                        (query_default 50 page_size)
                        (list_query ilike (User.org_id u) status search
                           db)))))
            (len (list_query ilike (User.org_id u) status search db))
            (query_default 1 page) (query_default 50 page_size)
            ((len (list_query ilike (User.org_id u) status search db)
              + query_default 50 page_size - 1)
             / query_default 50 page_size)),
     db).
Proof.
  intros Hcaller Hp Hs Ho.
  destruct (caller_inv _ _ _ Hcaller) as [uid [Hv Hu]].
  unfold list_documents, bind, query. rewrite Hv. cbv beta iota zeta.
  replace (query_default 1 page <? 1) with false
    by (symmetry; apply Z.ltb_ge; lia).
  replace (query_default 50 page_size <? 1) with false
    by (symmetry; apply Z.ltb_ge; lia).
  replace (100 <? query_default 50 page_size) with false
    by (symmetry; apply Z.ltb_ge; lia).
  cbn [orb]. cbv beta iota. rewrite Hu. cbv beta iota.
  unfold offset_limit.
  replace (bigint_max
           <? (query_default 1 page - 1) * query_default 50 page_size)
    with false by (symmetry; apply Z.ltb_ge; exact Ho).
  reflexivity.
Qed.

(** Past [bigint] the query is refused and the handler lets the error
    escape. *)
Lemma list_documents_offset_refused (db : Database) (key : option string)
  (u : User.t) (page page_size : option Z) (status search : option string) :
  caller key db = Some u ->
  1 <= query_default 1 page ->
  1 <= query_default 50 page_size <= 100 ->
  bigint_max < (query_default 1 page - 1) * query_default 50 page_size ->
  list_documents isoformat ilike order_by page page_size status search key db
  = (inl DataError, db).
Proof.
  intros Hcaller Hp Hs Ho.
  destruct (caller_inv _ _ _ Hcaller) as [uid [Hv Hu]].
  unfold list_documents, bind, query. rewrite Hv. cbv beta iota zeta.
  replace (query_default 1 page <? 1) with false
    by (symmetry; apply Z.ltb_ge; lia).
  replace (query_default 50 page_size <? 1) with false
    by (symmetry; apply Z.ltb_ge; lia).
  replace (100 <? query_default 50 page_size) with false
    by (symmetry; apply Z.ltb_ge; lia).
  cbn [orb]. cbv beta iota. rewrite Hu. cbv beta iota.
  unfold offset_limit.
  replace (bigint_max
           <? (query_default 1 page - 1) * query_default 50 page_size)
    with true by (symmetry; apply Z.ltb_lt; exact Ho).
  reflexivity.
Qed.

Lemma list_documents_inv (db db' : Database) (key : option string)
  (u : User.t) (page page_size : option Z) (status search : option string)
  (r : ListResponse) :
  caller key db = Some u ->
  list_documents isoformat ilike order_by page page_size status search key db
  = (inr r, db') ->
  1 <= query_default 1 page /\ 1 <= query_default 50 page_size <= 100
  /\ (query_default 1 page - 1) * query_default 50 page_size <= bigint_max.
Proof.
  intros Hcaller Hlist.
  destruct (Z.ltb_spec (query_default 1 page) 1) as [H1|H1].
  { exfalso. revert Hlist.
    destruct (caller_inv _ _ _ Hcaller) as [uid [Hv Hu]].
    unfold list_documents, bind, query. rewrite Hv. cbv beta iota zeta.
    replace (query_default 1 page <? 1) with true
      by (symmetry; apply Z.ltb_lt; exact H1).
    discriminate. }
  destruct (Z.ltb_spec (query_default 50 page_size) 1) as [H2|H2].
  { exfalso. revert Hlist.
    destruct (caller_inv _ _ _ Hcaller) as [uid [Hv Hu]].
    unfold list_documents, bind, query. rewrite Hv. cbv beta iota zeta.
    replace (query_default 50 page_size <? 1) with true
      by (symmetry; apply Z.ltb_lt; exact H2).
    rewrite orb_true_r. discriminate. }
  destruct (Z.ltb_spec 100 (query_default 50 page_size)) as [H3|H3].
  { exfalso. revert Hlist.
    destruct (caller_inv _ _ _ Hcaller) as [uid [Hv Hu]].
    unfold list_documents, bind, query. rewrite Hv. cbv beta iota zeta.
    replace (100 <? query_default 50 page_size) with true
      by (symmetry; apply Z.ltb_lt; exact H3).
    rewrite orb_true_r. discriminate. }
  split; [exact H1|]. split; [lia|].
  destruct (Z.le_gt_cases
              ((query_default 1 page - 1) * query_default 50 page_size)
              bigint_max) as [Ho|Ho]; [exact Ho|].
  exfalso.
  rewrite (list_documents_offset_refused db key u page page_size status
             search Hcaller H1 (conj H2 H3) Ho) in Hlist.
  discriminate.
Qed.

(** C2. Whatever the state of the database, every item a caller of
    organization [O] gets from the list operation has [org_id] [O], and a
    document of any other organization is not among the items.  This holds
    of every state, so of every reachable one. *)
Theorem list_isolation (db db' : Database) (key : option string)
  (u : User.t) (page page_size : option Z) (status search : option string)
  (r : ListResponse) :
  caller key db = Some u ->
  list_documents isoformat ilike order_by page page_size status search key db
  = (inr r, db') ->
  Forall (fun item => item_org_id item = User.org_id u)
    (list_documents_items r)
  /\ (forall D, In D (documents db) ->
      Document.org_id D <> User.org_id u ->
      ~ In (list_item isoformat D) (list_documents_items r))
  /\ db' = db.
Proof.
  intros Hcaller Hlist.
  destruct (list_documents_inv _ _ _ _ _ _ _ _ _ Hcaller Hlist)
    as [Hp [Hs Ho]].
  rewrite (list_documents_ok _ _ _ _ _ _ _ Hcaller Hp Hs Ho) in Hlist.
  injection Hlist as <- <-. cbn [list_documents_items].
  assert (Hall : Forall (fun item => item_org_id item = User.org_id u)
            (map (list_item isoformat)
               (firstn (Z.to_nat (query_default 50 page_size))
                  (skipn
                     (Z.to_nat ((query_default 1 page - 1)
                                * query_default 50 page_size))
                     (order_rows order_by
                        ((query_default 1 page - 1)
                         * query_default 50 page_size)
                        (query_default 50 page_size)
                        (list_query ilike (User.org_id u) status search
                           db)))))).
  { apply Forall_forall. intros item Hitem.
    apply in_map_iff in Hitem. destruct Hitem as [d [<- Hd]].
    apply slice_incl in Hd.
    apply (Permutation_in _ (order_permutes order_by _ _ _)) in Hd.
    apply list_query_spec in Hd. simpl. tauto. }
  split; [exact Hall|]. split; [|reflexivity].
  intros D _ Horg Hin.
  rewrite Forall_forall in Hall. apply Hall in Hin. simpl in Hin.
  contradiction.
Qed.




End Listing.

Lemma list_isolation_witness :
  caller (Some "hlai_k1") two_tenants_db = Some alice
  /\ exists r,
       list_documents isoformat_sample ilike_ascii insertion_order None None
         None None (Some "hlai_k1") two_tenants_db = (inr r, two_tenants_db)
       /\ List.length (list_documents_items r) = 2%nat
       /\ Forall (fun item => item_org_id item = "org-acme")
            (list_documents_items r).
Proof.
  split; [reflexivity|]. eexists.
  split; [vm_compute; reflexivity|]. split; [reflexivity|].
  exact (proj1 (list_isolation isoformat_sample ilike_ascii insertion_order
    two_tenants_db two_tenants_db (Some "hlai_k1") alice None None None None
    _ eq_refl eq_refl)).
Defined.


(** *** Updating *)

Lemma find_map_stable {A} (p : A -> bool) (g : A -> A) (l : list A) :
  (forall x, p (g x) = p x) ->
  find p (map g l) = option_map g (find p l).
Proof.
  intros Hp. induction l as [|a l IH]; [reflexivity|].
  simpl. rewrite Hp. destruct (p a); [reflexivity|exact IH].
Qed.

Lemma caller_documents (key : option string) (db : Database)
  (docs : list Document.t) :
  caller key (mkDatabase (organizations db) (users db) docs (api_keys db)
                (api_keys_id_seq db))
  = caller key db.
Proof.
  unfold caller, verify_api_key.
  destruct (truthy key) as [k|]; [|reflexivity].
  unfold bind, query. simpl.
  destruct (find _ (api_keys db)); reflexivity.
Qed.

Section Updating.

Variable fromisoformat : string -> option datetime.
Variable isoformat : datetime -> string.

(** The update of a document the caller's organization owns. *)
Lemma update_document_found (db : Database) (key : option string)
  (u : User.t) (D : string) (d : Document.t) (data : DocumentUpdate)
  (now : datetime) :
  caller key db = Some u ->
  document_by_id D db = Some d ->
  Document.org_id d = User.org_id u ->
  update_document fromisoformat isoformat D data key now db
  = match apply_update fromisoformat data now with
    | inl e => (inl e, db)
    | inr assign =>
        if has (status_overflows (Document.id d) assign) (documents db)
        then (inl DataError, db)
        else
          (inr (mkUpdateResponse "Document updated successfully"
                  (mkUpdatedDocument (Document.id (assign d))
                     (Document.status (assign d))
                     (option_map isoformat (Document.expiry_date (assign d)))
                     (Document.manual_override (assign d)))),
           mkDatabase (organizations db) (users db)
             (map (fun x => if (Document.id x =? Document.id d)%string
                            then assign x else x) (documents db))
             (api_keys db) (api_keys_id_seq db))
    end.
Proof.
  intros Hcaller Hd Horg.
  destruct (caller_inv _ _ _ Hcaller) as [uid [Hv Hu]].
  unfold update_document, bind, query. rewrite Hv. cbv beta iota.
  rewrite Hu, Hd. simpl. rewrite Horg, String.eqb_refl. simpl.
  destruct (apply_update fromisoformat data now) as [e|assign];
    [reflexivity|].
  unfold update_document_row.
  destruct (has (status_overflows (Document.id d) assign) (documents db));
    reflexivity.
Qed.

(** A status within the column's width never overflows it. *)
Lemma status_fits (D : string) (f : Document.t -> Document.t)
  (l : list Document.t) :
  (forall x, Document.status (f x) = Document.status x
             \/ fits 50 (Document.status (f x)) = true) ->
  has (status_overflows D f) l = false.
Proof.
  intros H. apply has_false. intros x _. unfold status_overflows.
  destruct (H x) as [E|E]; rewrite E.
  - rewrite String.eqb_refl. simpl. rewrite andb_false_r. reflexivity.
  - simpl. apply andb_false_r.
Qed.

Lemma apply_update_id (data : DocumentUpdate) (now : datetime)
  (assign : Document.t -> Document.t) (x : Document.t) :
  apply_update fromisoformat data now = inr assign ->
  Document.id (assign x) = Document.id x.
Proof.
  unfold apply_update.
  destruct (truthy (expiry_date data)) as [e|];
    [destruct (fromisoformat e); [|discriminate]|];
    destruct (truthy (status data)); intros H; injection H as <-;
    reflexivity.
Qed.

(** C3, as the code has it. An update of an owned document whose
    [expiry_date] is a non-empty string that [datetime.fromisoformat]
    rejects ends in the [ValueError] of the parser, which no handler
    catches: the status is 500, not 400, and the database is as it was.
    An empty [expiry_date] is handled like an absent one. *)
Theorem update_unparsable_expiry (db : Database) (key : option string)
  (u : User.t) (d : Document.t) (data : DocumentUpdate) (now : datetime)
  (e : string) :
  constraints db ->
  caller key db = Some u ->
  In d (documents db) ->
  Document.org_id d = User.org_id u ->
  expiry_date data = Some e ->
  e <> "" ->
  fromisoformat e = None ->
  update_document fromisoformat isoformat (Document.id d) data key now db
  = (inl ValueError, db)
  /\ status_code_of ValueError = 500
  /\ update_document fromisoformat isoformat (Document.id d)
       (mkDocumentUpdate (Some "") (status data)) key now db
     = update_document fromisoformat isoformat (Document.id d)
         (mkDocumentUpdate None (status data)) key now db.
Proof.
  intros Hc Hcaller Hin Horg He Hne Hparse.
  pose proof (document_by_id_unique db d (documents_pk db Hc) Hin) as Hd.
  split; [|split; [reflexivity|]].
  - rewrite (update_document_found db key u _ d data now Hcaller Hd Horg).
    unfold apply_update. rewrite He. simpl.
    apply String.eqb_neq in Hne. rewrite Hne, Hparse. reflexivity.
  - rewrite !(update_document_found db key u _ d _ now Hcaller Hd Horg).
    reflexivity.
Qed.


(** C8. Updating an owned document with status "active" and no
    [expiry_date] succeeds, and repeating the same update on the resulting
    database succeeds with the same response and leaves that database as
    it is. *)
Theorem update_status_idempotent (db : Database) (key : option string)
  (u : User.t) (d : Document.t) (now now' : datetime) :
  constraints db ->
  caller key db = Some u ->
  In d (documents db) ->
  Document.org_id d = User.org_id u ->
  exists r db1,
    update_document fromisoformat isoformat (Document.id d)
      (mkDocumentUpdate None (Some "active")) key now db = (inr r, db1)
    /\ update_document fromisoformat isoformat (Document.id d)
         (mkDocumentUpdate None (Some "active")) key now' db1 = (inr r, db1).
Proof.
  intros Hc Hcaller Hin Horg.
  pose proof (document_by_id_unique db d (documents_pk db Hc) Hin) as Hd.
  rewrite (update_document_found db key u _ d _ now Hcaller Hd Horg).
  change (apply_update fromisoformat (mkDocumentUpdate None (Some "active"))
            now)
    with (@inr exception _ (fun x : Document.t =>
                              Document.set_status "active" x)).
  cbv beta iota.
  rewrite status_fits by (intros x; right; reflexivity).
  eexists. eexists. split; [reflexivity|].
  set (assign := fun x : Document.t => Document.set_status "active" x).
  set (g := fun x : Document.t =>
              if (Document.id x =? Document.id d)%string
              then assign x else x).
  set (db1 := mkDatabase (organizations db) (users db)
                (map g (documents db)) (api_keys db) (api_keys_id_seq db)).
  assert (Hcaller1 : caller key db1 = Some u).
  { unfold db1. rewrite caller_documents. exact Hcaller. }
  assert (Hd1 : document_by_id (Document.id d) db1 = Some (assign d)).
  { unfold document_by_id, db1. cbn [documents].
    rewrite find_map_stable.
    - fold (document_by_id (Document.id d) db). rewrite Hd. simpl.
      unfold g. rewrite String.eqb_refl. reflexivity.
    - intros x. unfold g.
      destruct (Document.id x =? Document.id d)%string eqn:E;
        simpl; exact E. }
  rewrite (update_document_found db1 key u _ (assign d) _ now' Hcaller1 Hd1
             Horg).
  change (apply_update fromisoformat (mkDocumentUpdate None (Some "active"))
            now')
    with (@inr exception _ assign).
  cbv beta iota.
  rewrite status_fits by (intros x; right; reflexivity).
  simpl. f_equal. unfold db1. cbn [organizations users documents api_keys
    api_keys_id_seq]. f_equal.
  rewrite map_map. apply map_ext. intros x. unfold g.
  destruct (Document.id x =? Document.id d)%string eqn:E; simpl;
    rewrite E; reflexivity.
Qed.

End Updating.

Lemma update_unparsable_expiry_witness :
  constraints two_tenants_db
  /\ caller (Some "hlai_k1") two_tenants_db = Some alice
  /\ In lease (documents two_tenants_db)
  /\ fromisoformat_sample "tomorrow" = None
  /\ update_document fromisoformat_sample isoformat_sample "doc-1"
       (mkDocumentUpdate (Some "tomorrow") (Some "expired"))
       (Some "hlai_k1") 600 two_tenants_db
     = (inl ValueError, two_tenants_db).
Proof.
  split; [exact two_tenants_constraints|].
  split; [reflexivity|]. split; [left; reflexivity|].
  split; [reflexivity|].
  exact (proj1 (update_unparsable_expiry fromisoformat_sample
    isoformat_sample two_tenants_db (Some "hlai_k1") alice lease
    (mkDocumentUpdate (Some "tomorrow") (Some "expired")) 600 "tomorrow"
    two_tenants_constraints eq_refl (or_introl eq_refl) eq_refl eq_refl
    ltac:(discriminate) eq_refl)).
Defined.

(** C3 as stated fails: Alice updates her own document with an
    [expiry_date] that is not a timestamp; the outcome is the parser's
    [ValueError], whose status is 500 and not 400. *)
Lemma update_unparsable_expiry_counterexample :
  caller (Some "hlai_k1") two_tenants_db = Some alice
  /\ In lease (documents two_tenants_db)
  /\ Document.org_id lease = User.org_id alice
  /\ fromisoformat_sample "tomorrow" = None
  /\ update_document fromisoformat_sample isoformat_sample "doc-1"
       (mkDocumentUpdate (Some "tomorrow") None) (Some "hlai_k1") 600
       two_tenants_db
     = (inl ValueError, two_tenants_db)
  /\ status_code_of ValueError = 500
  /\ status_code_of ValueError <> 400.
Proof.
  repeat split; try reflexivity.
  - left. reflexivity.
  - discriminate.
Qed.



Lemma update_status_idempotent_witness :
  constraints two_tenants_db
  /\ caller (Some "hlai_k1") two_tenants_db = Some alice
  /\ In lease (documents two_tenants_db)
  /\ exists r db1,
       update_document fromisoformat_sample isoformat_sample "doc-1"
         (mkDocumentUpdate None (Some "active")) (Some "hlai_k1") 600
         two_tenants_db = (inr r, db1)
       /\ update_document fromisoformat_sample isoformat_sample "doc-1"
            (mkDocumentUpdate None (Some "active")) (Some "hlai_k1") 700 db1
          = (inr r, db1).
Proof.
  split; [exact two_tenants_constraints|].
  split; [reflexivity|]. split; [left; reflexivity|].
  exact (update_status_idempotent fromisoformat_sample isoformat_sample
    two_tenants_db (Some "hlai_k1") alice lease 600 700
    two_tenants_constraints eq_refl (or_introl eq_refl) eq_refl).
Defined.

(** *** Login and the resolution of keys *)

Lemma find_last {A} (p : A -> bool) (l : list A) (x : A) :
  (forall y, In y l -> p y = false) -> p x = true ->
  find p (l ++ [x]) = Some x.
Proof.
  intros Hl Hx. induction l as [|a l IH]; simpl.
  - rewrite Hx. reflexivity.
  - rewrite (Hl a (or_introl eq_refl)). apply IH.
    intros y Hy. apply Hl. right. exact Hy.
Qed.

(** [verify_api_key] reads the keys table and nothing else. *)
Lemma verify_api_key_keys_only (key : option string) (db db2 : Database) :
  api_keys db2 = api_keys db ->
  fst (verify_api_key key db2) = fst (verify_api_key key db).
Proof.
  intros Hk. unfold verify_api_key.
  destruct (truthy key) as [k|]; [|reflexivity].
  unfold bind, query. simpl. rewrite Hk.
  destruct (find _ (api_keys db)); reflexivity.
Qed.

Lemma never_401_ret {A} (a : A) : never_401 (ret a).
Proof. intros db e H. discriminate H. Qed.

Lemma never_401_query {A} (q : Database -> A) : never_401 (query q).
Proof. intros db e H. discriminate H. Qed.

Lemma never_401_raise {A} (x : exception) :
  status_code_of x <> 401 -> never_401 (@raise A x).
Proof. intros Hx db e H. injection H as <-. exact Hx. Qed.

Lemma never_401_bind {A B} (c : M A) (k : A -> M B) :
  never_401 c -> (forall a, never_401 (k a)) -> never_401 (bind c k).
Proof.
  intros Hc Hk db e. unfold bind.
  destruct (c db) as [[x|a] db1] eqn:Hcd.
  - simpl. intros H. injection H as <-.
    apply (Hc db). rewrite Hcd. reflexivity.
  - apply Hk.
Qed.

Lemma never_401_attr {R A} (o : option R) (f : R -> A) :
  never_401 (attr o f).
Proof.
  destruct o; simpl; [apply never_401_ret|].
  apply never_401_raise. simpl. lia.
Qed.

Ltac split_ifs :=
  repeat match goal with
         | |- context [if ?c then _ else _] => destruct c
         end.

Lemma never_401_add_document (d : Document.t) : never_401 (add_document d).
Proof.
  intros db e. unfold add_document. split_ifs; simpl; intros H;
    try discriminate; injection H as <-; simpl; lia.
Qed.

Lemma never_401_update_row (D : string) (f : Document.t -> Document.t) :
  never_401 (update_document_row D f).
Proof.
  intros db e. unfold update_document_row. split_ifs; simpl; intros H;
    try discriminate; injection H as <-; simpl; lia.
Qed.

Lemma offset_limit_error {A} (o n : Z) (l : list A) (e : exception) :
  offset_limit o n l = inl e -> e = DataError.
Proof.
  unfold offset_limit. destruct (bigint_max <? o); [|discriminate].
  intros H. injection H as <-. reflexivity.
Qed.

Lemma never_401_delete_row (D : string) : never_401 (delete_document_row D).
Proof. intros db e H. discriminate H. Qed.

Ltac never_401_steps :=
  repeat first
    [ apply never_401_ret
    | apply never_401_query
    | apply never_401_attr
    | apply never_401_add_document
    | apply never_401_update_row
    | apply never_401_delete_row
    | apply never_401_raise; simpl; lia
    | apply never_401_bind; [|intros ?]
    | match goal with
      | |- never_401 (match ?x with _ => _ end) => destruct x eqn:?
      end ].

Lemma blind_ret {A} (a : A) : blind (ret a).
Proof. intros db. reflexivity. Qed.

Lemma blind_raise {A} (e : exception) : blind (@raise A e).
Proof. intros db. reflexivity. Qed.

Lemma blind_attr {R A} (o : option R) (f : R -> A) : blind (attr o f).
Proof. intros db. destruct o; reflexivity. Qed.

Lemma blind_query {A} (q : Database -> A) :
  (forall db, q (activate db) = q db) -> blind (query q).
Proof. intros H db. unfold query. rewrite H. reflexivity. Qed.

Lemma blind_bind {A B} (c : M A) (k : A -> M B) :
  blind c -> (forall a, blind (k a)) -> blind (bind c k).
Proof.
  intros Hc Hk db. unfold bind. rewrite Hc.
  destruct (c db) as [[e|a] db1]; simpl; [reflexivity|apply Hk].
Qed.

Lemma blind_verify_api_key (key : option string) :
  blind (verify_api_key key).
Proof.
  intros db. unfold verify_api_key.
  destruct (truthy key) as [k|]; [|reflexivity].
  unfold bind, query. cbn [api_keys activate].
  destruct (find _ (api_keys db)); reflexivity.
Qed.

(** The row of a user reaches the rest of a handler with another flag and
    nothing else changed. *)
Lemma blind_user_query {B} (user_id : string) (k : option User.t -> M B) :
  (forall o, blind (k o)) ->
  (forall u, k (Some (activate_user u)) = k (Some u)) ->
  blind (bind (query (user_by_id user_id)) k).
Proof.
  intros Hk Hflag db. unfold bind, query.
  assert (Hfind : user_by_id user_id (activate db)
                  = option_map activate_user (user_by_id user_id db)).
  { unfold user_by_id. cbn [users activate]. apply find_map_stable.
    intros x. reflexivity. }
  rewrite Hfind. destruct (user_by_id user_id db) as [u|]; simpl.
  - rewrite Hflag. apply Hk.
  - apply Hk.
Qed.

Lemma blind_add_document (d : Document.t) : blind (add_document d).
Proof.
  intros db. unfold add_document. cbn [documents organizations activate].
  split_ifs; reflexivity.
Qed.

Lemma blind_update_row (D : string) (f : Document.t -> Document.t) :
  blind (update_document_row D f).
Proof.
  intros db. unfold update_document_row. cbn [documents activate].
  split_ifs; reflexivity.
Qed.

Lemma blind_delete_row (D : string) : blind (delete_document_row D).
Proof. intros db. reflexivity. Qed.

Ltac blind_steps :=
  repeat first
    [ apply blind_ret
    | apply blind_raise
    | apply blind_attr
    | apply blind_verify_api_key
    | apply blind_add_document
    | apply blind_update_row
    | apply blind_delete_row
    | apply blind_user_query; [intros ?|intros ?; reflexivity]
    | apply blind_query; intros ?; reflexivity
    | apply blind_bind; [|intros ?]
    | match goal with
      | |- blind (match ?x with _ => _ end) => destruct x eqn:?
      end ].

Section Login.

Variable fromisoformat : string -> option datetime.
Variable isoformat : datetime -> string.
Variable ilike : string -> string -> bool.
Variable order_by : ordering.

Lemma apply_update_error (data : DocumentUpdate) (now : datetime)
  (e : exception) :
  apply_update fromisoformat data now = inl e -> e = ValueError.
Proof.
  unfold apply_update.
  destruct (truthy (expiry_date data)) as [x|];
    [destruct (fromisoformat x)|]; destruct (truthy (status data));
    intros H; try discriminate; injection H as <-; reflexivity.
Qed.

(** Once the key resolves, no bearer endpoint answers 401. *)
Lemma resolved_key_accepted (db : Database) (key : option string)
  (user_id : string) (r : BearerRequest) (e : exception) :
  verify_api_key key db = (inr user_id, db) ->
  fst (serve_bearer fromisoformat isoformat ilike order_by r key db) = inl e ->
  status_code_of e <> 401.
Proof.
  intros Hv.
  assert (Hrespond : forall A (wrap : A -> Response) (k : string -> M A),
            (forall a, never_401 (k a)) ->
            fst (respond wrap (bind (verify_api_key key) k) db) = inl e ->
            status_code_of e <> 401).
  { intros A wrap k Hk. unfold respond, bind. rewrite Hv.
    destruct (k user_id db) as [[x|a] db1] eqn:Hkd; simpl.
    - intros H. injection H as <-.
      apply (Hk user_id db). rewrite Hkd. reflexivity.
    - discriminate. }
  destruct r; cbn [serve_bearer];
    unfold get_current_user, generate_signed_upload_url, create_document,
      list_documents, get_document, update_document, delete_document,
      export_documents_csv, get_documents_summary,
      create_stripe_checkout_session;
    apply Hrespond; intros uid; cbv zeta; never_401_steps;
    match goal with
    | H : apply_update _ _ _ = inl _ |- _ =>
        apply apply_update_error in H; subst
    | H : offset_limit _ _ _ = inl _ |- _ =>
        apply offset_limit_error in H; subst
    end;
    apply never_401_raise; simpl; lia.
Qed.

(** Apart from the profile, which echoes the flag, no bearer endpoint
    sees [User.is_active]. *)
Lemma bearer_blind (r : BearerRequest) (key : option string) :
  r <> GetCurrentUser ->
  blind (serve_bearer fromisoformat isoformat ilike order_by r key).
Proof.
  intros Hr.
  destruct r; [contradiction| | | | | | | | |]; cbn [serve_bearer];
    unfold respond, generate_signed_upload_url, create_document,
      list_documents, get_document, update_document, delete_document,
      export_documents_csv, get_documents_summary,
      create_stripe_checkout_session;
    cbv zeta; blind_steps.
Qed.

(** C9. A user whose [is_active] is false logs in with the right email
    and password: [login] succeeds, stores a new active key for that user
    (the [uuid] being fresh, the key within its column), and the stored
    user is still inactive.  The new key resolves to the user; the
    profile endpoint answers it with the user's row, [is_active] false;
    the list endpoint answers it; no bearer endpoint answers it with 401.
    Apart from the profile, which echoes the flag, every bearer endpoint
    returns the same outcome and stores the same rows whether the users
    are active or not, on every database and for every key; and the
    resolution of a key depends on the keys table only. *)
Theorem inactive_user_login (db : Database) (data : LoginRequest)
  (key_uuid : uuid.UUID) (now_key : datetime) (u : User.t) :
  constraints db ->
  In u (users db) ->
  User.is_active u = false ->
  User.email u = login_email data ->
  User.password u = login_password data ->
  (forall k, In k (api_keys db) ->
   APIKey.api_key k <> "hlai_" ++ uuid.hex key_uuid) ->
  (String.length ("hlai_" ++ uuid.hex key_uuid) <= 255)%nat ->
  let key := "hlai_" ++ uuid.hex key_uuid in
  exists db',
    login data key_uuid now_key db
    = (inr (mkAuthResponse "Login successful" key (User.id u)
              (User.org_id u)), db')
    /\ api_keys db'
       = (api_keys db
          ++ [APIKey.mk (api_keys_id_seq db) key (User.id u) now_key true])%list
    /\ users db' = users db
    /\ verify_api_key (Some key) db' = (inr (User.id u), db')
    /\ get_current_user (Some key) db'
       = (inr (mkProfileResponse (User.id u) (User.email u)
                 (User.full_name u) (User.org_id u) false), db')
    /\ (exists listed,
          list_documents isoformat ilike order_by None None None None
            (Some key) db' = (inr listed, db'))
    /\ (forall r e,
        fst (serve_bearer fromisoformat isoformat ilike order_by r
               (Some key) db')
        = inl e ->
        status_code_of e <> 401)
    /\ (forall r x_api_key db0, r <> GetCurrentUser ->
        serve_bearer fromisoformat isoformat ilike order_by r x_api_key
          (activate db0)
        = (fst (serve_bearer fromisoformat isoformat ilike order_by r
                  x_api_key db0),
           activate
             (snd (serve_bearer fromisoformat isoformat ilike order_by r
                     x_api_key db0))))
    /\ (forall x_api_key db2, api_keys db2 = api_keys db' ->
        fst (verify_api_key x_api_key db2)
        = fst (verify_api_key x_api_key db')).
Proof.
  intros Hc Hin Hinactive Hemail Hpw Hfresh Hfits key.
  assert (Hfind : user_by_email (login_email data) db = Some u).
  { unfold user_by_email. rewrite <- Hemail.
    apply (find_by_key User.email); [apply (users_email db Hc)|exact Hin]. }
  assert (Hnew : has (fun x => (APIKey.api_key x =? key)%string)
                   (api_keys db) = false).
  { apply has_false. intros k Hk. apply String.eqb_neq.
    apply Hfresh. exact Hk. }
  assert (Huser : has (fun x => (User.id x =? User.id u)%string) (users db)
                  = true).
  { apply (has_true _ _ u Hin). apply String.eqb_refl. }
  assert (Hwidth : fits 255 key = true)
    by (unfold fits; apply Nat.leb_le; exact Hfits).
  set (db' := mkDatabase (organizations db) (users db) (documents db)
                (api_keys db
                 ++ [APIKey.mk (api_keys_id_seq db) key (User.id u) now_key
                       true])%list
                (api_keys_id_seq db + 1)).
  assert (Hv : verify_api_key (Some key) db' = (inr (User.id u), db')).
  { unfold verify_api_key, key. simpl. unfold bind, query.
    cbn [api_keys db'].
    rewrite find_last; [reflexivity| |].
    - intros k Hk. apply andb_false_iff. left. apply String.eqb_neq.
      apply Hfresh. exact Hk.
    - simpl. rewrite String.eqb_refl. reflexivity. }
  assert (Hu : user_by_id (User.id u) db' = Some u).
  { unfold user_by_id, db'. cbn [users].
    apply (find_by_key User.id); [apply (users_pk db Hc)|exact Hin]. }
  assert (Hcaller : caller (Some key) db' = Some u)
    by (unfold caller; rewrite Hv; exact Hu).
  exists db'.
  split; [|split; [reflexivity|split; [reflexivity|split; [exact Hv|
    split; [|split; [|split; [|split]]]]]]].
  - unfold login, bind, query. rewrite Hfind. cbv beta iota.
    rewrite Hpw, String.eqb_refl. cbn [negb]. cbv beta iota zeta.
    unfold add_api_key. fold key. rewrite Hwidth, Hnew, Huser. reflexivity.
  - unfold get_current_user, bind, query. rewrite Hv. cbv beta iota.
    rewrite Hu. cbv beta iota. unfold ret. rewrite Hinactive. reflexivity.
  - eexists.
    apply (list_documents_ok isoformat ilike order_by db' (Some key) u None
             None None None Hcaller); cbn [query_default];
      unfold bigint_max; lia.
  - intros r e. apply (resolved_key_accepted db' (Some key) (User.id u)).
    exact Hv.
  - intros r x_api_key db0 Hr. apply bearer_blind. exact Hr.
  - intros x_api_key db2. apply verify_api_key_keys_only.
Qed.

End Login.

Lemma suspended_constraints : constraints suspended_db.
Proof. solve_constraints. Qed.

(** Alice, switched off, logs in, reads her profile and lists her
    documents with the key she is given. *)
Lemma inactive_user_login_witness :
  constraints suspended_db
  /\ In alice_suspended (users suspended_db)
  /\ User.is_active alice_suspended = false
  /\ exists db',
       login (mkLoginRequest "u@acme.test" "pw") (uuid_of "k3") 600
         suspended_db
       = (inr (mkAuthResponse "Login successful" "hlai_k3" "user-alice"
                 "org-acme"), db')
       /\ users db' = users suspended_db
       /\ verify_api_key (Some "hlai_k3") db' = (inr "user-alice", db')
       /\ get_current_user (Some "hlai_k3") db'
          = (inr (mkProfileResponse "user-alice" "u@acme.test" "Alice"
                    "org-acme" false), db')
       /\ exists listed,
            list_documents isoformat_sample ilike_ascii insertion_order
              None None None None (Some "hlai_k3") db' = (inr listed, db').
Proof.
  split; [exact suspended_constraints|].
  split; [left; reflexivity|]. split; [reflexivity|].
  destruct (inactive_user_login fromisoformat_sample isoformat_sample
              ilike_ascii insertion_order suspended_db
              (mkLoginRequest "u@acme.test" "pw") (uuid_of "k3") 600
              alice_suspended suspended_constraints (or_introl eq_refl)
              eq_refl eq_refl eq_refl)
    as [db' [Hlogin [_ [Husers [Hv [Hme [Hlist _]]]]]]].
  - intros k [<-|[<-|[]]]; discriminate.
  - vm_compute. lia.
  - exists db'. split; [exact Hlogin|]. split; [exact Husers|].
    split; [exact Hv|]. split; [exact Hme|exact Hlist].
Defined.

(** *** The constraints hold in every reachable state *)

Lemma nodup_snoc {A} (f : A -> string) (l : list A) (x : A) :
  NoDup (map f l) ->
  has (fun y => (f y =? f x)%string) l = false ->
  NoDup (map f (l ++ [x])).
Proof.
  intros Hnd Hfresh. induction l as [|a l IH]; simpl.
  - constructor; [intros []|constructor].
  - simpl in Hnd. inversion Hnd as [|? ? Hnotin Hnd']; subst.
    unfold has in Hfresh. simpl in Hfresh.
    apply orb_false_iff in Hfresh. destruct Hfresh as [Ha Hl].
    constructor; [|apply IH; assumption].
    rewrite map_app, in_app_iff. intros [Hin|[Hin|[]]].
    + contradiction.
    + apply String.eqb_neq in Ha. congruence.
Qed.

Lemma documents_pk_filter (keep : Document.t -> bool)
  (l : list Document.t) :
  NoDup (map Document.id l) -> NoDup (map Document.id (filter keep l)).
Proof.
  induction l as [|a l IH]; intros Hnd; [exact Hnd|].
  simpl in Hnd. inversion Hnd as [|? ? Hnotin Hnd']; subst.
  simpl. destruct (keep a); [|apply IH; exact Hnd'].
  simpl. constructor; [|apply IH; exact Hnd'].
  intros Hin. apply Hnotin. apply in_map_iff in Hin.
  destruct Hin as [y [Hy Hin]]. apply filter_In in Hin.
  rewrite <- Hy. apply in_map. tauto.
Qed.

Lemma has_or_false {A} (p q : A -> bool) (l : list A) :
  has (fun x => p x || q x) l = false ->
  has p l = false /\ has q l = false.
Proof.
  intros H. split; apply has_false; intros y Hy;
    pose proof (has_false_inv _ _ y H Hy) as Hpq;
    apply orb_false_iff in Hpq; tauto.
Qed.

Lemma preserves_ret {A} (a : A) : preserves (ret a).
Proof. intros db H. exact H. Qed.

Lemma preserves_query {A} (q : Database -> A) : preserves (query q).
Proof. intros db H. exact H. Qed.

Lemma preserves_raise {A} (e : exception) : preserves (@raise A e).
Proof. intros db H. exact H. Qed.

Lemma preserves_attr {R A} (o : option R) (f : R -> A) :
  preserves (attr o f).
Proof. destruct o; intros db H; exact H. Qed.

Lemma preserves_bind {A B} (c : M A) (k : A -> M B) :
  preserves c -> (forall a, preserves (k a)) -> preserves (bind c k).
Proof.
  intros Hc Hk db H. unfold bind. specialize (Hc db H).
  destruct (c db) as [[e|a] db1]; simpl in *; [exact Hc|].
  apply Hk. exact Hc.
Qed.

Lemma preserves_verify_api_key (key : option string) :
  preserves (verify_api_key key).
Proof. intros db H. rewrite verify_api_key_reads. exact H. Qed.

Lemma preserves_add_organization (o : Organization.t) :
  preserves (add_organization o).
Proof.
  intros db [H1 H2 H3 H4 H5 H6]. unfold add_organization.
  destruct (negb _); [constructor; assumption|].
  destruct (has _ (organizations db)) eqn:Hfresh; simpl;
    [constructor; assumption|].
  apply has_or_false in Hfresh. destruct Hfresh as [Hid Hemail].
  constructor; simpl; try assumption; apply nodup_snoc; assumption.
Qed.

Lemma preserves_add_user (u : User.t) : preserves (add_user u).
Proof.
  intros db [H1 H2 H3 H4 H5 H6]. unfold add_user.
  destruct (negb _); [constructor; assumption|].
  destruct (has _ (users db)) eqn:Hfresh; simpl;
    [constructor; assumption|].
  destruct (negb _); simpl; [constructor; assumption|].
  apply has_or_false in Hfresh. destruct Hfresh as [Hid Hemail].
  constructor; simpl; try assumption; apply nodup_snoc; assumption.
Qed.

Lemma preserves_add_document (d : Document.t) : preserves (add_document d).
Proof.
  intros db [H1 H2 H3 H4 H5 H6]. unfold add_document.
  destruct (negb _); [constructor; assumption|].
  destruct (has _ (documents db)) eqn:Hfresh; simpl;
    [constructor; assumption|].
  destruct (negb _); simpl; [constructor; assumption|].
  constructor; simpl; try assumption; apply nodup_snoc; assumption.
Qed.

Lemma preserves_add_api_key (api_key user_id : string) (now : datetime) :
  preserves (add_api_key api_key user_id now).
Proof.
  intros db [H1 H2 H3 H4 H5 H6]. unfold add_api_key. cbv zeta.
  destruct (negb (fits _ _)); [constructor; assumption|].
  destruct (has _ (api_keys db)) eqn:Hfresh; simpl;
    [constructor; assumption|].
  destruct (negb _); simpl; [constructor; assumption|].
  constructor; simpl; try assumption.
  apply (nodup_snoc APIKey.api_key); assumption.
Qed.

Lemma preserves_update_row (D : string) (f : Document.t -> Document.t) :
  (forall x, Document.id (f x) = Document.id x) ->
  preserves (update_document_row D f).
Proof.
  intros Hf db [H1 H2 H3 H4 H5 H6]. unfold update_document_row.
  destruct (has _ _); [constructor; assumption|].
  constructor; simpl; try assumption.
  rewrite map_map.
  rewrite (map_ext _ Document.id); [exact H5|].
  intros x. destruct (Document.id x =? D)%string; [apply Hf|reflexivity].
Qed.

Lemma preserves_delete_row (D : string) : preserves (delete_document_row D).
Proof.
  intros db [H1 H2 H3 H4 H5 H6].
  constructor; simpl; try assumption.
  apply documents_pk_filter. exact H5.
Qed.

Ltac preserves_steps :=
  repeat first
    [ apply preserves_ret
    | apply preserves_query
    | apply preserves_raise
    | apply preserves_attr
    | apply preserves_verify_api_key
    | apply preserves_add_organization
    | apply preserves_add_user
    | apply preserves_add_document
    | apply preserves_add_api_key
    | apply preserves_delete_row
    | apply preserves_bind; [|intros ?]
    | match goal with
      | |- preserves (match ?x with _ => _ end) => destruct x eqn:?
      end ].

Section Reachability.

Variable fromisoformat : string -> option datetime.
Variable isoformat : datetime -> string.
Variable ilike : string -> string -> bool.
Variable order_by : ordering.

Lemma serve_preserves (r : Request) :
  preserves (serve fromisoformat isoformat ilike order_by r).
Proof.
  destruct r as [data u1 u2 u3 t1 t2 t3|data u t|key r];
    [| |destruct r]; cbn [serve serve_bearer];
    unfold respond, signup, login, get_current_user,
      generate_signed_upload_url, create_document, list_documents,
      get_document, update_document, delete_document, export_documents_csv,
      get_documents_summary, create_stripe_checkout_session;
    cbv zeta; preserves_steps.
  apply preserves_update_row. intros x.
  match goal with
  | H : apply_update _ _ _ = inr _ |- _ =>
      exact (apply_update_id fromisoformat _ _ _ x H)
  end.
Qed.

(** Every state the service reaches from the empty tables satisfies the
    primary keys and unique columns of models.py. *)
Lemma reachable_constraints (db : Database) :
  reachable fromisoformat isoformat ilike order_by db -> constraints db.
Proof.
  induction 1 as [|r db Hreach IH].
  - constructor; constructor.
  - apply serve_preserves. exact IH.
Qed.

End Reachability.

Lemma run_reachable (rs : list Request) (db : Database) :
  reachable fromisoformat_sample isoformat_sample ilike_ascii insertion_order
      db ->
  reachable fromisoformat_sample isoformat_sample ilike_ascii insertion_order
      (run rs db).
Proof.
  revert db. induction rs as [|r rs IH]; intros db H; [exact H|].
  simpl. apply IH. apply reachable_serve. exact H.
Qed.

(** The states the examples run on are states of the service. *)
Lemma two_tenants_reachable :
  reachable fromisoformat_sample isoformat_sample ilike_ascii insertion_order
      two_tenants_db.
Proof.
  change two_tenants_db with (run two_tenants empty_db).
  apply run_reachable. apply reachable_empty.
Qed.

Lemma five_statuses_reachable :
  reachable fromisoformat_sample isoformat_sample ilike_ascii insertion_order
    five_statuses_db.
Proof.
  change five_statuses_db with (run five_statuses empty_db).
  apply run_reachable. apply reachable_empty.
Qed.

(** *** The scenarios of the specification *)

(** Signup returns a key; a login mints another key for the same user and
    organization; a wrong password is answered 401. *)
Example scenario_signup_login :
  let signed :=
    signup (mkOrganizationSignup "Acme" "a@acme.test" "u@acme.test" "pw"
              "Alice")
      (uuid_of "org-acme") (uuid_of "user-alice") (uuid_of "k1") 100 100 100
      empty_db in
  fst signed
  = inr (mkAuthResponse "Signup successful" "hlai_k1" "user-alice" "org-acme")
  /\ fst (login (mkLoginRequest "u@acme.test" "pw") (uuid_of "k2") 200
            (snd signed))
     = inr (mkAuthResponse "Login successful" "hlai_k2" "user-alice"
              "org-acme")
  /\ fst (login (mkLoginRequest "u@acme.test" "wrong") (uuid_of "k2") 200
            (snd signed))
     = inl (HTTPException 401 "Invalid credentials").
Proof. vm_compute. repeat split. Qed.

(** A new document is "processing"; an expiry override leaves the status;
    a status override leaves the expiry date. *)
Example scenario_overrides :
  let patch data now db :=
    update_document fromisoformat_sample isoformat_sample "doc-1" data
      (Some "hlai_k1") now db in
  let first :=
    patch (mkDocumentUpdate (Some "2025-01-01T00:00:00") None) 600
      two_tenants_db in
  let second := patch (mkDocumentUpdate None (Some "expired")) 700
                  (snd first) in
  Document.status lease = "processing"
  /\ fst first
     = inr (mkUpdateResponse "Document updated successfully"
              (mkUpdatedDocument "doc-1" "processing"
                 (Some "2025-01-01T00:00:00") true))
  /\ fst second
     = inr (mkUpdateResponse "Document updated successfully"
              (mkUpdatedDocument "doc-1" "expired"
                 (Some "2025-01-01T00:00:00") true)).
Proof. vm_compute. repeat split. Qed.

(** ** Further properties of the handlers *)

(** *** Keeping a property through a handler *)

Lemma keeps_ret {A} (P : Database -> Prop) (a : A) : keeps P (ret a).
Proof. intros db H. exact H. Qed.

Lemma keeps_query {A} (P : Database -> Prop) (q : Database -> A) :
  keeps P (query q).
Proof. intros db H. exact H. Qed.

Lemma keeps_raise {A} (P : Database -> Prop) (e : exception) :
  keeps P (@raise A e).
Proof. intros db H. exact H. Qed.

Lemma keeps_attr {R A} (P : Database -> Prop) (o : option R) (f : R -> A) :
  keeps P (attr o f).
Proof. destruct o; intros db H; exact H. Qed.

Lemma keeps_bind {A B} (P : Database -> Prop) (c : M A) (k : A -> M B) :
  keeps P c -> (forall a, keeps P (k a)) -> keeps P (bind c k).
Proof.
  intros Hc Hk db H. unfold bind. specialize (Hc db H).
  destruct (c db) as [[e|a] db1]; simpl in *; [exact Hc|].
  apply Hk. exact Hc.
Qed.

Lemma keeps_verify_api_key (P : Database -> Prop) (key : option string) :
  keeps P (verify_api_key key).
Proof. intros db H. rewrite verify_api_key_reads. exact H. Qed.

Lemma has_app_l {A} (p : A -> bool) (l l' : list A) :
  has p l = true -> has p (l ++ l') = true.
Proof.
  unfold has. intros H. rewrite existsb_app, H. reflexivity.
Qed.

Lemma has_app_r {A} (p : A -> bool) (l : list A) (x : A) :
  p x = true -> has p (l ++ [x]) = true.
Proof.
  unfold has. intros H. rewrite existsb_app. simpl. rewrite H.
  rewrite orb_true_r. reflexivity.
Qed.

(** *** The invariant through the inserts, updates and deletes *)

Lemma invariant_add_organization (o : Organization.t) :
  keeps api_invariant (add_organization o).
Proof.
  intros db [H1 H2 H3 H4 H5 H6 H7 H8]. unfold add_organization.
  destruct (negb _); [constructor; assumption|].
  destruct (has _ (organizations db)); simpl; [constructor; assumption|].
  constructor; simpl; try assumption.
  - revert H2. apply Forall_impl. intros u Hu.
    unfold organization_exists in *. simpl. apply has_app_l. exact Hu.
  - revert H3. apply Forall_impl. intros d Hd.
    unfold organization_exists in *. simpl. apply has_app_l. exact Hd.
Qed.

Lemma invariant_add_user (u : User.t) :
  User.is_active u = true -> keeps api_invariant (add_user u).
Proof.
  intros Hactive db [H1 H2 H3 H4 H5 H6 H7 H8]. unfold add_user.
  destruct (negb _); [constructor; assumption|].
  destruct (has _ (users db)); simpl; [constructor; assumption|].
  destruct (has _ (organizations db)) eqn:Horg; simpl;
    [|constructor; assumption].
  constructor; simpl; try assumption.
  - apply Forall_app. split; [exact H1|]. constructor; [exact Hactive|].
    constructor.
  - apply Forall_app. split; [exact H2|]. constructor; [exact Horg|].
    constructor.
  - revert H7. apply Forall_impl. intros k Hk.
    unfold user_exists in *. simpl. apply has_app_l. exact Hk.
Qed.

Lemma invariant_add_document (d : Document.t) :
  override_coherent d -> never_written d ->
  keeps api_invariant (add_document d).
Proof.
  intros Hshape Hnever db [H1 H2 H3 H4 H5 H6 H7 H8]. unfold add_document.
  destruct (negb _); [constructor; assumption|].
  destruct (has _ (documents db)); simpl; [constructor; assumption|].
  destruct (has _ (organizations db)) eqn:Horg; simpl;
    [|constructor; assumption].
  constructor; simpl; try assumption.
  - apply Forall_app. split; [exact H3|]. constructor; [exact Horg|].
    constructor.
  - apply Forall_app. split; [exact H4|]. constructor; [tauto|].
    constructor.
Qed.

Lemma invariant_add_api_key (api_key user_id : string) (now : datetime) :
  api_key <> "" -> keeps api_invariant (add_api_key api_key user_id now).
Proof.
  intros Hkey db [H1 H2 H3 H4 H5 H6 H7 H8]. unfold add_api_key. cbv zeta.
  assert (Hspent : api_invariant
                     (mkDatabase (organizations db) (users db)
                        (documents db) (api_keys db)
                        (api_keys_id_seq db + 1))).
  { constructor; simpl; try assumption.
    revert H8. apply Forall_impl. intros k Hk. lia. }
  destruct (negb (fits _ _)); [exact Hspent|].
  destruct (has _ (api_keys db)); simpl; [exact Hspent|].
  destruct (has _ (users db)) eqn:Huser; simpl; [|exact Hspent].
  constructor; simpl; try assumption.
  - apply Forall_app. split; [exact H5|]. constructor; [reflexivity|].
    constructor.
  - apply Forall_app. split; [exact H6|]. constructor; [exact Hkey|].
    constructor.
  - apply Forall_app. split; [exact H7|]. constructor; [exact Huser|].
    constructor.
  - apply Forall_app. split.
    + revert H8. apply Forall_impl. intros k Hk. lia.
    + constructor; [simpl; lia|constructor].
Qed.

Lemma invariant_update_row (D : string) (f : Document.t -> Document.t) :
  (forall d, Document.org_id (f d) = Document.org_id d) ->
  (forall d, override_coherent d /\ never_written d ->
             override_coherent (f d) /\ never_written (f d)) ->
  keeps api_invariant (update_document_row D f).
Proof.
  intros Horg Hshape db [H1 H2 H3 H4 H5 H6 H7 H8].
  unfold update_document_row.
  destruct (has _ _); [constructor; assumption|].
  constructor; simpl; try assumption.
  - apply Forall_map. revert H3. apply Forall_impl. intros d Hd.
    destruct (Document.id d =? D)%string; [rewrite Horg|]; exact Hd.
  - apply Forall_map. revert H4. apply Forall_impl. intros d Hd.
    destruct (Document.id d =? D)%string; [apply Hshape|]; exact Hd.
Qed.

Lemma invariant_delete_row (D : string) :
  keeps api_invariant (delete_document_row D).
Proof.
  intros db [H1 H2 H3 H4 H5 H6 H7 H8].
  constructor; simpl; try assumption.
  - apply Forall_forall. intros d Hd. apply filter_In in Hd.
    rewrite Forall_forall in H3. apply H3. tauto.
  - apply Forall_forall. intros d Hd. apply filter_In in Hd.
    rewrite Forall_forall in H4. apply H4. tauto.
Qed.

Lemma apply_update_shape (fromisoformat : string -> option datetime)
  (data : DocumentUpdate) (now : datetime)
  (assign : Document.t -> Document.t) :
  apply_update fromisoformat data now = inr assign ->
  (forall d, Document.org_id (assign d) = Document.org_id d)
  /\ (forall d, override_coherent d /\ never_written d ->
                override_coherent (assign d) /\ never_written (assign d)).
Proof.
  unfold apply_update.
  destruct (truthy (expiry_date data)) as [e|];
    [destruct (fromisoformat e); [|discriminate]|];
    destruct (truthy (status data)); intros H; injection H as <-;
    (split; [reflexivity|]); intros doc [Hc Hn];
    unfold override_coherent, never_written in *; simpl;
    repeat split; try tauto; try discriminate.
Qed.

Ltac invariant_steps :=
  repeat first
    [ apply keeps_ret
    | apply keeps_query
    | apply keeps_raise
    | apply keeps_attr
    | apply keeps_verify_api_key
    | apply invariant_add_organization
    | apply invariant_add_user; reflexivity
    | apply invariant_add_document;
      [unfold override_coherent; simpl; tauto
      |unfold never_written; simpl; tauto]
    | apply invariant_add_api_key; discriminate
    | apply invariant_delete_row
    | apply keeps_bind; [|intros ?]
    | match goal with
      | |- keeps _ (match ?x with _ => _ end) => destruct x eqn:?
      end ].

Section Invariant.

Variable fromisoformat : string -> option datetime.
Variable isoformat : datetime -> string.
Variable ilike : string -> string -> bool.
Variable order_by : ordering.

Lemma serve_keeps_invariant (r : Request) :
  keeps api_invariant (serve fromisoformat isoformat ilike order_by r).
Proof.
  destruct r as [data u1 u2 u3 t1 t2 t3|data u t|key r];
    [| |destruct r]; cbn [serve serve_bearer];
    unfold respond, signup, login, get_current_user,
      generate_signed_upload_url, create_document, list_documents,
      get_document, update_document, delete_document, export_documents_csv,
      get_documents_summary, create_stripe_checkout_session;
    cbv zeta; invariant_steps.
  match goal with
  | H : apply_update _ _ _ = inr _ |- _ =>
      apply apply_update_shape in H; destruct H as [Horg Hshape]
  end.
  apply invariant_update_row; assumption.
Qed.

Lemma reachable_invariant (db : Database) :
  reachable fromisoformat isoformat ilike order_by db -> api_invariant db.
Proof.
  induction 1 as [|r db Hreach IH].
  - constructor; constructor.
  - apply serve_keeps_invariant. exact IH.
Qed.

End Invariant.

(** *** Keys and users in reachable states *)

Lemma find_ext_in {A} (p q : A -> bool) (l : list A) :
  (forall x, In x l -> p x = q x) -> find p l = find q l.
Proof.
  induction l as [|a l IH]; intros H; [reflexivity|].
  simpl. rewrite (H a (or_introl eq_refl)).
  destruct (q a); [reflexivity|]. apply IH.
  intros x Hx. apply H. right. exact Hx.
Qed.

Lemma has_find {A} (p : A -> bool) (l : list A) :
  has p l = true -> exists x, find p l = Some x.
Proof.
  unfold has. intros H. apply existsb_exists in H.
  destruct H as [x [Hin Hp]].
  destruct (find p l) as [y|] eqn:Hf; [exists y; reflexivity|].
  rewrite (find_none _ _ Hf x Hin) in Hp. discriminate.
Qed.

Lemma user_by_id_some (user_id : string) (db : Database) (u : User.t) :
  user_by_id user_id db = Some u ->
  In u (users db) /\ User.id u = user_id.
Proof.
  unfold user_by_id. intros H. apply find_some in H.
  destruct H as [Hin Heq]. apply String.eqb_eq in Heq. auto.
Qed.

(** What a successful [verify_api_key] found. *)
Lemma verify_api_key_inv (key : option string) (db db' : Database)
  (user_id : string) :
  verify_api_key key db = (inr user_id, db') ->
  exists k r,
    key = Some k /\ k <> "" /\ In r (api_keys db)
    /\ APIKey.api_key r = k /\ APIKey.is_active r = true
    /\ APIKey.user_id r = user_id.
Proof.
  unfold verify_api_key. destruct key as [k|]; simpl; [|discriminate].
  destruct (String.eqb_spec k "") as [E|E]; [discriminate|].
  unfold bind, query.
  destruct (find _ (api_keys db)) as [r|] eqn:Hf; simpl; [|discriminate].
  intros H. injection H as <- _. apply find_some in Hf.
  destruct Hf as [Hin Hp]. apply andb_true_iff in Hp.
  destruct Hp as [Hk Ha]. apply String.eqb_eq in Hk.
  apply Bool.eqb_prop in Ha.
  exists k, r. repeat split; assumption.
Qed.

Section ReachableStates.

Variable fromisoformat : string -> option datetime.
Variable isoformat : datetime -> string.
Variable ilike : string -> string -> bool.
Variable order_by : ordering.

(** X1. In every reachable state, every key that was ever issued still
    resolves: it stands for an existing user, the one it was issued to,
    and that user is active.  No request revokes a key or switches a user
    off. *)
Theorem issued_keys_keep_working (db : Database) (k : APIKey.t) :
  reachable fromisoformat isoformat ilike order_by db ->
  In k (api_keys db) ->
  exists u,
    verify_api_key (Some (APIKey.api_key k)) db
    = (inr (APIKey.user_id k), db)
    /\ caller (Some (APIKey.api_key k)) db = Some u
    /\ User.id u = APIKey.user_id k
    /\ User.is_active u = true.
Proof.
  intros Hreach Hin.
  pose proof (reachable_constraints _ _ _ _ _ Hreach) as Hc.
  pose proof (reachable_invariant _ _ _ _ _ Hreach) as Hi.
  pose proof (keys_active db Hi) as Hactive.
  pose proof (keys_nonempty db Hi) as Hnonempty.
  pose proof (keys_user db Hi) as Huser.
  pose proof (users_active db Hi) as Hua.
  rewrite Forall_forall in Hactive, Hnonempty, Huser, Hua.
  assert (Hv : verify_api_key (Some (APIKey.api_key k)) db
               = (inr (APIKey.user_id k), db)).
  { unfold verify_api_key. simpl.
    pose proof (Hnonempty k Hin) as Hne. apply String.eqb_neq in Hne.
    rewrite Hne. unfold bind, query.
    rewrite (find_ext_in _
               (fun x => (APIKey.api_key x =? APIKey.api_key k)%string)).
    - rewrite (find_by_key APIKey.api_key _ k (api_keys_unique db Hc) Hin).
      reflexivity.
    - intros x Hx. rewrite (Hactive x Hx). simpl. apply andb_true_r. }
  destruct (has_find _ _ (Huser k Hin)) as [u Hu].
  fold (user_by_id (APIKey.user_id k) db) in Hu.
  destruct (user_by_id_some _ _ _ Hu) as [Huin Hid].
  exists u. split; [exact Hv|]. split; [|split; [exact Hid|]].
  - unfold caller. rewrite Hv. exact Hu.
  - apply Hua. exact Huin.
Qed.

(** X2. In every reachable state, a key that [verify_api_key] accepts
    belongs to a stored user: the profile endpoint answers with that
    user's row, marked active, and never with "User not found"; the
    user's organization exists. *)
Theorem resolved_key_has_profile (db : Database) (key : option string)
  (user_id : string) :
  reachable fromisoformat isoformat ilike order_by db ->
  verify_api_key key db = (inr user_id, db) ->
  exists u,
    caller key db = Some u
    /\ get_current_user key db
       = (inr (mkProfileResponse user_id (User.email u) (User.full_name u)
                 (User.org_id u) true), db)
    /\ exists o, In o (organizations db)
                 /\ Organization.id o = User.org_id u.
Proof.
  intros Hreach Hv.
  pose proof (reachable_invariant _ _ _ _ _ Hreach) as Hi.
  pose proof (keys_user db Hi) as Huser.
  pose proof (users_active db Hi) as Hua.
  pose proof (users_org db Hi) as Huo.
  rewrite Forall_forall in Huser, Hua, Huo.
  destruct (verify_api_key_inv _ _ _ _ Hv) as [k [r [_ [_ [Hin [_ [_ Hid]]]]]]].
  specialize (Huser r Hin). rewrite Hid in Huser.
  destruct (has_find _ _ Huser) as [u Hu].
  fold (user_by_id user_id db) in Hu.
  destruct (user_by_id_some _ _ _ Hu) as [Huin Huid].
  exists u. split; [unfold caller; rewrite Hv; exact Hu|]. split.
  - unfold get_current_user, bind, query. rewrite Hv. cbv beta iota.
    rewrite Hu. simpl. rewrite Huid, (Hua u Huin). reflexivity.
  - specialize (Huo u Huin). unfold organization_exists, has in Huo.
    apply existsb_exists in Huo. destruct Huo as [o [Ho Heq]].
    apply String.eqb_eq in Heq. exists o. auto.
Qed.

(** X3. In every reachable state, each document belongs to an existing
    organization, its [expiry_date] is set exactly when [manual_override]
    is true and [manual_override_date] is set, and [confidence_score],
    [needs_review_reason] and [processed_at] are unset: no endpoint writes
    them. *)
Theorem documents_only_overridden (db : Database) (d : Document.t) :
  reachable fromisoformat isoformat ilike order_by db ->
  In d (documents db) ->
  (exists o, In o (organizations db)
             /\ Organization.id o = Document.org_id d)
  /\ (Document.expiry_date d <> None
      <-> Document.manual_override d = true)
  /\ (Document.expiry_date d <> None
      <-> Document.manual_override_date d <> None)
  /\ Document.confidence_score d = None
  /\ Document.needs_review_reason d = None
  /\ Document.processed_at d = None.
Proof.
  intros Hreach Hin.
  pose proof (reachable_invariant _ _ _ _ _ Hreach) as Hi.
  pose proof (documents_org db Hi) as Hor.
  pose proof (documents_shape db Hi) as Hsh.
  rewrite Forall_forall in Hor, Hsh.
  specialize (Hor d Hin). destruct (Hsh d Hin) as [Hco [H1 [H2 H3]]].
  split.
  - unfold organization_exists, has in Hor.
    apply existsb_exists in Hor. destruct Hor as [o [Ho Heq]].
    apply String.eqb_eq in Heq. exists o. auto.
  - unfold override_coherent in Hco.
    destruct (Document.expiry_date d) as [e|]; destruct Hco as [Hm Hd];
      repeat split; try assumption; try congruence;
      try (intros _; discriminate); try (intros H; rewrite Hm in H;
                                         discriminate).
Qed.

(** X4. The alert sweep needs no key, leaves the database as it is, and
    counts documents of every organization; in a reachable state its
    [alerts_sent] is the number of manually overridden documents. *)
Theorem alert_sweep_counts_overrides (db : Database) (now : datetime) :
  reachable fromisoformat isoformat ilike order_by db ->
  exists r,
    check_expiring_documents isoformat now db = (inr r, db)
    /\ alerts_sent r
       = Z.of_nat (List.length
                     (filter Document.manual_override (documents db)))
    /\ 0 <= alerts_sent r <= Z.of_nat (List.length (documents db)).
Proof.
  intros Hreach.
  pose proof (reachable_invariant _ _ _ _ _ Hreach) as Hi.
  pose proof (documents_shape db Hi) as Hsh.
  unfold check_expiring_documents, bind, query, ret. simpl.
  eexists. split; [reflexivity|]. simpl. unfold len.
  assert (Hsame : filter (fun d => match Document.expiry_date d with
                                   | Some _ => true
                                   | None => false
                                   end) (documents db)
                  = filter Document.manual_override (documents db)).
  { apply filter_ext_in. intros d Hd. rewrite Forall_forall in Hsh.
    destruct (Hsh d Hd) as [Hco _]. unfold override_coherent in Hco.
    destruct (Document.expiry_date d); destruct Hco as [-> _];
      reflexivity. }
  rewrite Hsame. split; [reflexivity|].
  pose proof (filter_length_le Document.manual_override (documents db)).
  lia.
Qed.

End ReachableStates.

Lemma issued_keys_keep_working_witness :
  reachable fromisoformat_sample isoformat_sample ilike_ascii insertion_order
      two_tenants_db
  /\ In (APIKey.mk 2 "hlai_k2" "user-bob" 200 true) (api_keys two_tenants_db)
  /\ exists u,
       verify_api_key (Some "hlai_k2") two_tenants_db
       = (inr "user-bob", two_tenants_db)
       /\ caller (Some "hlai_k2") two_tenants_db = Some u
       /\ User.id u = "user-bob"
       /\ User.is_active u = true.
Proof.
  split; [exact two_tenants_reachable|].
  split; [right; left; reflexivity|].
  exact (issued_keys_keep_working fromisoformat_sample isoformat_sample
    ilike_ascii insertion_order two_tenants_db (APIKey.mk 2 "hlai_k2"
        "user-bob" 200 true)
    two_tenants_reachable (or_intror (or_introl eq_refl))).
Defined.

Lemma resolved_key_has_profile_witness :
  reachable fromisoformat_sample isoformat_sample ilike_ascii insertion_order
      two_tenants_db
  /\ verify_api_key (Some "hlai_k1") two_tenants_db
     = (inr "user-alice", two_tenants_db)
  /\ exists u,
       caller (Some "hlai_k1") two_tenants_db = Some u
       /\ get_current_user (Some "hlai_k1") two_tenants_db
          = (inr (mkProfileResponse "user-alice" (User.email u)
                    (User.full_name u) (User.org_id u) true),
             two_tenants_db)
       /\ exists o, In o (organizations two_tenants_db)
                    /\ Organization.id o = User.org_id u.
Proof.
  split; [exact two_tenants_reachable|]. split; [reflexivity|].
  exact (resolved_key_has_profile fromisoformat_sample isoformat_sample
    ilike_ascii insertion_order two_tenants_db (Some "hlai_k1") "user-alice"
    two_tenants_reachable eq_refl).
Defined.

Lemma documents_only_overridden_witness :
  reachable fromisoformat_sample isoformat_sample ilike_ascii insertion_order
      two_tenants_db
  /\ In lease (documents two_tenants_db)
  /\ Document.confidence_score lease = None
  /\ Document.processed_at lease = None.
Proof.
  split; [exact two_tenants_reachable|]. split; [left; reflexivity|].
  destruct (documents_only_overridden fromisoformat_sample isoformat_sample
              ilike_ascii insertion_order two_tenants_db lease
                  two_tenants_reachable
              (or_introl eq_refl)) as [_ [_ [_ [Hc [_ Hp]]]]].
  split; [exact Hc|exact Hp].
Defined.

Lemma alert_sweep_counts_overrides_witness :
  reachable fromisoformat_sample isoformat_sample ilike_ascii insertion_order
      two_tenants_db
  /\ exists r,
       check_expiring_documents isoformat_sample 900 two_tenants_db
       = (inr r, two_tenants_db)
       /\ alerts_sent r
          = Z.of_nat (List.length
                        (filter Document.manual_override
                           (documents two_tenants_db)))
       /\ 0 <= alerts_sent r
          <= Z.of_nat (List.length (documents two_tenants_db)).
Proof.
  split; [exact two_tenants_reachable|].
  exact (alert_sweep_counts_overrides fromisoformat_sample isoformat_sample
    ilike_ascii insertion_order two_tenants_db 900 two_tenants_reachable).
Defined.

(** *** One user per organization *)

Lemma add_organization_cases (o : Organization.t) (db : Database) :
  (exists e, add_organization o db = (inl e, db))
  \/ (add_organization o db
      = (inr tt, mkDatabase (organizations db ++ [o])%list (users db)
                   (documents db) (api_keys db) (api_keys_id_seq db))
      /\ organization_exists (Organization.id o) db = false).
Proof.
  unfold add_organization.
  destruct (negb _); [left; eexists; reflexivity|].
  destruct (has _ (organizations db)) eqn:H; [left; eexists; reflexivity|].
  right. split; [reflexivity|]. apply has_or_false in H. exact (proj1 H).
Qed.

Lemma add_user_cases (u : User.t) (db : Database) :
  (exists e, add_user u db = (inl e, db))
  \/ add_user u db
     = (inr tt, mkDatabase (organizations db) (users db ++ [u])%list
                  (documents db) (api_keys db) (api_keys_id_seq db)).
Proof.
  unfold add_user. split_ifs; [left; eexists; reflexivity..|].
  right. reflexivity.
Qed.

Lemma add_api_key_users (k uid : string) (now : datetime) (db : Database) :
  users (snd (add_api_key k uid now db)) = users db.
Proof. unfold add_api_key. cbv zeta. split_ifs; reflexivity. Qed.

Lemma signup_users (data : OrganizationSignup)
  (org_uuid user_uuid key_uuid : uuid.UUID)
  (now_org now_user now_key : datetime) (db : Database) :
  let db' := snd (signup data org_uuid user_uuid key_uuid now_org now_user
                    now_key db) in
  users db' = users db
  \/ (organization_exists (uuid.str org_uuid) db = false
      /\ exists u, users db' = (users db ++ [u])%list
                   /\ User.org_id u = uuid.str org_uuid).
Proof.
  unfold signup, bind, query.
  destruct (user_by_email (user_email data) db); [left; reflexivity|].
  cbv beta iota zeta.
  match goal with
  | |- context [add_organization ?o db] =>
      destruct (add_organization_cases o db) as [[e He]|[He Hfresh]];
      rewrite He
  end; [left; reflexivity|].
  cbv beta iota.
  match goal with
  | |- context [add_user ?x ?d] =>
      destruct (add_user_cases x d) as [[e Hu]|Hu]; rewrite Hu
  end; [left; reflexivity|].
  cbv beta iota.
  match goal with
  | |- context [add_api_key ?k ?x ?n ?d] =>
      pose proof (add_api_key_users k x n d) as Hk;
      destruct (add_api_key k x n d) as [[e|y] d2]
  end; simpl in *;
    (right; split; [exact Hfresh|]; eexists; split; [exact Hk|reflexivity]).
Qed.

Lemma nodup_map_inj {A} (f : A -> string) (l : list A) (x y : A) :
  NoDup (map f l) -> In x l -> In y l -> f x = f y -> x = y.
Proof.
  intros Hnd Hx Hy Hf.
  pose proof (find_by_key f l x Hnd Hx) as Fx.
  pose proof (find_by_key f l y Hnd Hy) as Fy.
  rewrite Hf in Fx. congruence.
Qed.

Lemma users_fixed_add_document (U : list User.t) (d : Document.t) :
  keeps (fun db => users db = U) (add_document d).
Proof.
  intros db H. unfold add_document. split_ifs; exact H.
Qed.

Lemma users_fixed_add_api_key (U : list User.t) (k uid : string)
  (now : datetime) :
  keeps (fun db => users db = U) (add_api_key k uid now).
Proof.
  intros db H. unfold add_api_key. cbv zeta. split_ifs; exact H.
Qed.

Lemma users_fixed_update_row (U : list User.t) (D : string)
  (f : Document.t -> Document.t) :
  keeps (fun db => users db = U) (update_document_row D f).
Proof.
  intros db H. unfold update_document_row. split_ifs; exact H.
Qed.

Lemma users_fixed_delete_row (U : list User.t) (D : string) :
  keeps (fun db => users db = U) (delete_document_row D).
Proof. intros db H. exact H. Qed.

Ltac users_fixed_steps :=
  repeat first
    [ apply keeps_ret
    | apply keeps_query
    | apply keeps_raise
    | apply keeps_attr
    | apply keeps_verify_api_key
    | apply users_fixed_add_document
    | apply users_fixed_add_api_key
    | apply users_fixed_update_row
    | apply users_fixed_delete_row
    | apply keeps_bind; [|intros ?]
    | match goal with
      | |- keeps _ (match ?x with _ => _ end) => destruct x eqn:?
      end ].

Section Tenancy.

Variable fromisoformat : string -> option datetime.
Variable isoformat : datetime -> string.
Variable ilike : string -> string -> bool.
Variable order_by : ordering.

(** Only [signup] writes the users table. *)
Lemma users_written_by_signup_only (r : Request) (db : Database) :
  (forall data u1 u2 u3 t1 t2 t3, r <> Signup data u1 u2 u3 t1 t2 t3) ->
  users (snd (serve fromisoformat isoformat ilike order_by r db)) = users db.
Proof.
  intros Hr.
  assert (H : keeps (fun d => users d = users db)
                (serve fromisoformat isoformat ilike order_by r)).
  { destruct r as [data u1 u2 u3 t1 t2 t3|data u t|key r];
      [exfalso; eapply Hr; reflexivity| |destruct r];
      cbn [serve serve_bearer];
      unfold respond, login, get_current_user, generate_signed_upload_url,
        create_document, list_documents, get_document, update_document,
        delete_document, export_documents_csv, get_documents_summary,
        create_stripe_checkout_session;
      cbv zeta; users_fixed_steps. }
  apply H. reflexivity.
Qed.

Lemma reachable_user_organizations (db : Database) :
  reachable fromisoformat isoformat ilike order_by db ->
  NoDup (map User.org_id (users db)).
Proof.
  induction 1 as [|r db Hreach IH]; [constructor|].
  pose proof (reachable_invariant _ _ _ _ _ Hreach) as Hi.
  destruct r as [data u1 u2 u3 t1 t2 t3|data u t|key r].
  - cbn [serve]. unfold respond, bind.
    pose proof (signup_users data u1 u2 u3 t1 t2 t3 db) as Hs.
    cbv zeta in Hs.
    destruct (signup data u1 u2 u3 t1 t2 t3 db) as [[e|a] db1];
      simpl in *;
      (destruct Hs as [->|[Hfresh [x [-> Hx]]]]; [exact IH|]);
      (rewrite map_app; simpl; rewrite Hx;
       apply NoDup_app; [exact IH|constructor; [intros []|constructor]|];
       intros o Ho [<-|[]]; apply in_map_iff in Ho;
       destruct Ho as [y [Hy Hin]];
       pose proof (users_org db Hi) as Huo; rewrite Forall_forall in Huo;
       specialize (Huo y Hin); rewrite Hy in Huo; congruence).
  - rewrite users_written_by_signup_only; [exact IH|]. discriminate.
  - rewrite users_written_by_signup_only; [exact IH|]. discriminate.
Qed.

(** X5. In every reachable state an organization has at most one user:
    two stored users with the same [org_id] are the same row.  [signup]
    is the only request that adds a user, and it adds it to the
    organization it has just created. *)
Theorem one_user_per_organization (db : Database) (u1 u2 : User.t) :
  reachable fromisoformat isoformat ilike order_by db ->
  In u1 (users db) -> In u2 (users db) ->
  User.org_id u1 = User.org_id u2 ->
  u1 = u2.
Proof.
  intros Hreach H1 H2 Horg.
  apply (nodup_map_inj User.org_id (users db)); try assumption.
  apply reachable_user_organizations. exact Hreach.
Qed.

End Tenancy.

Lemma one_user_per_organization_witness :
  reachable fromisoformat_sample isoformat_sample ilike_ascii insertion_order
      two_tenants_db
  /\ In alice (users two_tenants_db)
  /\ (forall u, In u (users two_tenants_db) ->
      User.org_id u = "org-acme" -> u = alice).
Proof.
  split; [exact two_tenants_reachable|]. split; [left; reflexivity|].
  intros u Hu Horg.
  exact (one_user_per_organization fromisoformat_sample isoformat_sample
    ilike_ascii insertion_order two_tenants_db u alice two_tenants_reachable Hu
    (or_introl eq_refl) Horg).
Defined.

(** *** Resolving a key *)

(** X6. [verify_api_key] either resolves the key to the user of a stored,
    active row with exactly that non-empty key, or answers 401; it answers
    401 exactly when no such row exists (a missing or empty key matches no
    row, an inactive row does not count).  It never writes. *)
Theorem verify_api_key_dichotomy (key : option string) (db : Database) :
  (exists r,
     In r (api_keys db) /\ key = Some (APIKey.api_key r)
     /\ APIKey.api_key r <> "" /\ APIKey.is_active r = true
     /\ verify_api_key key db = (inr (APIKey.user_id r), db))
  \/ ((forall r, In r (api_keys db) -> key = Some (APIKey.api_key r) ->
       APIKey.api_key r <> "" -> APIKey.is_active r = false)
      /\ exists detail,
           verify_api_key key db = (inl (HTTPException 401 detail), db)
           /\ status_code_of (HTTPException 401 detail) = 401).
Proof.
  unfold verify_api_key. destruct key as [k|]; simpl.
  - destruct (String.eqb_spec k "") as [E|E].
    + right. split.
      * intros r _ Hk Hne. injection Hk as ->. contradiction.
      * eexists. split; reflexivity.
    + unfold bind, query.
      destruct (find _ (api_keys db)) as [r|] eqn:Hf.
      * left. apply find_some in Hf. destruct Hf as [Hin Hp].
        apply andb_true_iff in Hp. destruct Hp as [Hk Ha].
        apply String.eqb_eq in Hk. apply Bool.eqb_prop in Ha.
        exists r. subst k. repeat split; assumption.
      * right. split.
        -- intros r Hin Hk _. injection Hk as ->.
           pose proof (find_none _ _ Hf r Hin) as Hp. simpl in Hp.
           rewrite String.eqb_refl in Hp. simpl in Hp.
           destruct (APIKey.is_active r); [discriminate|reflexivity].
        -- eexists. split; reflexivity.
  - right. split; [intros r _ Hk; discriminate|].
    eexists. split; reflexivity.
Qed.

Lemma find_app_l {A} (p : A -> bool) (l l' : list A) (x : A) :
  find p l = Some x -> find p (l ++ l') = Some x.
Proof.
  induction l as [|a l IH]; simpl; [discriminate|].
  destruct (p a); [trivial|exact IH].
Qed.

Lemma keys_grow_add_organization (K : list APIKey.t) (o : Organization.t) :
  keeps (fun db => exists l, api_keys db = (K ++ l)%list)
    (add_organization o).
Proof.
  intros db H. unfold add_organization. split_ifs; exact H.
Qed.

Lemma keys_grow_add_user (K : list APIKey.t) (u : User.t) :
  keeps (fun db => exists l, api_keys db = (K ++ l)%list) (add_user u).
Proof.
  intros db H. unfold add_user. split_ifs; exact H.
Qed.

Lemma keys_grow_add_document (K : list APIKey.t) (d : Document.t) :
  keeps (fun db => exists l, api_keys db = (K ++ l)%list) (add_document d).
Proof.
  intros db H. unfold add_document. split_ifs; exact H.
Qed.

Lemma keys_grow_add_api_key (K : list APIKey.t) (k uid : string)
  (now : datetime) :
  keeps (fun db => exists l, api_keys db = (K ++ l)%list)
    (add_api_key k uid now).
Proof.
  intros db [l H]. unfold add_api_key. cbv zeta.
  split_ifs; simpl; try (exists l; exact H).
  rewrite H, <- app_assoc. eexists. reflexivity.
Qed.

Lemma keys_grow_update_row (K : list APIKey.t) (D : string)
  (f : Document.t -> Document.t) :
  keeps (fun db => exists l, api_keys db = (K ++ l)%list)
    (update_document_row D f).
Proof.
  intros db H. unfold update_document_row. split_ifs; exact H.
Qed.

Lemma keys_grow_delete_row (K : list APIKey.t) (D : string) :
  keeps (fun db => exists l, api_keys db = (K ++ l)%list)
    (delete_document_row D).
Proof. intros db H. exact H. Qed.

Ltac keys_grow_steps :=
  repeat first
    [ apply keeps_ret
    | apply keeps_query
    | apply keeps_raise
    | apply keeps_attr
    | apply keeps_verify_api_key
    | apply keys_grow_add_organization
    | apply keys_grow_add_user
    | apply keys_grow_add_document
    | apply keys_grow_add_api_key
    | apply keys_grow_update_row
    | apply keys_grow_delete_row
    | apply keeps_bind; [|intros ?]
    | match goal with
      | |- keeps _ (match ?x with _ => _ end) => destruct x eqn:?
      end ].

Section KeysSurvive.

Variable fromisoformat : string -> option datetime.
Variable isoformat : datetime -> string.
Variable ilike : string -> string -> bool.
Variable order_by : ordering.

Lemma serve_keys_grow (r : Request) (db : Database) :
  exists l,
    api_keys (snd (serve fromisoformat isoformat ilike order_by r db))
    = (api_keys db ++ l)%list.
Proof.
  assert (H : keeps (fun d => exists l, api_keys d = (api_keys db ++ l)%list)
                (serve fromisoformat isoformat ilike order_by r)).
  { destruct r as [data u1 u2 u3 t1 t2 t3|data u t|key r];
      [| |destruct r]; cbn [serve serve_bearer];
      unfold respond, signup, login, get_current_user,
        generate_signed_upload_url, create_document, list_documents,
        get_document, update_document, delete_document,
        export_documents_csv, get_documents_summary,
        create_stripe_checkout_session;
      cbv zeta; keys_grow_steps. }
  apply H. exists []. rewrite app_nil_r. reflexivity.
Qed.

(** X7. A key that resolves keeps resolving to the same user after any
    request is served, whoever sends it and whether it succeeds: no
    endpoint revokes, replaces or shadows a key. *)
Theorem keys_survive_requests (r : Request) (db : Database)
  (key : option string) (user_id : string) :
  fst (verify_api_key key db) = inr user_id ->
  fst (verify_api_key key (snd (serve fromisoformat isoformat ilike order_by r
      db)))
  = inr user_id.
Proof.
  destruct (serve_keys_grow r db) as [l Hl].
  unfold verify_api_key. destruct (truthy key) as [k|]; [|intros H; exact H].
  unfold bind, query. rewrite Hl.
  destruct (find _ (api_keys db)) as [rec|] eqn:Hf; [|discriminate].
  rewrite (find_app_l _ _ l _ Hf). trivial.
Qed.

End KeysSurvive.

Lemma keys_survive_requests_witness :
  fst (verify_api_key (Some "hlai_k1") two_tenants_db) = inr "user-alice"
  /\ fst (verify_api_key (Some "hlai_k1")
            (snd (serve fromisoformat_sample isoformat_sample ilike_ascii
                insertion_order
                    (Login (mkLoginRequest "u@acme.test" "pw")
                       (uuid_of "k3") 600)
                    two_tenants_db)))
     = inr "user-alice".
Proof.
  split; [reflexivity|].
  exact (keys_survive_requests fromisoformat_sample isoformat_sample
    ilike_ascii insertion_order
    (Login (mkLoginRequest "u@acme.test" "pw") (uuid_of "k3") 600)
    two_tenants_db (Some "hlai_k1") "user-alice" eq_refl).
Defined.

(** *** Signup and login, case by case *)

Lemma within_fits (n : nat) (s : string) : within n s -> fits n s = true.
Proof. unfold within, fits. intros H. apply Nat.leb_le. exact H. Qed.

Lemma add_organization_ok (o : Organization.t) (db : Database) :
  within 255 (Organization.name o) ->
  within 255 (Organization.email o) ->
  within 50 (Organization.subscription_status o) ->
  within 50 (Organization.plan_type o) ->
  (forall x, In x (organizations db) ->
   Organization.id x <> Organization.id o
   /\ Organization.email x <> Organization.email o) ->
  add_organization o db
  = (inr tt, mkDatabase (organizations db ++ [o])%list (users db)
               (documents db) (api_keys db) (api_keys_id_seq db)).
Proof.
  intros W1 W2 W3 W4 H. unfold add_organization.
  rewrite !within_fits by assumption. cbn [andb negb].
  rewrite has_false; [reflexivity|].
  intros x Hx. destruct (H x Hx) as [H1 H2].
  apply String.eqb_neq in H1, H2. rewrite H1, H2. reflexivity.
Qed.

Lemma add_user_ok (u : User.t) (db : Database) :
  within 255 (User.email u) ->
  within 255 (User.full_name u) ->
  within 255 (User.password u) ->
  (forall x, In x (users db) ->
   User.id x <> User.id u /\ User.email x <> User.email u) ->
  organization_exists (User.org_id u) db = true ->
  add_user u db
  = (inr tt, mkDatabase (organizations db) (users db ++ [u])%list
               (documents db) (api_keys db) (api_keys_id_seq db)).
Proof.
  intros W1 W2 W3 H Horg. unfold add_user.
  unfold organization_exists in Horg.
  rewrite !within_fits by assumption. cbn [andb negb].
  rewrite Horg, has_false; [reflexivity|].
  intros x Hx. destruct (H x Hx) as [H1 H2].
  apply String.eqb_neq in H1, H2. rewrite H1, H2. reflexivity.
Qed.

Lemma add_api_key_ok (k uid : string) (now : datetime) (db : Database) :
  within 255 k ->
  (forall x, In x (api_keys db) -> APIKey.api_key x <> k) ->
  user_exists uid db = true ->
  add_api_key k uid now db
  = (inr tt, mkDatabase (organizations db) (users db) (documents db)
               (api_keys db
                ++ [APIKey.mk (api_keys_id_seq db) k uid now true])%list
               (api_keys_id_seq db + 1)).
Proof.
  intros W H Huser. unfold add_api_key. cbv zeta.
  unfold user_exists in Huser.
  rewrite (within_fits _ _ W). cbn [negb].
  rewrite Huser, has_false; [reflexivity|].
  intros x Hx. apply String.eqb_neq. apply H. exact Hx.
Qed.

Lemma add_api_key_taken (k uid : string) (now : datetime) (db : Database)
  (x : APIKey.t) :
  within 255 k ->
  In x (api_keys db) -> APIKey.api_key x = k ->
  add_api_key k uid now db
  = (inl IntegrityError,
     mkDatabase (organizations db) (users db) (documents db) (api_keys db)
       (api_keys_id_seq db + 1)).
Proof.
  intros W Hin Hk. unfold add_api_key. cbv zeta.
  rewrite (within_fits _ _ W). cbn [negb].
  rewrite (has_true _ _ x Hin); [reflexivity|].
  apply String.eqb_eq. exact Hk.
Qed.

Lemma user_by_email_none (email : string) (db : Database) :
  (forall u, In u (users db) -> User.email u <> email) ->
  user_by_email email db = None.
Proof.
  intros H. unfold user_by_email. apply find_none_iff.
  intros u Hu. apply String.eqb_neq. apply H. exact Hu.
Qed.

(** X8. With a user email nobody has, an organization email nobody has,
    fresh uuids and every string within the width of its column (255),
    [signup] succeeds: it appends one organization ("active", "starter"),
    one active user of that organization and one active key of that user,
    leaves every other row alone, and the key it returns resolves to the
    new user. *)
Theorem signup_creates_tenant (db : Database) (data : OrganizationSignup)
  (org_uuid user_uuid key_uuid : uuid.UUID)
  (now_org now_user now_key : datetime) :
  (forall u, In u (users db) ->
   User.email u <> user_email data /\ User.id u <> uuid.str user_uuid) ->
  (forall o, In o (organizations db) ->
   Organization.id o <> uuid.str org_uuid
   /\ Organization.email o <> org_email data) ->
  (forall k, In k (api_keys db) ->
   APIKey.api_key k <> "hlai_" ++ uuid.hex key_uuid) ->
  within 255 (org_name data) ->
  within 255 (org_email data) ->
  within 255 (user_email data) ->
  within 255 (signup_full_name data) ->
  within 255 (signup_password data) ->
  within 255 ("hlai_" ++ uuid.hex key_uuid) ->
  let key := "hlai_" ++ uuid.hex key_uuid in
  let org := Organization.mk (uuid.str org_uuid) (org_name data)
               (org_email data) "active" "starter" now_org in
  let user := User.mk (uuid.str user_uuid) (uuid.str org_uuid)
                (user_email data) (signup_full_name data)
                (signup_password data) true now_user in
  exists db',
    signup data org_uuid user_uuid key_uuid now_org now_user now_key db
    = (inr (mkAuthResponse "Signup successful" key (uuid.str user_uuid)
              (uuid.str org_uuid)), db')
    /\ organizations db' = (organizations db ++ [org])%list
    /\ users db' = (users db ++ [user])%list
    /\ api_keys db'
       = (api_keys db
          ++ [APIKey.mk (api_keys_id_seq db) key (uuid.str user_uuid)
                now_key true])%list
    /\ documents db' = documents db
    /\ caller (Some key) db' = Some user.
Proof.
  intros Husers Horgs Hkeys W1 W2 W3 W4 W5 W6 key org user.
  eexists. split; [|split; [|split; [|split; [|split]]]].
  - unfold signup, bind, query.
    rewrite user_by_email_none by (intros u Hu; apply Husers; exact Hu).
    cbv beta iota zeta.
    rewrite add_organization_ok;
      [|assumption|assumption|unfold within; simpl; lia
       |unfold within; simpl; lia|exact Horgs].
    cbv beta iota.
    rewrite add_user_ok; [|assumption|assumption|assumption| |].
    + cbv beta iota. rewrite add_api_key_ok.
      * reflexivity.
      * exact W6.
      * exact Hkeys.
      * unfold user_exists. cbn [users]. apply has_app_r.
        apply String.eqb_refl.
    + cbn [users]. intros x Hx. destruct (Husers x Hx). simpl. tauto.
    + unfold organization_exists. cbn [organizations]. apply has_app_r.
      apply String.eqb_refl.
  - reflexivity.
  - reflexivity.
  - reflexivity.
  - reflexivity.
  - unfold caller, verify_api_key. simpl. unfold bind, query.
    cbn [api_keys]. rewrite find_last.
    + cbn [APIKey.user_id]. unfold user_by_id. cbn [users].
      apply find_last.
      * intros y Hy. apply String.eqb_neq. apply Husers. exact Hy.
      * apply String.eqb_refl.
    + intros y Hy. apply andb_false_iff. left. apply String.eqb_neq.
      apply Hkeys. exact Hy.
    + simpl. rewrite String.eqb_refl. reflexivity.
Qed.


(** X10. [signup] commits in three steps and does not undo them: with
    every string within the width of its column, when the generated key
    is already in the keys table the organization and the user are
    stored, no key is, the outcome is an [IntegrityError] (status 500),
    and repeating the signup is answered 400 "Email already
    registered". *)
Theorem signup_keeps_partial_rows (db : Database) (data : OrganizationSignup)
  (org_uuid user_uuid key_uuid : uuid.UUID)
  (now_org now_user now_key : datetime) (taken : APIKey.t) :
  (forall u, In u (users db) ->
   User.email u <> user_email data /\ User.id u <> uuid.str user_uuid) ->
  (forall o, In o (organizations db) ->
   Organization.id o <> uuid.str org_uuid
   /\ Organization.email o <> org_email data) ->
  In taken (api_keys db) ->
  APIKey.api_key taken = "hlai_" ++ uuid.hex key_uuid ->
  within 255 (org_name data) ->
  within 255 (org_email data) ->
  within 255 (user_email data) ->
  within 255 (signup_full_name data) ->
  within 255 (signup_password data) ->
  within 255 ("hlai_" ++ uuid.hex key_uuid) ->
  exists db',
    signup data org_uuid user_uuid key_uuid now_org now_user now_key db
    = (inl IntegrityError, db')
    /\ status_code_of IntegrityError = 500
    /\ organizations db'
       = (organizations db
          ++ [Organization.mk (uuid.str org_uuid) (org_name data)
                (org_email data) "active" "starter" now_org])%list
    /\ users db'
       = (users db
          ++ [User.mk (uuid.str user_uuid) (uuid.str org_uuid)
                (user_email data) (signup_full_name data)
                (signup_password data) true now_user])%list
    /\ api_keys db' = api_keys db
    /\ forall u1 u2 u3 t1 t2 t3,
         signup data u1 u2 u3 t1 t2 t3 db'
         = (inl (HTTPException 400 "Email already registered"), db').
Proof.
  intros Husers Horgs Hin Hkey W1 W2 W3 W4 W5 W6.
  eexists. split; [|split; [reflexivity|split; [|split; [|split]]]].
  - unfold signup, bind, query.
    rewrite user_by_email_none by (intros u Hu; apply Husers; exact Hu).
    cbv beta iota zeta.
    rewrite add_organization_ok;
      [|assumption|assumption|unfold within; simpl; lia
       |unfold within; simpl; lia|exact Horgs].
    cbv beta iota.
    rewrite add_user_ok; [|assumption|assumption|assumption| |].
    + cbv beta iota.
      rewrite (add_api_key_taken _ _ _ _ taken);
        [reflexivity|exact W6| |exact Hkey].
      exact Hin.
    + cbn [users]. intros x Hx. destruct (Husers x Hx). simpl. tauto.
    + unfold organization_exists. cbn [organizations]. apply has_app_r.
      apply String.eqb_refl.
  - reflexivity.
  - reflexivity.
  - reflexivity.
  - intros u1 u2 u3 t1 t2 t3. unfold signup, bind, query.
    unfold user_by_email. cbn [users].
    destruct (find _ (users db ++ _)) eqn:Hf; [reflexivity|].
    exfalso.
    assert (Hlast : In (User.mk (uuid.str user_uuid) (uuid.str org_uuid)
                          (user_email data) (signup_full_name data)
                          (signup_password data) true now_user)
                      (users db
                       ++ [User.mk (uuid.str user_uuid) (uuid.str org_uuid)
                             (user_email data) (signup_full_name data)
                             (signup_password data) true now_user])).
    { apply in_or_app. right. left. reflexivity. }
    pose proof (find_none _ _ Hf _ Hlast) as Hno. simpl in Hno.
    rewrite String.eqb_refl in Hno. discriminate.
Qed.

(** X11. [login] is answered 401 "Invalid credentials", and stores
    nothing, when no user has the email or when the user who has it has
    another password. *)
Theorem login_rejects (db : Database) (data : LoginRequest)
  (key_uuid : uuid.UUID) (now_key : datetime) :
  (forall u, In u (users db) -> User.email u = login_email data ->
   User.password u <> login_password data) ->
  login data key_uuid now_key db
  = (inl (HTTPException 401 "Invalid credentials"), db).
Proof.
  intros H. unfold login, bind, query.
  destruct (user_by_email (login_email data) db) as [u|] eqn:Hf;
    [|reflexivity].
  unfold user_by_email in Hf. apply find_some in Hf.
  destruct Hf as [Hin Hemail]. apply String.eqb_eq in Hemail.
  pose proof (H u Hin Hemail) as Hpw. apply String.eqb_neq in Hpw.
  rewrite Hpw. reflexivity.
Qed.

(** X12. A [login] that succeeds was given the email and password of a
    stored user; its response names that user and organization and a key
    that no row held before; the key is appended, active, for that user,
    and every other table is as before. *)
Theorem login_only_with_credentials (db db' : Database) (data : LoginRequest)
  (key_uuid : uuid.UUID) (now_key : datetime) (r : AuthResponse) :
  login data key_uuid now_key db = (inr r, db') ->
  exists u,
    In u (users db)
    /\ User.email u = login_email data
    /\ User.password u = login_password data
    /\ r = mkAuthResponse "Login successful" ("hlai_" ++ uuid.hex key_uuid)
             (User.id u) (User.org_id u)
    /\ (forall k, In k (api_keys db) ->
        APIKey.api_key k <> auth_api_key r)
    /\ api_keys db'
       = (api_keys db
          ++ [APIKey.mk (api_keys_id_seq db) (auth_api_key r) (User.id u)
                now_key true])%list
    /\ users db' = users db
    /\ organizations db' = organizations db
    /\ documents db' = documents db.
Proof.
  unfold login, bind, query.
  destruct (user_by_email (login_email data) db) as [u|] eqn:Hf;
    [|discriminate].
  unfold user_by_email in Hf. apply find_some in Hf.
  destruct Hf as [Hin Hemail]. apply String.eqb_eq in Hemail.
  destruct (String.eqb_spec (User.password u) (login_password data))
    as [Hpw|Hpw]; [|discriminate].
  cbn [negb]. cbv beta iota zeta. unfold add_api_key. cbv zeta.
  destruct (fits 255 _); cbn [negb]; [|discriminate].
  destruct (has _ (api_keys db)) eqn:Hfresh; [discriminate|].
  destruct (has _ (users db)); [|discriminate].
  simpl. intros H. injection H as <- <-.
  exists u. repeat split; try assumption.
  intros k Hk. apply String.eqb_neq.
  exact (has_false_inv _ _ k Hfresh Hk).
Qed.

Lemma signup_creates_tenant_witness :
  exists db',
    signup (mkOrganizationSignup "Initech" "i@initech.test"
              "u@initech.test" "pw3" "Carol")
      (uuid_of "org-initech") (uuid_of "user-carol") (uuid_of "k3")
      600 600 600 two_tenants_db
    = (inr (mkAuthResponse "Signup successful" "hlai_k3" "user-carol"
              "org-initech"), db')
    /\ List.length (users db') = 3%nat
    /\ caller (Some "hlai_k3") db'
       = Some (User.mk "user-carol" "org-initech" "u@initech.test" "Carol"
                 "pw3" true 600).
Proof.
  destruct (signup_creates_tenant two_tenants_db
              (mkOrganizationSignup "Initech" "i@initech.test"
                 "u@initech.test" "pw3" "Carol")
              (uuid_of "org-initech") (uuid_of "user-carol") (uuid_of "k3")
              600 600 600)
    as [db' [Hs [_ [Hu [_ [_ Hc]]]]]];
    try (unfold within; simpl; lia).
  - intros u [<-|[<-|[]]]; split; discriminate.
  - intros o [<-|[<-|[]]]; split; discriminate.
  - intros k [<-|[<-|[]]]; discriminate.
  - exists db'. split; [exact Hs|]. split; [rewrite Hu; reflexivity|].
    exact Hc.
Defined.


Lemma signup_keeps_partial_rows_witness :
  exists db',
    signup (mkOrganizationSignup "Initech" "i@initech.test"
              "u@initech.test" "pw3" "Carol")
      (uuid_of "org-initech") (uuid_of "user-carol") (uuid_of "k1")
      600 600 600 two_tenants_db
    = (inl IntegrityError, db')
    /\ List.length (users db') = 3%nat
    /\ api_keys db' = api_keys two_tenants_db.
Proof.
  destruct (signup_keeps_partial_rows two_tenants_db
              (mkOrganizationSignup "Initech" "i@initech.test"
                 "u@initech.test" "pw3" "Carol")
              (uuid_of "org-initech") (uuid_of "user-carol") (uuid_of "k1")
              600 600 600 (APIKey.mk 1 "hlai_k1" "user-alice" 100 true))
    as [db' [Hs [_ [_ [Hu [Hk _]]]]]];
    try (unfold within; simpl; lia).
  - intros u [<-|[<-|[]]]; split; discriminate.
  - intros o [<-|[<-|[]]]; split; discriminate.
  - left. reflexivity.
  - reflexivity.
  - exists db'. split; [exact Hs|]. split; [rewrite Hu; reflexivity|].
    exact Hk.
Defined.

Lemma login_rejects_witness :
  login (mkLoginRequest "u@acme.test" "wrong") (uuid_of "k3") 600
    two_tenants_db
  = (inl (HTTPException 401 "Invalid credentials"), two_tenants_db).
Proof.
  apply (login_rejects two_tenants_db (mkLoginRequest "u@acme.test" "wrong")
           (uuid_of "k3") 600).
  intros u [<-|[<-|[]]]; simpl; intros; discriminate.
Defined.

Lemma login_only_with_credentials_witness :
  exists r db',
    login (mkLoginRequest "u@acme.test" "pw") (uuid_of "k3") 600
      two_tenants_db = (inr r, db')
    /\ exists u,
         In u (users two_tenants_db)
         /\ User.password u = "pw"
         /\ auth_api_key r = "hlai_k3"
         /\ users db' = users two_tenants_db.
Proof.
  eexists. eexists. split; [vm_compute; reflexivity|].
  destruct (login_only_with_credentials two_tenants_db _
              (mkLoginRequest "u@acme.test" "pw") (uuid_of "k3") 600 _
              eq_refl)
    as [u [Hin [_ [Hpw [Hr [_ [_ [Hu _]]]]]]]].
  exists u. split; [exact Hin|]. split; [exact Hpw|].
  split; [reflexivity|exact Hu].
Defined.

(** *** Creating, deleting and updating, end to end *)

Section DocumentLifecycle.

Variable fromisoformat : string -> option datetime.
Variable isoformat : datetime -> string.
Variable ilike : string -> string -> bool.
Variable order_by : ordering.

(** X13. A caller whose organization exists registers a document under a
    fresh id, with a filename and an object key within the width of their
    columns (500): the row is appended with the caller's [org_id], status
    "processing", no expiry and no override; the same key then reads it
    back through [get_document], and the unfiltered list of the
    organization has it, its total one higher than before. *)
Theorem created_document_is_served (db : Database) (key : option string)
  (u : User.t) (data : DocumentCreate) (doc_uuid : uuid.UUID)
  (now : datetime) :
  caller key db = Some u ->
  organization_exists (User.org_id u) db = true ->
  (forall d, In d (documents db) -> Document.id d <> uuid.str doc_uuid) ->
  within 500 (create_filename data) ->
  within 500 (object_key data) ->
  let document :=
    Document.mk (uuid.str doc_uuid) (User.org_id u) (create_filename data)
      (object_key data) "processing" None false None None None now None in
  exists db',
    create_document isoformat data key doc_uuid now db
    = (inr (mkCreateResponse "Document created successfully"
              (mkCreatedDocument (uuid.str doc_uuid) (User.org_id u)
                 (create_filename data) (object_key data) "processing"
                 (isoformat now))), db')
    /\ documents db' = (documents db ++ [document])%list
    /\ get_document isoformat (uuid.str doc_uuid) key db'
       = (inr (mkDetailResponse (uuid.str doc_uuid) (User.org_id u)
                 (create_filename data) (object_key data) "processing"
                 None false None None (isoformat now) None), db')
    /\ In document (list_query ilike (User.org_id u) None None db')
    /\ len (list_query ilike (User.org_id u) None None db')
       = len (list_query ilike (User.org_id u) None None db) + 1.
Proof.
  intros Hcaller Horg Hfresh Wf Wk document.
  destruct (caller_inv _ _ _ Hcaller) as [uid [Hv Hu]].
  set (db' := mkDatabase (organizations db) (users db)
                (documents db ++ [document])%list (api_keys db)
                (api_keys_id_seq db)).
  assert (Hcaller' : caller key db' = Some u).
  { unfold db'. rewrite caller_documents. exact Hcaller. }
  destruct (caller_inv _ _ _ Hcaller') as [uid' [Hv' Hu']].
  assert (Hfind : document_by_id (uuid.str doc_uuid) db' = Some document).
  { unfold document_by_id, db'. cbn [documents]. apply find_last.
    - intros y Hy. apply String.eqb_neq. apply Hfresh. exact Hy.
    - apply String.eqb_refl. }
  exists db'. split; [|split; [reflexivity|split; [|split]]].
  - unfold create_document, bind, query. rewrite Hv. cbv beta iota.
    rewrite Hu. cbv beta iota zeta. unfold add_document.
    unfold organization_exists in Horg.
    cbn [Document.org_id Document.id Document.filename
         Document.gcs_object_key Document.status].
    rewrite (within_fits _ _ Wf), (within_fits _ _ Wk).
    change (fits 50 "processing") with true. cbn [andb negb].
    rewrite Horg, has_false; [reflexivity|].
    intros y Hy. apply String.eqb_neq. apply Hfresh. exact Hy.
  - unfold get_document, bind, query. rewrite Hv'. cbv beta iota.
    rewrite Hu', Hfind. simpl. rewrite String.eqb_refl. reflexivity.
  - unfold list_query, filter_search, filter_status, documents_of_org.
    simpl. apply filter_In. split.
    + apply in_or_app. right. left. reflexivity.
    + apply String.eqb_refl.
  - unfold list_query, filter_search, filter_status, documents_of_org, len.
    simpl. rewrite filter_app, length_app. simpl.
    rewrite String.eqb_refl. simpl. lia.
Qed.

Lemma delete_document_found (db : Database) (key : option string)
  (u : User.t) (D : string) (d : Document.t) :
  caller key db = Some u ->
  document_by_id D db = Some d ->
  Document.org_id d = User.org_id u ->
  delete_document D key db
  = (inr tt,
     mkDatabase (organizations db) (users db)
       (filter (fun x => negb (Document.id x =? Document.id d)%string)
          (documents db))
       (api_keys db) (api_keys_id_seq db)).
Proof.
  intros Hcaller Hd Horg.
  destruct (caller_inv _ _ _ Hcaller) as [uid [Hv Hu]].
  unfold delete_document, bind, query. rewrite Hv. cbv beta iota.
  rewrite Hu, Hd. simpl. rewrite Horg, String.eqb_refl. reflexivity.
Qed.

(** X14. Deleting an owned document removes that row and no other, leaves
    the other tables alone, and afterwards every document-scoped
    operation on the same id (get, update, a second delete) is answered
    404. *)
Theorem deleted_document_is_gone (db : Database) (key : option string)
  (u : User.t) (d : Document.t) :
  constraints db ->
  caller key db = Some u ->
  In d (documents db) ->
  Document.org_id d = User.org_id u ->
  exists db',
    delete_document (Document.id d) key db = (inr tt, db')
    /\ (forall x, In x (documents db')
                  <-> In x (documents db) /\ x <> d)
    /\ (users db' = users db /\ organizations db' = organizations db
        /\ api_keys db' = api_keys db)
    /\ (forall r, document_scoped r = Some (Document.id d) ->
        serve_bearer fromisoformat isoformat ilike order_by r key db'
        = (inl (HTTPException 404 "Document not found"), db')).
Proof.
  intros Hc Hcaller Hin Horg.
  pose proof (document_by_id_unique db d (documents_pk db Hc) Hin) as Hd.
  rewrite (delete_document_found db key u _ d Hcaller Hd Horg).
  eexists. split; [reflexivity|]. split; [|split].
  - intros x. cbn [documents]. rewrite filter_In. split.
    + intros [Hx Hne]. split; [exact Hx|]. intros ->.
      rewrite String.eqb_refl in Hne. discriminate.
    + intros [Hx Hne]. split; [exact Hx|].
      destruct (String.eqb_spec (Document.id x) (Document.id d)) as [E|E];
        [|reflexivity].
      exfalso. apply Hne.
      apply (nodup_map_inj Document.id (documents db));
        [apply (documents_pk db Hc)|assumption..].
  - repeat split.
  - intros r Hr.
    set (db' := mkDatabase (organizations db) (users db)
                  (filter (fun x => negb (Document.id x =? Document.id
                      d)%string)
                     (documents db))
                  (api_keys db) (api_keys_id_seq db)).
    assert (Hcaller' : caller key db' = Some u).
    { unfold db'. rewrite caller_documents. exact Hcaller. }
    destruct (caller_inv _ _ _ Hcaller') as [uid [Hv Hu]].
    assert (Habs : document_by_id (Document.id d) db' = None).
    { apply document_by_id_absent. intros x Hx. unfold db' in Hx.
      cbn [documents] in Hx. apply filter_In in Hx.
      destruct Hx as [_ Hne]. apply negb_true_iff in Hne.
      apply String.eqb_neq. exact Hne. }
    destruct r; try discriminate; simpl in Hr; injection Hr as ->;
      enter_gate Hv Hu; rewrite Habs; reflexivity.
Qed.

(** X15. An update that supplies neither field, or supplies them as empty
    strings, succeeds on an owned document, reports the document as it
    is, and leaves the database exactly as it was. *)
Theorem empty_update_changes_nothing (db : Database) (key : option string)
  (u : User.t) (d : Document.t) (data : DocumentUpdate) (now : datetime) :
  constraints db ->
  caller key db = Some u ->
  In d (documents db) ->
  Document.org_id d = User.org_id u ->
  truthy (expiry_date data) = None ->
  truthy (status data) = None ->
  exists r,
    update_document fromisoformat isoformat (Document.id d) data key now db
    = (inr r, db)
    /\ update_document_body r
       = mkUpdatedDocument (Document.id d) (Document.status d)
           (option_map isoformat (Document.expiry_date d))
           (Document.manual_override d).
Proof.
  intros Hc Hcaller Hin Horg He Hs.
  pose proof (document_by_id_unique db d (documents_pk db Hc) Hin) as Hd.
  rewrite (update_document_found fromisoformat isoformat db key u _ d data
             now Hcaller Hd Horg).
  unfold apply_update. rewrite He, Hs.
  rewrite status_fits by (intros x; left; reflexivity).
  assert (Hsame : map (fun x => if (Document.id x =? Document.id d)%string
                                then x else x) (documents db)
                  = documents db).
  { rewrite <- (map_id (documents db)) at 2. apply map_ext.
    intros x. destruct (Document.id x =? Document.id d)%string;
      reflexivity. }
  rewrite Hsame. destruct db as [o us docs ks seq].
  eexists. split; reflexivity.
Qed.

(** X16. The endpoints that only read (profile, upload signing, list,
    get, CSV export, summary, checkout) return the database they were
    given, whatever the key and whether they succeed or fail. *)
Theorem read_only_requests_store_nothing (r : BearerRequest)
  (key : option string) (db : Database) :
  read_only r = true ->
  snd (serve_bearer fromisoformat isoformat ilike order_by r key db) = db.
Proof.
  intros Hr.
  assert (H : keeps (fun d => d = db)
                (serve_bearer fromisoformat isoformat ilike order_by r key)).
  { destruct r; try discriminate Hr; cbn [serve_bearer];
      unfold respond, get_current_user, generate_signed_upload_url,
        list_documents, get_document, export_documents_csv,
        get_documents_summary, create_stripe_checkout_session;
      cbv zeta;
      repeat first
        [ apply keeps_ret
        | apply keeps_query
        | apply keeps_raise
        | apply keeps_attr
        | apply keeps_verify_api_key
        | apply keeps_bind; [|intros ?]
        | match goal with
          | |- keeps _ (match ?x with _ => _ end) => destruct x eqn:?
          end ]. }
  apply H. reflexivity.
Qed.

End DocumentLifecycle.

Lemma created_document_is_served_witness :
  caller (Some "hlai_k2") two_tenants_db
  = Some (User.mk "user-bob" "org-globex" "u@globex.test" "Bob" "pw2" true
            200)
  /\ exists db',
       create_document isoformat_sample (mkDocumentCreate "k9" "visa.pdf")
         (Some "hlai_k2") (uuid_of "doc-9") 900 two_tenants_db
       = (inr (mkCreateResponse "Document created successfully"
                 (mkCreatedDocument "doc-9" "org-globex" "visa.pdf" "k9"
                    "processing" (isoformat_sample 900))), db')
       /\ get_document isoformat_sample "doc-9" (Some "hlai_k2") db'
          = (inr (mkDetailResponse "doc-9" "org-globex" "visa.pdf" "k9"
                    "processing" None false None None
                    (isoformat_sample 900) None), db').
Proof.
  split; [reflexivity|].
  destruct (created_document_is_served isoformat_sample ilike_ascii
              two_tenants_db (Some "hlai_k2")
              (User.mk "user-bob" "org-globex" "u@globex.test" "Bob" "pw2"
                 true 200)
              (mkDocumentCreate "k9" "visa.pdf") (uuid_of "doc-9") 900
              eq_refl eq_refl)
    as [db' [Hcreate [_ [Hget _]]]].
  - intros d [<-|[<-|[<-|[]]]]; discriminate.
  - unfold within. simpl. lia.
  - unfold within. simpl. lia.
  - exists db'. split; [exact Hcreate|exact Hget].
Defined.

Lemma deleted_document_is_gone_witness :
  constraints two_tenants_db
  /\ caller (Some "hlai_k1") two_tenants_db = Some alice
  /\ In lease (documents two_tenants_db)
  /\ exists db',
       delete_document "doc-1" (Some "hlai_k1") two_tenants_db
       = (inr tt, db')
       /\ serve_bearer fromisoformat_sample isoformat_sample ilike_ascii
           insertion_order
            (GetDocument "doc-1") (Some "hlai_k1") db'
          = (inl (HTTPException 404 "Document not found"), db').
Proof.
  split; [exact two_tenants_constraints|].
  split; [reflexivity|]. split; [left; reflexivity|].
  destruct (deleted_document_is_gone fromisoformat_sample isoformat_sample
              ilike_ascii insertion_order two_tenants_db (Some "hlai_k1")
                  alice lease
              two_tenants_constraints eq_refl (or_introl eq_refl) eq_refl)
    as [db' [Hdel [_ [_ Hgone]]]].
  exists db'. split; [exact Hdel|].
  exact (Hgone (GetDocument "doc-1") eq_refl).
Defined.

Lemma empty_update_changes_nothing_witness :
  constraints two_tenants_db
  /\ caller (Some "hlai_k1") two_tenants_db = Some alice
  /\ In lease (documents two_tenants_db)
  /\ exists r,
       update_document fromisoformat_sample isoformat_sample "doc-1"
         (mkDocumentUpdate (Some "") None) (Some "hlai_k1") 600
         two_tenants_db = (inr r, two_tenants_db)
       /\ update_document_body r
          = mkUpdatedDocument "doc-1" "processing" None false.
Proof.
  split; [exact two_tenants_constraints|].
  split; [reflexivity|]. split; [left; reflexivity|].
  exact (empty_update_changes_nothing fromisoformat_sample isoformat_sample
    two_tenants_db (Some "hlai_k1") alice lease
    (mkDocumentUpdate (Some "") None) 600 two_tenants_constraints eq_refl
    (or_introl eq_refl) eq_refl eq_refl eq_refl).
Defined.

Lemma read_only_requests_store_nothing_witness :
  read_only (ListDocuments (Some 1) (Some 10) None (Some "lease")) = true
  /\ snd (serve_bearer fromisoformat_sample isoformat_sample ilike_ascii
      insertion_order
            (ListDocuments (Some 1) (Some 10) None (Some "lease"))
            (Some "hlai_k1") two_tenants_db)
     = two_tenants_db.
Proof.
  split; [reflexivity|].
  exact (read_only_requests_store_nothing fromisoformat_sample
    isoformat_sample ilike_ascii insertion_order
    (ListDocuments (Some 1) (Some 10) None (Some "lease")) (Some "hlai_k1")
    two_tenants_db eq_refl).
Defined.

(** *** Failed requests *)

Lemma same_tables_refl (db : Database) : same_tables db db.
Proof. repeat split. Qed.

Section Clean.

Variable R : Database -> Database -> Prop.
Hypothesis R_refl : forall db, R db db.

Lemma clean_ret {A} (a : A) : clean R (ret a).
Proof. intros db. left. apply R_refl. Qed.

Lemma clean_raise {A} (e : exception) : clean R (@raise A e).
Proof. intros db. left. apply R_refl. Qed.

Lemma clean_after_read {A B} (c : M A) (k : A -> M B) :
  (forall db, snd (c db) = db) -> (forall a, clean R (k a)) ->
  clean R (bind c k).
Proof.
  intros Hc Hk db. unfold bind. specialize (Hc db).
  destruct (c db) as [[e|a] db1]; simpl in *; subst db1.
  - left. apply R_refl.
  - apply Hk.
Qed.

Lemma clean_then_ret {A B} (c : M A) (f : A -> B) :
  clean R c -> clean R (bind c (fun a => ret (f a))).
Proof.
  intros Hc db. unfold bind. specialize (Hc db).
  destruct (c db) as [[e|a] db1]; simpl in *.
  - destruct Hc as [Hc|[x Hx]]; [left; exact Hc|discriminate].
  - right. eexists. reflexivity.
Qed.

Lemma clean_add_document (d : Document.t) : clean R (add_document d).
Proof.
  intros db. unfold add_document.
  destruct (negb _); [left; apply R_refl|].
  destruct (_ || _); [left; apply R_refl|right; eexists; reflexivity].
Qed.

Lemma clean_update_row (D : string) (f : Document.t -> Document.t) :
  clean R (update_document_row D f).
Proof.
  intros db. unfold update_document_row.
  destruct (has _ _); [left; apply R_refl|right; eexists; reflexivity].
Qed.

Lemma clean_delete_row (D : string) : clean R (delete_document_row D).
Proof. intros db. right. eexists. reflexivity. Qed.

End Clean.

(** A failed insert of a key has drawn from the sequence, and stored no
    row. *)
Lemma clean_add_api_key (k uid : string) (now : datetime) :
  clean same_tables (add_api_key k uid now).
Proof.
  intros db. unfold add_api_key. cbv zeta.
  destruct (negb _); [left; repeat split|].
  destruct (_ || _); [left; repeat split|right; eexists; reflexivity].
Qed.

Lemma query_reads {A} (q : Database -> A) (db : Database) :
  snd (query q db) = db.
Proof. reflexivity. Qed.

Lemma attr_reads {R A} (o : option R) (f : R -> A) (db : Database) :
  snd (attr o f db) = db.
Proof. destruct o; reflexivity. Qed.

Ltac clean_steps Hrefl :=
  repeat first
    [ apply (clean_ret _ Hrefl)
    | apply (clean_raise _ Hrefl)
    | apply (clean_add_document _ Hrefl)
    | apply clean_add_api_key
    | apply (clean_update_row _ Hrefl)
    | apply clean_delete_row
    | apply (clean_after_read _ Hrefl);
      [first [apply verify_api_key_reads | apply query_reads
             | apply attr_reads]
      |intros ?]
    | apply clean_then_ret
    | match goal with
      | |- clean _ (match ?x with _ => _ end) => destruct x eqn:?
      end ].

Section FailedRequests.

Variable fromisoformat : string -> option datetime.
Variable isoformat : datetime -> string.
Variable ilike : string -> string -> bool.
Variable order_by : ordering.

Lemma serve_bearer_clean (r : BearerRequest) (key : option string) :
  clean eq (serve_bearer fromisoformat isoformat ilike order_by r key).
Proof.
  destruct r; cbn [serve_bearer]; unfold respond; apply clean_then_ret;
    unfold get_current_user, generate_signed_upload_url,
      create_document, list_documents, get_document, update_document,
      delete_document, export_documents_csv, get_documents_summary,
      create_stripe_checkout_session;
    cbv zeta; clean_steps (@eq_refl Database).
Qed.

Lemma login_clean (data : LoginRequest) (u : uuid.UUID) (t : datetime) :
  clean same_tables (login data u t).
Proof. unfold login. cbv zeta. clean_steps same_tables_refl. Qed.

(** X17. A login or a bearer request that ends in an exception, whatever
    its status, has stored no row: the four tables are the ones it was
    given.  After a failed bearer request the whole database is; a failed
    [login] may have drawn a value from the sequence of the keys table.
    ([signup] is the one request that can fail after a commit.) *)
Theorem failed_requests_store_nothing (r : Request) (db : Database)
  (e : exception) :
  (forall data u1 u2 u3 t1 t2 t3, r <> Signup data u1 u2 u3 t1 t2 t3) ->
  fst (serve fromisoformat isoformat ilike order_by r db) = inl e ->
  same_tables (snd (serve fromisoformat isoformat ilike order_by r db)) db
  /\ (forall key b, r = Bearer key b ->
      snd (serve fromisoformat isoformat ilike order_by r db) = db).
Proof.
  intros Hr He.
  destruct r as [data u1 u2 u3 t1 t2 t3|data u t|key b].
  - exfalso. eapply Hr. reflexivity.
  - split; [|discriminate].
    cbn [serve] in *. unfold respond in *.
    destruct (clean_then_ret _ _ AuthBody (login_clean data u t) db)
      as [H|[a Ha]]; [exact H|].
    rewrite Ha in He. discriminate.
  - cbn [serve] in *.
    destruct (serve_bearer_clean b key db) as [H|[a Ha]].
    + split; [rewrite H; apply same_tables_refl|intros; exact H].
    + rewrite Ha in He. discriminate.
Qed.

End FailedRequests.

Lemma failed_requests_store_nothing_witness :
  fst (serve fromisoformat_sample isoformat_sample ilike_ascii
         insertion_order
         (Bearer (Some "hlai_k1")
            (CreateDocument (mkDocumentCreate "k1" "again.pdf")
               (uuid_of "doc-1") 900))
         two_tenants_db)
  = inl IntegrityError
  /\ snd (serve fromisoformat_sample isoformat_sample ilike_ascii
            insertion_order
            (Bearer (Some "hlai_k1")
               (CreateDocument (mkDocumentCreate "k1" "again.pdf")
                  (uuid_of "doc-1") 900))
            two_tenants_db)
     = two_tenants_db.
Proof.
  split; [reflexivity|].
  refine (proj2 (failed_requests_store_nothing fromisoformat_sample
                   isoformat_sample ilike_ascii insertion_order
                   (Bearer (Some "hlai_k1")
                      (CreateDocument (mkDocumentCreate "k1" "again.pdf")
                         (uuid_of "doc-1") 900))
                   two_tenants_db IntegrityError _ eq_refl) _ _ eq_refl).
  discriminate.
Defined.

(** *** Tenants do not reach each other *)

Section TenantFrame.

Variable fromisoformat : string -> option datetime.
Variable isoformat : datetime -> string.
Variable ilike : string -> string -> bool.
Variable order_by : ordering.

Lemma read_only_reads (r : BearerRequest) (key : option string)
  (db : Database) :
  read_only r = true ->
  snd (serve_bearer fromisoformat isoformat ilike order_by r key db) = db.
Proof.
  intros Hr.
  assert (H : keeps (fun d => d = db)
                (serve_bearer fromisoformat isoformat ilike order_by r key)).
  { destruct r; try discriminate Hr; cbn [serve_bearer];
      unfold respond, get_current_user, generate_signed_upload_url,
        list_documents, get_document, export_documents_csv,
        get_documents_summary, create_stripe_checkout_session;
      cbv zeta;
      repeat first
        [ apply keeps_ret
        | apply keeps_query
        | apply keeps_raise
        | apply keeps_attr
        | apply keeps_verify_api_key
        | apply keeps_bind; [|intros ?]
        | match goal with
          | |- keeps _ (match ?x with _ => _ end) => destruct x eqn:?
          end ]. }
  apply H. reflexivity.
Qed.

(** The rows of a table that an update or a delete of the row [d] leaves
    alone, under the primary key. *)
Lemma other_rows_mapped (db : Database) (d x : Document.t)
  (f : Document.t -> Document.t) :
  constraints db -> In d (documents db) ->
  (forall y, Document.org_id (f y) = Document.org_id y) ->
  Document.org_id x <> Document.org_id d ->
  In x (map (fun y => if (Document.id y =? Document.id d)%string
                      then f y else y) (documents db))
  <-> In x (documents db).
Proof.
  intros Hc Hd Hf Hx. rewrite in_map_iff. split.
  - intros [y [Hy Hin]].
    destruct (String.eqb_spec (Document.id y) (Document.id d)) as [E|E].
    + exfalso. apply Hx.
      assert (y = d)
        by (apply (nodup_map_inj Document.id (documents db));
            [apply (documents_pk db Hc)|assumption..]).
      subst y. rewrite <- Hy. apply Hf.
    + subst y. exact Hin.
  - intros Hin. exists x. split; [|exact Hin].
    destruct (String.eqb_spec (Document.id x) (Document.id d)) as [E|E];
      [|reflexivity].
    exfalso. apply Hx.
    assert (x = d)
      by (apply (nodup_map_inj Document.id (documents db));
          [apply (documents_pk db Hc)|assumption..]).
    subst x. reflexivity.
Qed.

Lemma other_rows_filtered (db : Database) (d x : Document.t) :
  constraints db -> In d (documents db) ->
  Document.org_id x <> Document.org_id d ->
  In x (filter (fun y => negb (Document.id y =? Document.id d)%string)
          (documents db))
  <-> In x (documents db).
Proof.
  intros Hc Hd Hx. rewrite filter_In. split; [tauto|].
  intros Hin. split; [exact Hin|].
  destruct (String.eqb_spec (Document.id x) (Document.id d)) as [E|E];
    [|reflexivity].
  exfalso. apply Hx.
  assert (x = d)
    by (apply (nodup_map_inj Document.id (documents db));
        [apply (documents_pk db Hc)|assumption..]).
  subst x. reflexivity.
Qed.

(** X18. Whatever bearer request a user of organization [O] sends, and
    however it ends, the documents of every other organization are the
    same rows afterwards as before, and the organizations, users and keys
    tables are unchanged. *)
Theorem other_tenants_untouched (db : Database) (key : option string)
  (u : User.t) (r : BearerRequest) :
  constraints db ->
  caller key db = Some u ->
  (forall x, Document.org_id x <> User.org_id u ->
   In x (documents (snd (serve_bearer fromisoformat isoformat ilike order_by r
       key
                           db)))
   <-> In x (documents db))
  /\ organizations (snd (serve_bearer fromisoformat isoformat ilike order_by r
      key db))
     = organizations db
  /\ users (snd (serve_bearer fromisoformat isoformat ilike order_by r key db))
     = users db
  /\ api_keys (snd (serve_bearer fromisoformat isoformat ilike order_by r key
      db))
     = api_keys db.
Proof.
  intros Hc Hcaller.
  remember (snd (serve_bearer fromisoformat isoformat ilike order_by r key db))
    as db' eqn:E.
  destruct (read_only r) eqn:Hro.
  { rewrite read_only_reads in E by exact Hro. subst db'.
    repeat split; tauto. }
  destruct (caller_inv _ _ _ Hcaller) as [uid [Hv Hu]].
  destruct r; try discriminate Hro; cbn [serve_bearer] in E;
    unfold respond in E.
  - (* create *)
    unfold create_document, bind, query in E. rewrite Hv in E.
    cbv beta iota in E. rewrite Hu in E. cbv beta iota zeta in E.
    unfold add_document in E.
    match type of E with
    | context [if negb ?c then _ else _] => destruct c
    end; [|simpl in E; subst db'; repeat split; tauto].
    cbn [negb] in E.
    match type of E with
    | context [if ?c then _ else _] => destruct c
    end; simpl in E; subst db'; [repeat split; tauto|].
    cbn [documents organizations users api_keys].
    repeat split; try tauto.
    + intros Hin. apply in_app_or in Hin. destruct Hin as [Hin|[<-|[]]];
        [exact Hin|]. simpl in H. contradiction.
    + intros Hin. apply in_or_app. left. exact Hin.
  - (* update *)
    destruct (document_by_id document_id db) as [d|] eqn:Hd.
    + destruct (String.eqb_spec (Document.org_id d) (User.org_id u))
        as [Horg|Horg].
      * unfold bind in E.
        rewrite (update_document_found fromisoformat isoformat db key u _ d
                   data now Hcaller Hd Horg) in E.
        destruct (apply_update fromisoformat data now) as [e|assign] eqn:Ha;
          [simpl in E; subst db'; repeat split; tauto|].
        destruct (has (status_overflows (Document.id d) assign)
                    (documents db));
          simpl in E; subst db'; [repeat split; tauto|].
        cbn [documents organizations users api_keys].
        destruct (document_by_id_present _ _ _ Hd) as [Hin _].
        destruct (apply_update_shape _ _ _ _ Ha) as [Hf _].
        split; [|repeat split].
        intros x Hx.
        apply (other_rows_mapped db d x assign Hc Hin Hf).
        rewrite Horg. exact Hx.
      * apply String.eqb_neq in Horg.
        unfold update_document, bind, query in E. rewrite Hv in E.
        cbv beta iota in E. rewrite Hu, Hd in E. simpl in E.
        rewrite Horg in E. simpl in E. subst db'. repeat split; tauto.
    + unfold update_document, bind, query in E. rewrite Hv in E.
      cbv beta iota in E. rewrite Hu, Hd in E. simpl in E. subst db'.
      repeat split; tauto.
  - (* delete *)
    destruct (document_by_id document_id db) as [d|] eqn:Hd.
    + destruct (String.eqb_spec (Document.org_id d) (User.org_id u))
        as [Horg|Horg].
      * unfold bind in E.
        rewrite (delete_document_found db key u _ d Hcaller Hd Horg) in E.
        simpl in E. subst db'.
        cbn [documents organizations users api_keys].
        destruct (document_by_id_present _ _ _ Hd) as [Hin _].
        split; [|repeat split].
        intros x Hx.
        apply (other_rows_filtered db d x Hc Hin).
        rewrite Horg. exact Hx.
      * apply String.eqb_neq in Horg.
        unfold delete_document, bind, query in E. rewrite Hv in E.
        cbv beta iota in E. rewrite Hu, Hd in E. simpl in E.
        rewrite Horg in E. simpl in E. subst db'. repeat split; tauto.
    + unfold delete_document, bind, query in E. rewrite Hv in E.
      cbv beta iota in E. rewrite Hu, Hd in E. simpl in E. subst db'.
      repeat split; tauto.
Qed.

End TenantFrame.

Lemma other_tenants_untouched_witness :
  constraints two_tenants_db
  /\ caller (Some "hlai_k1") two_tenants_db = Some alice
  /\ forall x, Document.org_id x <> "org-acme" ->
       In x (documents
               (snd (serve_bearer fromisoformat_sample isoformat_sample
                       ilike_ascii insertion_order (DeleteDocument "doc-1")
                       (Some "hlai_k1") two_tenants_db)))
       <-> In x (documents two_tenants_db).
Proof.
  split; [exact two_tenants_constraints|]. split; [reflexivity|].
  exact (proj1 (other_tenants_untouched fromisoformat_sample isoformat_sample
    ilike_ascii insertion_order two_tenants_db (Some "hlai_k1") alice
    (DeleteDocument "doc-1") two_tenants_constraints eq_refl)).
Defined.

(** *** Pages, filters and totals *)

Lemma slice_length {A} (o n : Z) (l : list A) :
  0 <= o -> 0 <= n ->
  Z.of_nat (List.length (firstn (Z.to_nat n) (skipn (Z.to_nat o) l)))
  = Z.max 0 (Z.min n (Z.of_nat (List.length l) - o)).
Proof.
  intros Ho Hn. rewrite length_firstn, length_skipn. lia.
Qed.

Section Pages.

Variable isoformat : datetime -> string.
Variable ilike : string -> string -> bool.
Variable order_by : ordering.

(** X19. For a caller, valid paging parameters (absent ones default to
    page 1 and page size 50) and an offset [(page-1) * page_size] within
    the engine's [bigint], the response echoes the page and the page
    size, a page holds [min(page_size, total - (page-1) * page_size)]
    items and never a negative number, and every page after the last is
    empty. *)
Theorem page_lengths (db : Database) (key : option string) (u : User.t)
  (page page_size : option Z) (status search : option string) :
  caller key db = Some u ->
  1 <= query_default 1 page ->
  1 <= query_default 50 page_size <= 100 ->
  (query_default 1 page - 1) * query_default 50 page_size <= bigint_max ->
  exists r,
    list_documents isoformat ilike order_by page page_size status search key db
    = (inr r, db)
    /\ list_page r = query_default 1 page
    /\ list_page_size r = query_default 50 page_size
    /\ Z.of_nat (List.length (list_documents_items r))
       = Z.max 0 (Z.min (list_page_size r)
                    (list_total r - (list_page r - 1) * list_page_size r))
    /\ (list_total_pages r < list_page r -> list_documents_items r = []).
Proof.
  intros Hcaller Hp Hs Ho.
  rewrite (list_documents_ok isoformat ilike order_by db key u page page_size
             status search Hcaller Hp Hs Ho).
  eexists. split; [reflexivity|]. cbn [list_page list_page_size list_total
    list_total_pages list_documents_items].
  set (p := query_default 1 page) in *.
  set (P := query_default 50 page_size) in *.
  set (matching := list_query ilike (User.org_id u) status search db).
  assert (Hlen : Z.of_nat (List.length
                   (map (list_item isoformat)
                      (firstn (Z.to_nat P)
                         (skipn (Z.to_nat ((p - 1) * P))
                            (order_rows order_by ((p - 1) * P) P
                               matching)))))
                 = Z.max 0 (Z.min P (len matching - (p - 1) * P))).
  { rewrite length_map, slice_length by nia.
    rewrite (Permutation_length (order_permutes order_by _ _ matching)).
    reflexivity. }
  split; [reflexivity|]. split; [reflexivity|]. split; [exact Hlen|].
  intros Hlast.
  apply length_zero_iff_nil. apply Nat2Z.inj. rewrite Hlen.
  assert (HN : 0 <= len matching) by (unfold len; lia).
  pose proof (Z.div_mod (len matching + P - 1) P ltac:(lia)) as Hdm.
  pose proof (Z.mod_pos_bound (len matching + P - 1) P ltac:(lia)) as Hmod.
  simpl. nia.
Qed.

(** X20. For a caller, paging parameters outside their declared bounds
    ([page < 1], [page_size < 1] or [page_size > 100]) are answered 422
    and the query is not run. *)
Theorem paging_out_of_bounds (db : Database) (key : option string)
  (u : User.t) (page page_size : option Z) (status search : option string) :
  caller key db = Some u ->
  query_default 1 page < 1 \/ query_default 50 page_size < 1
  \/ 100 < query_default 50 page_size ->
  list_documents isoformat ilike order_by page page_size status search key db
  = (inl RequestValidationError, db)
  /\ status_code_of RequestValidationError = 422.
Proof.
  intros Hcaller Hbad. split; [|reflexivity].
  destruct (caller_inv _ _ _ Hcaller) as [uid [Hv Hu]].
  unfold list_documents, bind, query. rewrite Hv. cbv beta iota zeta.
  destruct (query_default 1 page <? 1) eqn:H1; [reflexivity|].
  destruct (query_default 50 page_size <? 1) eqn:H2; [reflexivity|].
  destruct (100 <? query_default 50 page_size) eqn:H3; [reflexivity|].
  apply Z.ltb_ge in H1, H2, H3. lia.
Qed.

(** X21. The filters of the list operation compose by conjunction with
    the tenant filter: [total] is the number of stored documents that
    belong to the caller's organization, have the requested status when
    one is given, and match the search pattern when one is given (a
    filter given as the empty string is ignored); every item returned is
    one of those documents. *)
Theorem list_filters_conjoin (db db' : Database) (key : option string)
  (u : User.t) (page page_size : option Z) (status search : option string)
  (r : ListResponse) :
  caller key db = Some u ->
  list_documents isoformat ilike order_by page page_size status search key db
  = (inr r, db') ->
  let selected (d : Document.t) : bool :=
    (Document.org_id d =? User.org_id u)%string
    && match status with
       | Some s => (s =? "")%string || (Document.status d =? s)%string
       | None => true
       end
    && match search with
       | Some s =>
           (s =? "")%string || ilike (Document.filename d) ("%" ++ s ++ "%")
       | None => true
       end in
  list_total r = Z.of_nat (List.length (filter selected (documents db)))
  /\ forall item, In item (list_documents_items r) ->
       exists d, In d (documents db) /\ selected d = true
                 /\ item = list_item isoformat d.
Proof.
  intros Hcaller Hlist selected.
  destruct (list_documents_inv _ _ _ _ _ _ _ _ _ _ _ _ Hcaller Hlist)
    as [Hp [Hs Ho]].
  rewrite (list_documents_ok _ _ _ _ _ _ _ _ _ _ Hcaller Hp Hs Ho) in Hlist.
  injection Hlist as <- <-. cbn [list_total list_documents_items].
  assert (Hq : list_query ilike (User.org_id u) status search db
               = filter selected (documents db))
    by apply list_query_selected.
  split; [rewrite Hq; reflexivity|].
  intros item Hitem. apply in_map_iff in Hitem.
  destruct Hitem as [d [<- Hd]]. apply slice_incl in Hd.
  apply (Permutation_in _ (order_permutes order_by _ _ _)) in Hd.
  rewrite Hq in Hd. apply filter_In in Hd.
  exists d. tauto.
Qed.

End Pages.

Lemma page_lengths_witness :
  caller (Some "hlai_k1") two_tenants_db = Some alice
  /\ exists r,
       list_documents isoformat_sample ilike_ascii insertion_order None None
           None None
         (Some "hlai_k1") two_tenants_db = (inr r, two_tenants_db)
       /\ list_page r = 1
       /\ list_page_size r = 50
       /\ Z.of_nat (List.length (list_documents_items r))
          = Z.max 0 (Z.min (list_page_size r)
                       (list_total r
                        - (list_page r - 1) * list_page_size r)).
Proof.
  split; [reflexivity|].
  destruct (page_lengths isoformat_sample ilike_ascii insertion_order
              two_tenants_db (Some "hlai_k1") alice None None None None
              eq_refl ltac:(simpl; lia) ltac:(simpl; lia)
              ltac:(unfold bigint_max; simpl; lia))
    as [r [Hr [Hp [Hs [Hl _]]]]].
  exists r. split; [exact Hr|]. split; [exact Hp|].
  split; [exact Hs|exact Hl].
Defined.

Lemma paging_out_of_bounds_witness :
  caller (Some "hlai_k1") two_tenants_db = Some alice
  /\ list_documents isoformat_sample ilike_ascii insertion_order (Some 1)
      (Some 101) None
       None (Some "hlai_k1") two_tenants_db
     = (inl RequestValidationError, two_tenants_db).
Proof.
  split; [reflexivity|].
  exact (proj1 (paging_out_of_bounds isoformat_sample ilike_ascii
      insertion_order
    two_tenants_db (Some "hlai_k1") alice (Some 1) (Some 101) None None
    eq_refl ltac:(simpl; lia))).
Defined.

Lemma list_filters_conjoin_witness :
  caller (Some "hlai_k1") two_tenants_db = Some alice
  /\ exists r,
       list_documents isoformat_sample ilike_ascii insertion_order None None
         (Some "processing") (Some "LIC") (Some "hlai_k1") two_tenants_db
       = (inr r, two_tenants_db)
       /\ list_total r = 1.
Proof.
  split; [reflexivity|]. eexists.
  split; [vm_compute; reflexivity|].
  exact (proj1 (list_filters_conjoin isoformat_sample ilike_ascii
      insertion_order
    two_tenants_db two_tenants_db (Some "hlai_k1") alice None None
    (Some "processing") (Some "LIC") _ eq_refl eq_refl)).
Defined.

(** *** The reports agree with the list *)

Section ReportsAgree.

Variable isoformat : datetime -> string.
Variable ilike : string -> string -> bool.
Variable order_by : ordering.

(** X22. For one caller in one state, the CSV export, the summary and the
    list count the same rows: with a status filter, [total_records] of the
    export is [total] of the list under that status and no search; with
    no filter it is [total_documents] of the summary; and the export
    filtered on one of the five recognized statuses reports that bucket
    of the summary. *)
Theorem reports_agree_with_list (db : Database) (key : option string)
  (u : User.t) (status_filter start_date end_date : option string)
  (file_uuid : uuid.UUID) (now now' : datetime) :
  caller key db = Some u ->
  exists e l s,
    export_documents_csv isoformat start_date end_date status_filter key
      file_uuid now db = (inr e, db)
    /\ list_documents isoformat ilike order_by None None status_filter None
        key db
       = (inr l, db)
    /\ get_documents_summary isoformat key now' db = (inr s, db)
    /\ total_records e = list_total l
    /\ (truthy status_filter = None ->
        total_records e = total_documents s)
    /\ (status_filter = Some "active" ->
        total_records e = active (status_breakdown s))
    /\ (status_filter = Some "processing" ->
        total_records e = processing (status_breakdown s))
    /\ (status_filter = Some "expired" ->
        total_records e = expired (status_breakdown s))
    /\ (status_filter = Some "expiring_soon" ->
        total_records e = expiring_soon (status_breakdown s))
    /\ (status_filter = Some "needs_review" ->
        total_records e = needs_review (status_breakdown s)).
Proof.
  intros Hcaller.
  destruct (caller_inv _ _ _ Hcaller) as [uid [Hv Hu]].
  rewrite (list_documents_ok isoformat ilike order_by db key u None None
             status_filter None Hcaller ltac:(simpl; lia)
             ltac:(simpl; lia) ltac:(unfold bigint_max; simpl; lia)).
  unfold export_documents_csv, get_documents_summary, bind, query.
  rewrite Hv. cbv beta iota. rewrite Hu. simpl.
  eexists. eexists. eexists.
  split; [reflexivity|]. split; [reflexivity|]. split; [reflexivity|].
  simpl. unfold list_query, filter_search. simpl.
  split; [reflexivity|].
  split; [intros H; unfold filter_status; rewrite H; reflexivity|].
  repeat split; intros ->; reflexivity.
Qed.

End ReportsAgree.

Lemma reports_agree_with_list_witness :
  caller (Some "hlai_k1") five_statuses_db = Some alice
  /\ exists e l s,
       export_documents_csv isoformat_sample None None (Some "active")
         (Some "hlai_k1") (uuid_of "f1") 600 five_statuses_db
       = (inr e, five_statuses_db)
       /\ list_documents isoformat_sample ilike_ascii insertion_order None None
            (Some "active") None (Some "hlai_k1") five_statuses_db
          = (inr l, five_statuses_db)
       /\ get_documents_summary isoformat_sample (Some "hlai_k1") 700
            five_statuses_db = (inr s, five_statuses_db)
       /\ total_records e = list_total l
       /\ total_records e = active (status_breakdown s).
Proof.
  split; [reflexivity|].
  destruct (reports_agree_with_list isoformat_sample ilike_ascii insertion_order
              five_statuses_db (Some "hlai_k1") alice (Some "active") None
              None (uuid_of "f1") 600 700 eq_refl)
    as [e [l [s [He [Hl [Hs [H1 [_ [H2 _]]]]]]]]].
  exists e, l, s. split; [exact He|]. split; [exact Hl|].
  split; [exact Hs|]. split; [exact H1|]. exact (H2 eq_refl).
Defined.

(** *** Values wider than their column *)

Section Widths.

Variable fromisoformat : string -> option datetime.
Variable isoformat : datetime -> string.




End Widths.



